(** * subdomain_enum.py: the scan pipeline and its data reduction

    A shallow embedding of [subdomain_enum.py]: text handling as Python's
    [str] methods do it, the file system, the external tools and the HTTP
    layer as an explicit world threaded through a state-and-exception monad,
    and the functions [run_subfinder], [run_httpx], [send_notification] and
    [main] written statement by statement.

    Conventions.
    - A Python [str] is a [string]; its characters are the code points
      0..255, and [isspace] is Python's [str.isspace] on that range.
    - Time stamps and terminal colours printed by [print_status] are left
      out of the recorded output; the severity and the message are kept,
      and [render] gives the characters of a recorded line for a reading of
      the clock.
    - Library calls whose code is not part of the script ([subprocess.run],
      [json.loads], [str()], [fnmatch], [requests.post], [os.getenv], the
      clock) are fields of an [environment] the functions are run in.
    - A path is the text [pathlib] gives it on POSIX. The output directory
      is any text; the names the script puts in it start with the domain
      and are taken to be one part of a path, a domain holding no slash.
    - [main] receives what [parser.parse_args()] makes of the command line:
      the namespace, or the exit that [argparse] asks for.
    - The functions and the [__main__] block are embedded as they are
      defined. Loading the module comes first, and is not embedded: it reads
      the default values of line 213 (see [unbound_names]). *)

From Stdlib Require Import Ascii.
From stdpp Require Import gmap strings list sorting pretty.

(** ** Text primitives *)

Module Text.

Local Open Scope char_scope.

Definition LF : ascii := "010".
Definition CR : ascii := "013".

(** [str.isspace] for one character below 256: TAB, LF, VT, FF, CR, the
    separators FS, GS, RS, US, the space, NEL and the no-break space. *)
Definition isspace (c : ascii) : bool :=
  match c with
  | "009" | "010" | "011" | "012" | "013"
  | "028" | "029" | "030" | "031" | " " | "133" | "160" => true
  | _ => false
  end.

Fixpoint lstrip (s : string) : string :=
  match s with
  | EmptyString => EmptyString
  | String c r => if isspace c then lstrip r else s
  end.

Fixpoint rstrip (s : string) : string :=
  match s with
  | EmptyString => EmptyString
  | String c r =>
      match rstrip r with
      | EmptyString => if isspace c then EmptyString else String c EmptyString
      | r' => String c r'
      end
  end.

(** [s.strip()] *)
Definition strip (s : string) : string := lstrip (rstrip s).

(** Truth value of a [str]: non-empty. *)
Definition truthy (s : string) : bool :=
  match s with EmptyString => false | _ => true end.

(** [s.split(sep)] for a one-character separator: one more piece than
    there are separators, so [''.split(sep) = ['']]. *)
Fixpoint split (sep : ascii) (s : string) : list string :=
  match s with
  | EmptyString => [EmptyString]
  | String c r =>
      if Ascii.eqb c sep then EmptyString :: split sep r
      else match split sep r with
           | h :: t => String c h :: t
           | [] => [String c EmptyString]
           end
  end.

(** [sep.join(parts)] *)
Fixpoint join (sep : string) (parts : list string) : string :=
  match parts with
  | [] => EmptyString
  | [p] => p
  | p :: rest => p +:+ sep +:+ join sep rest
  end.

(** [s.startswith(p)] *)
Fixpoint startswith (p s : string) : bool :=
  match p, s with
  | EmptyString, _ => true
  | String a p', String b s' => Ascii.eqb a b && startswith p' s'
  | String _ _, EmptyString => false
  end.

(** [s.upper()] on the ASCII letters; the script applies it to the value
    of [--notify], one of four ASCII words. *)
Definition upper_char (c : ascii) : ascii :=
  let n := nat_of_ascii c in
  if (97 <=? n)%nat && (n <=? 122)%nat then ascii_of_nat (n - 32) else c.

Fixpoint upper (s : string) : string :=
  match s with
  | EmptyString => EmptyString
  | String c r => String (upper_char c) (upper r)
  end.

(** Universal-newline translation of text read through a text-mode
    stream ([open(p, 'r')], [subprocess.run(..., text=True)]): CR LF and
    a lone CR both become LF. *)
Fixpoint universal_newlines (s : string) : string :=
  match s with
  | EmptyString => EmptyString
  | String c r =>
      if Ascii.eqb c CR then
        match r with
        | String d r' =>
            if Ascii.eqb d LF then String LF (universal_newlines r')
            else String LF (universal_newlines r)
        | EmptyString => String LF EmptyString
        end
      else String c (universal_newlines r)
  end.

(** The lines a [for line in f] loop sees: each keeps its final LF, the
    last one may lack it, and an empty text has no line. *)
Fixpoint iter_lines (s : string) : list string :=
  match s with
  | EmptyString => []
  | String c r =>
      if Ascii.eqb c LF then String LF EmptyString :: iter_lines r
      else match iter_lines r with
           | [] => [String c EmptyString]
           | h :: t => String c h :: t
           end
  end.

(** Occurrence of a character. *)
Fixpoint contains (c : ascii) (s : string) : bool :=
  match s with
  | EmptyString => false
  | String d r => Ascii.eqb d c || contains c r
  end.

End Text.

Import Text.

Definition nl : string := String LF EmptyString.

(** ** Values, exceptions and the world *)

(** The values [json.loads] returns, which are also the records of the
    live-host list and the payloads handed to [requests.post]. A [dict] keeps
    its entries in insertion order; a float is kept as the text it was read
    from. *)
#[local] Set Warnings "-register-all".
Inductive pyval : Type :=
| PNone
| PBool (b : bool)
| PInt (n : Z)
| PFloat (literal : string)
| PStr (s : string)
| PList (items : list pyval)
| PDict (entries : list (string * pyval)).

#[local] Set Warnings "+register-all".

Fixpoint dict_lookup (k : string) (d : list (string * pyval)) : option pyval :=
  match d with
  | [] => None
  | (k', v) :: r => if String.eqb k k' then Some v else dict_lookup k r
  end.

(** [d.get(k, dflt)] *)
Definition dict_get (d : list (string * pyval)) (k : string) (dflt : pyval) : pyval :=
  default dflt (dict_lookup k d).

(** The digits at the head of a text: their value after [acc], their
    number after [n], and the rest of the text. *)
Fixpoint scan_digits (acc : N) (n : nat) (s : string) : N * nat * string :=
  match s with
  | String c r =>
      let d := nat_of_ascii c in
      if (48 <=? d)%nat && (d <=? 57)%nat
      then scan_digits (10 * acc + N.of_nat (d - 48)) (S n) r
      else (acc, n, s)
  | EmptyString => (acc, n, s)
  end.

(** Whether the float that a number text denotes is zero. The text is a
    sign, digits, a fraction and an exponent, as JSON writes a number;
    Python rounds its value to the nearest double, ties to even, so the
    float is zero when every digit of the mantissa is [0], or when the value
    is at most [2^-1075], half the least positive double. A text of another
    form ([nan], [inf]) denotes no zero. *)
Definition float_is_zero (literal : string) : bool :=
  let unsigned :=
    match literal with
    | String "-" r => r
    | _ => literal
    end in
  let '(int_value, int_digits, after_int) := scan_digits 0 0 unsigned in
  let '(mantissa, frac_digits, after_frac) :=
    match after_int with
    | String "." r => scan_digits int_value 0 r
    | _ => (int_value, 0, after_int)
    end in
  let exponent : option Z :=
    match after_frac with
    | EmptyString => Some 0%Z
    | String c r =>
        if Ascii.eqb c "e" || Ascii.eqb c "E" then
          let '(negative, digits) :=
            match r with
            | String "-" r' => (true, r')
            | String "+" r' => (false, r')
            | _ => (false, r)
            end in
          match scan_digits 0 0 digits with
          | (_, O, _) => None
          | (e, S _, EmptyString) =>
              Some (if negative then (- Z.of_N e)%Z else Z.of_N e)
          | (_, S _, String _ _) => None
          end
        else None
    end in
  match (int_digits + frac_digits)%nat, exponent with
  | S _, Some e =>
      (mantissa =? 0)%N
      || (let scale := (e - Z.of_nat frac_digits)%Z in
          (scale <? 0)%Z
          && (mantissa * 2 ^ 1075 <=? 10 ^ Z.to_N (- scale))%N)
  | _, _ => false
  end.

(** Truth value of a value. *)
Definition py_truthy (v : pyval) : bool :=
  match v with
  | PNone => false
  | PBool b => b
  | PInt n => negb (n =? 0)%Z
  | PFloat literal => negb (float_is_zero literal)
  | PStr s => truthy s
  | PList l => match l with [] => false | _ => true end
  | PDict d => match d with [] => false | _ => true end
  end.

(** The classes of exception the script names or meets; every one of them
    derives from [Exception]. *)
Inductive error_class : Set :=
| TimeoutExpired | JSONDecodeError | ImportError | NameError | AttributeError
| IndexError | TypeError | OSError | OtherError.

(** What can unwind the stack. [Error cls msg] is an instance of [cls] with
    [str(e) = msg]; [SystemExit] and [KeyboardInterrupt] derive from
    [BaseException] only, so [except Exception] lets them through. *)
Inductive exn : Type :=
| SystemExit (code : Z)
| KeyboardInterrupt
| Error (cls : error_class) (msg : string).

Inductive severity : Set := info | success | error | warning.

(** One line of terminal output: a [print_status] line or a bare [print]. *)
Inductive out_line : Type :=
| Status (status_type : severity) (message : string)
| Plain (text : string).

(** Result of [subprocess.run] as the operating system delivers it. *)
Inductive proc_outcome : Type :=
| Completed (returncode : Z) (stdout stderr : string)
| Raised (cls : error_class) (msg : string).

Record completed_process := CompletedProcess {
  returncode : Z;
  stdout : string;
  stderr : string
}.

Inductive http_outcome : Type :=
| Response (status_code : Z)
| PostRaised (cls : error_class) (msg : string).

(** The world the script acts on. [files] maps a path to the text of the
    regular file there; [denied] lists the paths on which [open] (or
    [mkdir]) raises, with the exception raised; the remaining fields record
    what the script printed, spawned and posted, in order. *)
Record world := World {
  files : gmap string string;
  denied : gmap string (error_class * string);
  output : list out_line;
  commands : list (list string);
  posts : list (string * pyval)
}.

Definition set_files (f : gmap string string → gmap string string) (w : world) : world :=
  World (f (files w)) (denied w) (output w) (commands w) (posts w).
Definition add_output (o : out_line) (w : world) : world :=
  World (files w) (denied w) (output w ++ [o]) (commands w) (posts w).
Definition add_command (c : list string) (w : world) : world :=
  World (files w) (denied w) (output w) (commands w ++ [c]) (posts w).
Definition add_post (p : string * pyval) (w : world) : world :=
  World (files w) (denied w) (output w) (commands w) (posts w ++ [p]).

(** The collaborators of the script. *)
Record environment := Environment {
  (** the process a command line starts: what it returns (or why it could
      not be run, or that it outlived the timeout) and the files it leaves *)
  spawn : list string → option nat → gmap string string →
          proc_outcome * gmap string string;
  (** [json.loads] *)
  json_loads : string → pyval + error_class * string;
  (** [str(v)], as an f-string formats a value *)
  py_str : pyval → string;
  (** [fnmatch(name, pattern)], which [Path.glob] applies to each name *)
  fnmatch : string → string → bool;
  (** whether [import requests] succeeds *)
  requests_installed : bool;
  (** [requests.post(url, json=payload, timeout=10)] *)
  http_post : string → pyval → http_outcome;
  (** [os.getenv] *)
  getenv : string → option string;
  (** the clock, already formatted: [%Y%m%d_%H%M%S] at start-up,
      [%Y-%m-%d %H:%M:%S] in the report and in the message, and the
      elapsed probing time with two decimals *)
  now_stamp : string;
  now_report : string;
  now_message : string;
  elapsed_2f : string
}.

(** ** The monad of statements *)

Inductive res (A : Type) : Type :=
| Ok (a : A)
| Exc (e : exn).
Arguments Ok {A} a.
Arguments Exc {A} e.

Definition Py (A : Type) : Type := world → res A * world.

Global Instance Py_ret : MRet Py := λ A a w, (Ok a, w).
Global Instance Py_bind : MBind Py := λ A B f m w,
  match m w with
  | (Ok a, w') => f a w'
  | (Exc e, w') => (Exc e, w')
  end.

Definition raise {A} (e : exn) : Py A := λ w, (Exc e, w).

(** [try: body except ...: handler]: the handler chooses, by the exception,
    whether a clause matches. *)
Definition try_except {A} (body : Py A) (handler : exn → option (Py A)) : Py A :=
  λ w, match body w with
       | (Ok a, w') => (Ok a, w')
       | (Exc e, w') =>
           match handler e with
           | Some h => h w'
           | None => (Exc e, w')
           end
       end.

(** [for x in l: body] *)
Fixpoint for_each {A} (l : list A) (body : A → Py unit) : Py unit :=
  match l with
  | [] => mret ()
  | x :: r => body x ;; for_each r body
  end.

(** [enumerate(l, 1)] *)
Definition enumerate1 {A} (l : list A) : list (nat * A) :=
  imap (λ i x, (S i, x)) l.

Definition print_status (message : string) (status_type : severity) : Py unit :=
  λ w, (Ok (), add_output (Status status_type message) w).

Definition print (text : string) : Py unit :=
  λ w, (Ok (), add_output (Plain text) w).

(** [os.path.exists] *)
Definition path_exists (p : string) : Py bool :=
  λ w, (Ok (bool_decide (is_Some (files w !! p))), w).

(** [open(p, 'r')] followed by reading the stream to its end. *)
Definition read_text (p : string) : Py string :=
  λ w, match denied w !! p with
       | Some (cls, msg) => (Exc (Error cls msg), w)
       | None =>
           match files w !! p with
           | Some c => (Ok (universal_newlines c), w)
           | None => (Exc (Error OSError ("[Errno 2] No such file or directory: '"
                                        +:+ p +:+ "'")), w)
           end
       end.

(** [open(p, 'w')]: the file is created or truncated. *)
Definition open_w (p : string) : Py unit :=
  λ w, match denied w !! p with
       | Some (cls, msg) => (Exc (Error cls msg), w)
       | None => (Ok (), set_files (λ fs, <[p := EmptyString]> fs) w)
       end.

(** [f.write(s)] on a file opened by [open_w]. *)
Definition write (p s : string) : Py unit :=
  λ w, (Ok (), set_files (λ fs, alter (λ c, c +:+ s) p fs) w).

(** ** Small helpers of the statements below *)

(** [s[:n]] on a [str] *)
Fixpoint str_take (n : nat) (s : string) : string :=
  match n, s with
  | S n', String c r => String c (str_take n' r)
  | _, _ => EmptyString
  end.

(** [s * n] *)
Fixpoint str_repeat (s : string) (n : nat) : string :=
  match n with
  | O => EmptyString
  | S n' => s +:+ str_repeat s n'
  end.

(** The characters of a [str], as iterating over it yields them. *)
Fixpoint str_chars (s : string) : list string :=
  match s with
  | EmptyString => []
  | String c r => String c EmptyString :: str_chars r
  end.

(** [pathlib] on POSIX. A path is a root and its parts: the pieces
    between slashes, the empty ones and the [.] ones left out; the root is
    [//] when the text starts with exactly two slashes, [/] when it starts
    with one or with more than two, and there is none otherwise. *)
Definition path_parts (d : string) : list string :=
  filter (λ part, part ≠ EmptyString ∧ part ≠ ".") (split "/" d).

Definition path_root (d : string) : string :=
  if startswith "///" d then "/"
  else if startswith "//" d then "//"
  else if startswith "/" d then "/"
  else EmptyString.

(** [str(Path(d))]: a path without root and parts is [.]. *)
Definition Path (d : string) : string :=
  match path_root d, path_parts d with
  | EmptyString, [] => "."
  | root, parts => root +:+ join "/" parts
  end.

(** What the text of a child of [Path(d)] has before the child's name:
    nothing for the current directory, the root for a root, and the text
    of the path and a slash otherwise. *)
Definition dir_prefix (d : string) : string :=
  match path_parts d with
  | [] => path_root d
  | parts => path_root d +:+ join "/" parts +:+ "/"
  end.

(** [str(Path(d) / name)] for a name that is one part of a path: it holds
    no slash and is not [.]. The names the script builds start with the
    domain, which holds no slash. *)
Definition path_join (d name : string) : string := dir_prefix d +:+ name.

(** The name of [p] inside directory [d], when [p] lies directly in [d]. *)
Fixpoint strip_prefix (pre s : string) : option string :=
  match pre, s with
  | EmptyString, _ => Some s
  | String a pre', String b s' =>
      if Ascii.eqb a b then strip_prefix pre' s' else None
  | String _ _, EmptyString => None
  end.

Definition name_in (d p : string) : option string :=
  match strip_prefix (dir_prefix d) p with
  | Some n => if contains "/"%char n then None else Some n
  | None => None
  end.

(** The loop of [run_subfinder] that removes duplicates while preserving
    order: [unique_subdomains] and [seen] after each element. *)
Definition dedupe_step (st : list string * gset string) (sub : string)
  : list string * gset string :=
  if decide (sub ∈ st.2) then st else (st.1 ++ [sub], {[sub]} ∪ st.2).

Definition dedupe (subdomains : list string) : list string :=
  (foldl dedupe_step ([], ∅) subdomains).1.

(** [[sub for sub in subdomains if sub.strip()]] *)
Definition nonblank (sub : string) : Prop := strip sub ≠ EmptyString.

Global Instance nonblank_dec sub : Decision (nonblank sub).
Proof. unfold nonblank. apply _. Defined.

(** [result.stdout.strip().split('\n')] without its blank entries. *)
Definition output_lines (out : string) : list string :=
  filter nonblank (split LF (strip out)).

(** [[line.strip() for line in f if line.strip()]] *)
Definition stripped_lines (text : string) : list string :=
  strip <$> filter nonblank (iter_lines text).

(** What [run_subfinder] writes for a list. *)
Definition list_file (subdomains : list string) : string :=
  foldr (λ sub acc, sub +:+ nl +:+ acc) EmptyString subdomains.

(** ** The stages *)

Section Script.

Context (E : environment).

(** [subprocess.run(cmd, capture_output=True, text=True, timeout=t)]: the
    captured streams come back through text-mode decoding. *)
Definition subprocess_run (cmd : list string) (timeout : option nat)
  : Py completed_process :=
  λ w, let '(o, fs) := spawn E cmd timeout (files w) in
       let w' := add_command cmd (set_files (λ _, fs) w) in
       match o with
       | Completed rc out err =>
           (Ok (CompletedProcess rc (universal_newlines out)
                                 (universal_newlines err)), w')
       | Raised cls msg => (Exc (Error cls msg), w')
       end.

Definition catch_Exception {A} (h : string → Py A) (e : exn) : option (Py A) :=
  match e with
  | Error _ msg => Some (h msg)
  | _ => None
  end.

Definition check_tool_installed (tool_name : string) : Py bool :=
  try_except
    (result ← subprocess_run ["which"; tool_name] None;
     if (returncode result =? 0)%Z then mret true
     else
       result ← subprocess_run ["command"; "-v"; tool_name] None;
       mret (returncode result =? 0)%Z)
    (catch_Exception (λ _, mret false)).

Definition subfinder_cmd (domain : string) : list string :=
  ["subfinder"; "-d"; domain; "-silent"].

(** Lines 106-112: the first ten subdomains, if any were found. *)
Definition show_subdomains (unique_subdomains : list string) : Py unit :=
  match unique_subdomains with
  | [] => mret ()
  | _ =>
      print_status "Subdomains found:" info ;;
      for_each (enumerate1 (take 10 unique_subdomains))
        (λ '(i, sub), print ("  " +:+ pretty i +:+ ". " +:+ sub)) ;;
      if (10 <? length unique_subdomains)%nat then
        print ("  ... and " +:+ pretty (length unique_subdomains - 10)
               +:+ " more")
      else mret ()
  end.

(** Lines 71-114: the body of the [try] of [run_subfinder]. *)
Definition run_subfinder_try (domain output_file : string) : Py (list string) :=
  let cmd := subfinder_cmd domain in
  print_status ("Running command: " +:+ join " " cmd) info ;;
  result ← subprocess_run cmd (Some 300);
  if negb (returncode result =? 0)%Z then
    print_status ("Subfinder failed: " +:+ stderr result) error ;;
    mret []
  else
    let subdomains := split LF (strip (stdout result)) in
    let subdomains := filter nonblank subdomains in
    let unique_subdomains := dedupe subdomains in
    print_status ("Found " +:+ pretty (length unique_subdomains)
                  +:+ " unique subdomains") success ;;
    open_w output_file ;;
    for_each unique_subdomains
      (λ subdomain, write output_file (subdomain +:+ nl)) ;;
    print_status ("Results saved to: " +:+ output_file) info ;;
    show_subdomains unique_subdomains ;;
    mret unique_subdomains.

(** Lines 116-121: its [except] clauses. *)
Definition run_subfinder_except (e : exn) : option (Py (list string)) :=
  match e with
  | Error TimeoutExpired _ =>
      Some (print_status "Subfinder timed out after 5 minutes" error ;;
            mret [])
  | Error _ msg =>
      Some (print_status ("Error running subfinder: " +:+ msg) error ;;
            mret [])
  | _ => None
  end.

Definition run_subfinder (domain output_file : string) : Py (list string) :=
  print_status ("Starting subdomain enumeration for: " +:+ domain) info ;;
  try_except (run_subfinder_try domain output_file) run_subfinder_except.

(** [json.loads(line)] as a statement. *)
Definition loads (line : string) : Py pyval :=
  match json_loads E line with
  | inl v => mret v
  | inr (cls, msg) => raise (Error cls msg)
  end.

(** The record built for a line that is not JSON. *)
Definition url_record (line : string) : pyval :=
  PDict [("input", PStr line); ("url", PStr line)].

(** One turn of the loop over the lines of the output file. *)
Definition read_record (live_hosts : list pyval) (line : string)
  : Py (list pyval) :=
  let line := strip line in
  if truthy line then
    try_except
      (data ← loads line;
       mret (live_hosts ++ [data]))
      (λ e, match e with
            | Error JSONDecodeError _ =>
                Some (if startswith "http" line
                      then mret (live_hosts ++ [url_record line])
                      else mret live_hosts)
            | _ => None
            end)
  else mret live_hosts.

Fixpoint read_records (live_hosts : list pyval) (lines : list string)
  : Py (list pyval) :=
  match lines with
  | [] => mret live_hosts
  | line :: rest =>
      live_hosts ← read_record live_hosts line;
      read_records live_hosts rest
  end.

(** How an f-string shows a value: a [str] as it is, anything else
    through [str()]. *)
Definition fmt (v : pyval) : string :=
  match v with
  | PStr s => s
  | _ => py_str E v
  end.

Definition type_name (v : pyval) : string :=
  match v with
  | PNone => "NoneType" | PBool _ => "bool" | PInt _ => "int"
  | PFloat _ => "float" | PStr _ => "str" | PList _ => "list"
  | PDict _ => "dict"
  end.

(** [v[:n]]: a [str] and a [list] can be sliced; a number, a boolean and
    [None] raise [TypeError]; a [dict] raises too, the slice not being a key
    ([TypeError] before Python 3.12, [KeyError] since: both are instances of
    [Exception] and are caught alike). *)
Definition slice_to (n : nat) (v : pyval) : Py pyval :=
  match v with
  | PStr s => mret (PStr (str_take n s))
  | PList l => mret (PList (take n l))
  | PDict _ => raise (Error TypeError "unhashable type: 'slice'")
  | _ => raise (Error TypeError
                  ("'" +:+ type_name v +:+ "' object is not subscriptable"))
  end.

(** The summary [run_httpx] prints for one of the first five hosts. *)
Definition show_host (i : nat) (host : pyval) : Py unit :=
  match host with
  | PDict d =>
      let url := dict_get d "url" (dict_get d "input" (PStr "N/A")) in
      let status := dict_get d "status_code" (PStr "N/A") in
      title ← slice_to 50 (dict_get d "title" (PStr "N/A"));
      print ("  " +:+ pretty i +:+ ". " +:+ fmt url +:+ " [" +:+ fmt status
             +:+ "] - " +:+ fmt title)
  | _ => print ("  " +:+ pretty i +:+ ". " +:+ fmt host)
  end.

(** Lines 187-200: the first five live hosts, if any were found. *)
Definition show_live_hosts (live_hosts : list pyval) : Py unit :=
  match live_hosts with
  | [] => mret ()
  | _ =>
      print_status "Live hosts found:" info ;;
      for_each (enumerate1 (take 5 live_hosts))
        (λ '(i, host), show_host i host) ;;
      if (5 <? length live_hosts)%nat then
        print ("  ... and " +:+ pretty (length live_hosts - 5) +:+ " more")
      else mret ()
  end.

(** Lines 171-183: the records of the output file, if the tool left
    one. *)
Definition read_live_hosts (output_file : string) : Py (list pyval) :=
  written ← path_exists output_file;
  if (written : bool) then
    text ← read_text output_file;
    read_records [] (iter_lines text)
  else mret [].

Definition httpx_cmd (subdomains_file output_file : string) : list string :=
  ["httpx"; "-l"; subdomains_file; "-silent"; "-status-code";
   "-content-length"; "-title"; "-tech-detect"; "-json"; "-o"; output_file].

(** Lines 155-202: the body of the [try] of [run_httpx]. *)
Definition run_httpx_try (subdomains_file output_file : string)
    (subdomain_count : nat) : Py (list pyval) :=
  let cmd := httpx_cmd subdomains_file output_file in
  print_status ("Running httpx on " +:+ pretty subdomain_count
                +:+ " subdomains") info ;;
  print_status ("Command: " +:+ join " " cmd) info ;;
  result ← subprocess_run cmd (Some 600);
  (if negb (returncode result =? 0)%Z && negb (returncode result =? 1)%Z
   then print_status ("Httpx failed (code " +:+ pretty (returncode result)
                      +:+ "): " +:+ str_take 200 (stderr result)) error
   else mret ()) ;;
  live_hosts ← read_live_hosts output_file;
  print_status ("Found " +:+ pretty (length live_hosts)
                +:+ " live hosts in " +:+ elapsed_2f E +:+ " seconds")
               success ;;
  show_live_hosts live_hosts ;;
  mret live_hosts.

(** Lines 204-209: its [except] clauses. *)
Definition run_httpx_except (e : exn) : option (Py (list pyval)) :=
  match e with
  | Error TimeoutExpired _ =>
      Some (print_status "Httpx timed out after 10 minutes" error ;;
            mret [])
  | Error _ msg =>
      Some (print_status ("Error running httpx: " +:+ msg) error ;;
            mret [])
  | _ => None
  end.

Definition run_httpx (subdomains_file output_file : string) : Py (list pyval) :=
  print_status ("Probing for live hosts from: " +:+ subdomains_file) info ;;
  present ← path_exists subdomains_file;
  if negb present then
    print_status ("Input file " +:+ subdomains_file +:+ " not found ") error ;;
    mret []
  else
    text ← read_text subdomains_file;
    let subdomain_count := length (iter_lines text) in
    if (subdomain_count =? 0)%nat then
      print_status "No subdomains to probe" warning ;;
      mret []
    else
      try_except (run_httpx_try subdomains_file output_file subdomain_count)
                 run_httpx_except.

(** *** Notification *)

(** The names bound in the module's namespace while a function body
    runs: the imports, the class and the functions. No builtin is called
    [telegram_token], [platform_webhook] or [platform]. *)
Definition module_globals : list string :=
  ["argparse"; "subprocess"; "sys"; "os"; "time"; "json"; "datetime";
   "Path"; "load_dotenv"; "Colors"; "print_status"; "check_tool_installed";
   "run_subfinder"; "run_httpx"; "send_notification"; "main"].

(** Reading a name that the function does not assign: found among the
    module's globals, or [NameError]. The text returned for a bound name
    stands for the object's own; no statement of the script formats one. *)
Definition load_global (name : string) : Py string :=
  if bool_decide (name ∈ module_globals) then mret ("<" +:+ name +:+ ">")
  else raise (Error NameError ("name '" +:+ name +:+ "' is not defined")).

(** [l[-k]] for [k >= 1] *)
Definition index_from_end (l : list string) (k : nat) : Py string :=
  if (k <=? length l)%nat then
    match l !! (length l - k) with
    | Some x => mret x
    | None => raise (Error IndexError "list index out of range")
    end
  else raise (Error IndexError "list index out of range").

Definition import_requests : Py unit :=
  if requests_installed E then mret ()
  else raise (Error ImportError "No module named 'requests'").

(** [requests.post(url, json=payload, timeout=10).status_code] *)
Definition post (url : string) (payload : pyval) : Py Z :=
  λ w, let w' := add_post (url, payload) w in
       match http_post E url payload with
       | Response code => (Ok code, w')
       | PostRaised cls msg => (Exc (Error cls msg), w')
       end.

Definition send_notification (domain : string) (total_subdomains live_hosts : nat)
    (webhook_url platform : string) : Py bool :=
  if negb (truthy webhook_url) then mret false
  else
    let message :=
      nl +:+ "Subdomain Scan Complete!" +:+ nl
      +:+ "• Target: " +:+ domain +:+ nl
      +:+ "• Subdomains Found: " +:+ pretty total_subdomains +:+ nl
      +:+ "• Live Hosts: " +:+ pretty live_hosts +:+ nl
      +:+ "• Time: " +:+ now_message E +:+ nl in
    try_except
      (status_code ←
         (if String.eqb platform "telegram" then
            import_requests ;;
            chat_id ← index_from_end (split "/" webhook_url) 1;
            let payload := PDict [("chat_id", PStr chat_id);
                                  ("text", PStr message);
                                  ("parse_mode", PStr "HTML")] in
            bot_token ← index_from_end (split "/" webhook_url) 2;
            telegram_token ← load_global "telegram_token";
            let url := "https://api.telegram.org/bot" +:+ telegram_token
                       +:+ "/sendMessage" in
            post url payload
          else if String.eqb platform "discord" then
            import_requests ;;
            let payload := PDict [("content", PStr message);
                                  ("username", PStr "Subdomain Scanner")] in
            post webhook_url payload
          else if String.eqb platform "slack" then
            import_requests ;;
            let payload := PDict [("text", PStr message);
                                  ("username", PStr "Subdomain Scanner");
                                  ("icon_emoji", PStr ":mag:")] in
            post webhook_url payload
          else
            (* [response] was never assigned *)
            raise (Error NameError
                     "cannot access local variable 'response' where it is not associated with a value"));
       if (status_code =? 200)%Z then
         print_status "Notification sent successfully" success ;;
         mret true
       else
         print_status ("Failed to send notification: " +:+ pretty status_code)
                      warning ;;
         mret false)
      (λ e, match e with
            | Error ImportError _ =>
                Some (print_status
                        "Requests library required for notifications. Install with: pip install requests"
                        warning ;;
                      mret false)
            | Error _ msg =>
                Some (print_status ("Notification error: " +:+ msg) warning ;;
                      mret false)
            | _ => None
            end).

(** *** The session *)

(** The parsed command line. [notify] is one of the four choices the
    parser accepts; [webhook] is [None] when the option is not given. *)
Record arguments := Arguments {
  domain : string;
  output_dir : string;
  notify : string;
  webhook : option string;
  skip_subfinder : bool;
  skip_httpx : bool
}.

(** The attributes of the [Namespace] that [parse_args] returns: one per
    [add_argument], named after its long option. *)
Definition namespace_get (args : arguments) (name : string) : option pyval :=
  if String.eqb name "domain" then Some (PStr (domain args))
  else if String.eqb name "output_dir" then Some (PStr (output_dir args))
  else if String.eqb name "notify" then Some (PStr (notify args))
  else if String.eqb name "webhook" then
    Some (match webhook args with Some u => PStr u | None => PNone end)
  else if String.eqb name "skip_subfinder" then Some (PBool (skip_subfinder args))
  else if String.eqb name "skip_httpx" then Some (PBool (skip_httpx args))
  else None.

(** [args.name] *)
Definition getattr (args : arguments) (name : string) : Py pyval :=
  match namespace_get args name with
  | Some v => mret v
  | None => raise (Error AttributeError
                     ("'Namespace' object has no attribute '" +:+ name +:+ "'"))
  end.

(** [output_dir.mkdir(parents=True, exist_ok=True)] *)
Definition mkdir (d : string) : Py unit :=
  λ w, match denied w !! d with
       | Some (cls, msg) => (Exc (Error cls msg), w)
       | None =>
           if bool_decide (is_Some (files w !! d))
           then (Exc (Error OSError ("[Errno 17] File exists: '" +:+ d +:+ "'")), w)
           else (Ok (), w)
       end.

Definition glob_match (d pattern p : string) : bool :=
  match name_in d p with
  | Some n => fnmatch E n pattern
  | None => false
  end.

(** [list(output_dir.glob(pattern))]: the files directly in the
    directory whose name matches, in the order the directory lists
    them. *)
Definition glob (d pattern : string) : Py (list string) :=
  λ w, (Ok (filter (λ p, glob_match d pattern p = true)
                   (elements (dom (files w)))), w).

(** [sorted(paths)]: paths of one directory compare as their names do,
    character by character. *)
Definition sorted (paths : list string) : list string :=
  merge_sort String.le paths.

Definition when (b : bool) (m : Py unit) : Py unit :=
  if b then m else mret ().

(** [', '.join(tech)] on a decoded value. *)
Fixpoint str_items (i : nat) (l : list pyval) : Py (list string) :=
  match l with
  | [] => mret []
  | PStr s :: r => rest ← str_items (S i) r; mret (s :: rest)
  | v :: _ =>
      raise (Error TypeError
               ("sequence item " +:+ pretty i +:+ ": expected str instance, "
                +:+ type_name v +:+ " found"))
  end.

Definition join_value (sep : string) (v : pyval) : Py string :=
  match v with
  | PList l => parts ← str_items 0 l; mret (join sep parts)
  | PStr s => mret (join sep (str_chars s))
  | PDict d => mret (join sep (d.*1))
  | _ => raise (Error TypeError "can only join an iterable")
  end.

(** The detail block of one live host in the report. *)
Definition report_host (report_file : string) (host : pyval) : Py unit :=
  match host with
  | PDict d =>
      let url := dict_get d "url" (dict_get d "input" (PStr "N/A")) in
      let status := dict_get d "status_code" (PStr "N/A") in
      let title := dict_get d "title" (PStr "N/A") in
      let tech := dict_get d "technologies" (PList []) in
      write report_file ("URL: " +:+ fmt url +:+ nl) ;;
      write report_file ("Status: " +:+ fmt status +:+ nl) ;;
      write report_file ("Title: " +:+ fmt title +:+ nl) ;;
      (if py_truthy tech then
         joined ← join_value ", " tech;
         write report_file ("Technologies: " +:+ joined +:+ nl)
       else mret ()) ;;
      write report_file (str_repeat "-" 30 +:+ nl)
  | _ => mret ()
  end.

(** Lines 375-407: the report, inside its own [try]. *)
Definition generate_report (args : arguments)
    (subdomains_file live_hosts_file report_file : string)
    (subdomains : list string) (live_hosts : list pyval) : Py unit :=
  try_except
    (open_w report_file ;;
     write report_file ("Subdomain Scan Report" +:+ nl) ;;
     write report_file (str_repeat "=" 50 +:+ nl) ;;
     write report_file ("Target Domain: " +:+ domain args +:+ nl) ;;
     write report_file ("Scan Time: " +:+ now_report E +:+ nl) ;;
     write report_file ("Total Subdomains Found: "
                        +:+ pretty (length subdomains) +:+ nl) ;;
     write report_file ("Total Live Hosts Found: "
                        +:+ pretty (length live_hosts) +:+ nl) ;;
     write report_file (nl +:+ "Subdomains File: " +:+ subdomains_file +:+ nl) ;;
     write report_file ("Live Hosts File: " +:+ live_hosts_file +:+ nl) ;;
     write report_file (nl +:+ str_repeat "=" 50 +:+ nl) ;;
     (match live_hosts with
      | [] => mret ()
      | _ =>
          write report_file (nl +:+ "LIVE HOSTS DETAILS:" +:+ nl) ;;
          write report_file (str_repeat "-" 50 +:+ nl) ;;
          for_each live_hosts (report_host report_file)
      end) ;;
     print_status ("Report saved to: " +:+ report_file) success)
    (catch_Exception
       (λ msg, print_status ("Error generating report: " +:+ msg) error)).

(** Lines 345-363: the subdomain list and the file it lives in, from a
    fresh enumeration or from an earlier one. *)
Definition resolve_subdomains (args : arguments) (subdomains_file : string)
  : Py (list string * string) :=
  if negb (skip_subfinder args) then
    subdomains ← run_subfinder (domain args) subdomains_file;
    when (match subdomains with [] => true | _ => false end)
         (print_status "No subdomains found. Continuing anyway..." warning) ;;
    mret (subdomains, subdomains_file)
  else
    print_status "Skipping subfinder step" info ;;
    existing_files ← glob (output_dir args) (domain args +:+ "_*_subdomains.txt");
    match last (sorted existing_files) with
    | Some subdomains_file =>
        print_status ("Using existing subdomains file: " +:+ subdomains_file)
                     info ;;
        text ← read_text subdomains_file;
        mret (stripped_lines text, subdomains_file)
    | None =>
        print_status "No existing subdomains file found" error ;;
        raise (SystemExit 1)
    end.

(** Lines 365-373: the probing stage, or the reason it is left out. *)
Definition probe (args : arguments) (subdomains : list string)
    (subdomains_file live_hosts_file : string) : Py (list pyval) :=
  if negb (skip_httpx args) && match subdomains with [] => false | _ => true end
  then
    print "subdomain file name" ;;
    print subdomains_file ;;
    run_httpx subdomains_file live_hosts_file
  else if skip_httpx args then
    print_status "Skipping httpx step" info ;; mret []
  else
    print_status "No subdomains to probe with httpx" warning ;; mret [].

(** Lines 409-424: the notification. *)
Definition notify_step (args : arguments) (subdomains : list string)
    (live_hosts : list pyval) : Py unit :=
  let requested := negb (String.eqb (notify args) "none") in
  if requested && match webhook args with Some u => truthy u | None => false end
  then
    print_status ("Sending notification via " +:+ notify args +:+ "...") info ;;
    send_notification (domain args) (length subdomains) (length live_hosts)
                      (default EmptyString (webhook args)) (notify args) ;;
    mret ()
  else if requested then
    webhook_url ← getattr args "webhook_url";
    match webhook_url with
    | PNone =>
        let env_var_name := upper (notify args) +:+ "_WEBHOOK" in
        let webhook_url := getenv E env_var_name in
        if match webhook_url with Some u => truthy u | None => false end then
          print_status ("Sending notification via " +:+ notify args
                        +:+ " (from environment)...") info ;;
          send_notification (domain args) (length subdomains)
                            (length live_hosts)
                            (default EmptyString webhook_url) (notify args) ;;
          mret ()
        else
          print_status ("No webhook available for " +:+ notify args) warning ;;
          print_status ("Either pass --webhook URL or set " +:+ env_var_name
                        +:+ " in environment") info
    | _ => mret ()
    end
  else mret ().

(** The three files of a session, named after the domain and the time
    the session started. *)
Definition session_file (args : arguments) (suffix : string) : string :=
  path_join (output_dir args)
            (domain args +:+ "_" +:+ now_stamp E +:+ suffix).

(** Lines 315-340: the output directory, the banner and the check that
    the tools of the stages to run are installed. *)
Definition setup (args : arguments) : Py unit :=
  let output_dir := Path (output_dir args) in
  mkdir output_dir ;;
  print_status (str_repeat "=" 60) info ;;
  print_status "Starting Subdomain Scanner" info ;;
  print_status ("Target Domain: " +:+ domain args) info ;;
  print_status ("Output Directory: " +:+ output_dir) info ;;
  print_status (str_repeat "=" 60) info ;;
  subfinder_missing ←
    (if skip_subfinder args then mret false
     else installed ← check_tool_installed "subfinder"; mret (negb installed));
  if (subfinder_missing : bool) then
    print_status "subfinder is not installed or not in PATH" error ;;
    print_status "Install with: go install -v github.com/projectdiscovery/subfinder/v2/cmd/subfinder@latest" warning ;;
    raise (SystemExit 1)
  else
  httpx_missing ←
    (if skip_httpx args then mret false
     else installed ← check_tool_installed "httpx"; mret (negb installed));
  if (httpx_missing : bool) then
    print_status "httpx is not installed or not in PATH" error ;;
    print_status "Install with: go install -v github.com/projectdiscovery/httpx/cmd/httpx@latest" warning ;;
    raise (SystemExit 1)
  else mret ().

(** Lines 426-431: the closing summary. *)
Definition summary (args : arguments) (subdomains : list string)
    (live_hosts : list pyval) : Py unit :=
  print_status (str_repeat "=" 60) info ;;
  print_status "Scan Complete!" success ;;
  print_status ("Subdomains: " +:+ pretty (length subdomains)) info ;;
  print_status ("Live Hosts: " +:+ pretty (length live_hosts)) info ;;
  print_status ("Files saved in: " +:+ Path (output_dir args)) info ;;
  print_status (str_repeat "=" 60) info.

(** Lines 342-431: the stages, the report, the notification and the
    summary. *)
Definition stages (args : arguments) : Py unit :=
  let subdomains_file := session_file args "_subdomains.txt" in
  let live_hosts_file := session_file args "_live.json" in
  let report_file := session_file args "_report.txt" in
  '(subdomains, subdomains_file) ← resolve_subdomains args subdomains_file;
  live_hosts ← probe args subdomains subdomains_file live_hosts_file;
  generate_report args subdomains_file live_hosts_file report_file
                  subdomains live_hosts ;;
  notify_step args subdomains live_hosts ;;
  summary args subdomains live_hosts.

(** What [parser.parse_args()] (lines 277-313) makes of the command
    line: the namespace, or the end of the process that [argparse] asks
    for, with status 0 after printing the help for [-h] and with status 2
    after reporting a usage error. What [argparse] prints is no line of
    [print] or [print_status] and is not recorded. A namespace is read as
    the command line it was parsed from. *)
Inductive command_line : Type :=
| Parsed (args : arguments)
| HelpRequested
| UsageError.

Coercion Parsed : arguments >-> command_line.

(** Lines 275-431. *)
Definition main (cl : command_line) : Py unit :=
  match cl with
  | Parsed args =>
      setup args ;;
      stages args
  | HelpRequested => raise (SystemExit 0)
  | UsageError => raise (SystemExit 2)
  end.

(** The [if __name__ == "__main__"] block, once the module is loaded: the
    exit status of the process and the world it leaves. *)
Definition script (cl : command_line) (w : world) : Z * world :=
  match main cl w with
  | (Ok _, w') => (0%Z, w')
  | (Exc KeyboardInterrupt, w') =>
      (130%Z, add_output (Status warning (nl +:+ "Scan interrupted by user")) w')
  | (Exc (Error _ msg), w') =>
      (1%Z, add_output (Status error ("Unexpected error: " +:+ msg)) w')
  | (Exc (SystemExit code), w') => (code, w')
  end.

End Script.

(** ** A reference environment

    The statements above are run in any [environment]. To run them on
    concrete inputs this part supplies one: a decoder for JSON texts, the
    wildcard matching of [fnmatch] for patterns made of literal characters,
    [*] and [?], a printer for decoded values, and tools whose behaviour is
    given as data. *)

Module Json.

Local Open Scope char_scope.

Definition is_ws (c : ascii) : bool :=
  match c with " " | "009" | "010" | "013" => true | _ => false end.

Definition is_digit (c : ascii) : bool :=
  match c with
  | "0" | "1" | "2" | "3" | "4" | "5" | "6" | "7" | "8" | "9" => true
  | _ => false
  end.

Fixpoint skip_ws (s : string) : string :=
  match s with
  | String c r => if is_ws c then skip_ws r else s
  | EmptyString => EmptyString
  end.

Definition hex_digit (c : ascii) : option N :=
  let n := N_of_ascii c in
  if (48 <=? n)%N && (n <=? 57)%N then Some (n - 48)%N
  else if (97 <=? n)%N && (n <=? 102)%N then Some (n - 87)%N
  else if (65 <=? n)%N && (n <=? 70)%N then Some (n - 55)%N
  else None.

(** The four hexadecimal digits of a [\u] escape, for a character below
    256. *)
Definition unicode_escape (s : string) : option (ascii * string) :=
  match s with
  | String a (String b (String c (String d r))) =>
      match hex_digit a, hex_digit b, hex_digit c, hex_digit d with
      | Some x3, Some x2, Some x1, Some x0 =>
          let n := (((x3 * 16 + x2) * 16 + x1) * 16 + x0)%N in
          if (n <? 256)%N then Some (ascii_of_N n, r) else None
      | _, _, _, _ => None
      end
  | _ => None
  end.

(** The characters of a string literal after its opening quote, up to the
    closing one. A control character must be escaped. *)
Fixpoint string_body (s : string) : option (string * string) :=
  match s with
  | EmptyString => None
  | String "034" r => Some (EmptyString, r)
  | String "092" (String e r) =>
      let continue (c : ascii) (rest : option (string * string)) :=
        match rest with
        | Some (body, r') => Some (String c body, r')
        | None => None
        end in
      match e with
      | "034" => continue "034" (string_body r)
      | "092" => continue "092" (string_body r)
      | "/" => continue "/" (string_body r)
      | "b" => continue "008" (string_body r)
      | "f" => continue "012" (string_body r)
      | "n" => continue "010" (string_body r)
      | "r" => continue "013" (string_body r)
      | "t" => continue "009" (string_body r)
      | _ => None
      end
  | String c r =>
      if (N_of_ascii c <? 32)%N then None
      else match string_body r with
           | Some (body, r') => Some (String c body, r')
           | None => None
           end
  end.

Fixpoint digits (s : string) : string * string :=
  match s with
  | String c r =>
      if is_digit c then let '(d, r') := digits r in (String c d, r')
      else (EmptyString, s)
  | EmptyString => (EmptyString, EmptyString)
  end.

Fixpoint decimal (acc : Z) (d : string) : Z :=
  match d with
  | String c r => decimal (acc * 10 + Z.of_N (N_of_ascii c - 48)) r
  | EmptyString => acc
  end.

(** A number: an integer part without a leading zero, then an optional
    fraction and exponent, which make it a float. *)
Definition number (s : string) : option (pyval * string) :=
  let '(sign, s1) :=
    match s with
    | String "-" r => ("-"%string, r)
    | _ => (EmptyString, s)
    end in
  let '(int_part, s2) := digits s1 in
  match int_part with
  | EmptyString => None
  | String "0" (String _ _) => None
  | _ =>
      let '(frac, s3) :=
        match s2 with
        | String "." r =>
            let '(f, r') := digits r in
            match f with
            | EmptyString => (None, s2)
            | _ => (Some ("."%string +:+ f), r')
            end
        | _ => (Some EmptyString, s2)
        end in
      match frac with
      | None => None
      | Some frac =>
          let '(expo, s4) :=
            match s3 with
            | String e r =>
                if Ascii.eqb e "e" || Ascii.eqb e "E" then
                  let '(sg, r1) :=
                    match r with
                    | String "+" r1 => ("+"%string, r1)
                    | String "-" r1 => ("-"%string, r1)
                    | _ => (EmptyString, r)
                    end in
                  let '(x, r2) := digits r1 in
                  match x with
                  | EmptyString => (EmptyString, s3)
                  | _ => (String e (sg +:+ x), r2)
                  end
                else (EmptyString, s3)
            | EmptyString => (EmptyString, s3)
            end in
          match frac, expo with
          | EmptyString, EmptyString =>
              let n := decimal 0 int_part in
              Some (PInt (if String.eqb sign "-" then - n else n), s4)
          | _, _ => Some (PFloat (sign +:+ int_part +:+ frac +:+ expo), s4)
          end
      end
  end.

Fixpoint str_drop (n : nat) (s : string) : string :=
  match n, s with
  | S n', String _ r => str_drop n' r
  | _, _ => s
  end.

(** [d[k] = v] on a [dict]: a key already present keeps its place. *)
Fixpoint dict_set (k : string) (v : pyval) (d : list (string * pyval))
  : list (string * pyval) :=
  match d with
  | [] => [(k, v)]
  | (k', v') :: r =>
      if String.eqb k k' then (k, v) :: r else (k', v') :: dict_set k v r
  end.

Fixpoint value (fuel : nat) (s : string) : option (pyval * string) :=
  match fuel with
  | O => None
  | S fuel =>
      match skip_ws s with
      | String "{" r =>
          match skip_ws r with
          | String "}" r' => Some (PDict [], r')
          | r' => members fuel r' []
          end
      | String "[" r =>
          match skip_ws r with
          | String "]" r' => Some (PList [], r')
          | r' => elements fuel r' []
          end
      | String "034" r =>
          match string_body r with
          | Some (body, r') => Some (PStr body, r')
          | None => None
          end
      | s' =>
          if startswith "null"%string s' then Some (PNone, str_drop 4 s')
          else if startswith "true"%string s' then Some (PBool true, str_drop 4 s')
          else if startswith "false"%string s' then Some (PBool false, str_drop 5 s')
          else if startswith "NaN"%string s' then Some (PFloat "nan"%string, str_drop 3 s')
          else if startswith "Infinity"%string s' then Some (PFloat "inf"%string, str_drop 8 s')
          else if startswith "-Infinity"%string s' then Some (PFloat "-inf"%string, str_drop 9 s')
          else number s'
      end
  end
with elements (fuel : nat) (s : string) (acc : list pyval)
  : option (pyval * string) :=
  match fuel with
  | O => None
  | S fuel =>
      match value fuel s with
      | Some (v, r) =>
          match skip_ws r with
          | String "," r' => elements fuel r' (acc ++ [v])
          | String "]" r' => Some (PList (acc ++ [v]), r')
          | _ => None
          end
      | None => None
      end
  end
with members (fuel : nat) (s : string) (acc : list (string * pyval))
  : option (pyval * string) :=
  match fuel with
  | O => None
  | S fuel =>
      match skip_ws s with
      | String "034" r =>
          match string_body r with
          | Some (k, r1) =>
              match skip_ws r1 with
              | String ":" r2 =>
                  match value fuel r2 with
                  | Some (v, r3) =>
                      match skip_ws r3 with
                      | String "," r4 => members fuel r4 (dict_set k v acc)
                      | String "}" r4 => Some (PDict (dict_set k v acc), r4)
                      | _ => None
                      end
                  | None => None
                  end
              | _ => None
              end
          | None => None
          end
      | _ => None
      end
  end.

(** The decoder: one value, surrounded by white space only. *)
Definition loads (s : string) : pyval + error_class * string :=
  match value (S (S (String.length s))) s with
  | Some (v, r) =>
      match skip_ws r with
      | EmptyString => inl v
      | _ => inr (JSONDecodeError, "Extra data"%string)
      end
  | None => inr (JSONDecodeError, "Expecting value"%string)
  end.

End Json.

Module Sample.

(** [fnmatch(name, pattern)] for a pattern of literal characters, [*]
    and [?]. *)
Fixpoint wildcard (pattern : string) : string → bool :=
  match pattern with
  | EmptyString => λ name, negb (truthy name)
  | String c pattern' =>
      if Ascii.eqb c "*" then
        fix star (name : string) : bool :=
          wildcard pattern' name
          || match name with
             | String _ r => star r
             | EmptyString => false
             end
      else if Ascii.eqb c "?" then
        λ name, match name with
                | String _ r => wildcard pattern' r
                | EmptyString => false
                end
      else
        λ name, match name with
                | String d r => Ascii.eqb c d && wildcard pattern' r
                | EmptyString => false
                end
  end.

(** [str(v)] for the values that have one spelling: [None], booleans,
    integers, floats by the text they were read from, strings; a
    container is shown by its kind. *)
Definition show (v : pyval) : string :=
  match v with
  | PNone => "None"
  | PBool true => "True"
  | PBool false => "False"
  | PInt n => pretty n
  | PFloat lit => lit
  | PStr s => s
  | PList _ => "[...]"
  | PDict _ => "{...}"
  end.

(** Tools given as data: what [which] answers, what [subfinder] does,
    what [httpx] does and the text it leaves in its output file. *)
Record tools := Tools {
  installed : bool;
  subfinder : proc_outcome;
  httpx : proc_outcome;
  httpx_writes : option string
}.

Definition run_tools (t : tools) (cmd : list string) (timeout : option nat)
    (fs : gmap string string) : proc_outcome * gmap string string :=
  match cmd with
  | "which" :: _ =>
      (Completed (if installed t then 0 else 1) EmptyString EmptyString, fs)
  | "subfinder" :: _ => (subfinder t, fs)
  | "httpx" :: rest =>
      (httpx t,
       match httpx_writes t, last rest with
       | Some text, Some output_file => <[output_file := text]> fs
       | _, _ => fs
       end)
  | _ => (Raised OSError "No such file or directory", fs)
  end.

Definition env (t : tools) (vars : string → option string)
    (post : string → pyval → http_outcome) : environment :=
  {| spawn := run_tools t;
     json_loads := Json.loads;
     py_str := show;
     fnmatch := λ name pattern, wildcard pattern name;
     requests_installed := true;
     http_post := post;
     getenv := vars;
     now_stamp := "20250101_120000";
     now_report := "2025-01-01 12:00:05";
     now_message := "2025-01-01 12:00:06";
     elapsed_2f := "1.50" |}.

(** The double quote, and a line of [httpx -json] output. *)
Definition dq : string := String "034" EmptyString.

Definition json_line (url : string) (status : string) (title : string) : string :=
  "{" +:+ dq +:+ "url" +:+ dq +:+ ":" +:+ dq +:+ url +:+ dq +:+ ","
  +:+ dq +:+ "status_code" +:+ dq +:+ ":" +:+ status +:+ ","
  +:+ dq +:+ "title" +:+ dq +:+ ":" +:+ dq +:+ title +:+ dq +:+ "}".

Definition no_vars : string → option string := λ _, None.
Definition post_ok : string → pyval → http_outcome := λ _ _, Response 200.

Definition empty_world : world := World ∅ ∅ [] [] [].

Definition world_with (fs : list (string * string)) : world :=
  World (list_to_map fs) ∅ [] [] [].

(** The same, with paths on which [open] raises. *)
Definition world_denying (fs : list (string * string))
    (no : list (string * (error_class * string))) : world :=
  World (list_to_map fs) (list_to_map no) [] [] [].

(** A scan of [example.com] into [results]. *)
Definition scan : arguments :=
  Arguments "example.com" "results" "none" None false false.

(** The same scan, asked to notify through Telegram without a webhook. *)
Definition scan_notifying : arguments :=
  Arguments "example.com" "results" "telegram" None false false.

(** The same scan, resuming from an earlier list. *)
Definition scan_resuming : arguments :=
  Arguments "example.com" "results" "none" None true false.

(** The files of the session started at the sample clock's time, and an
    older list. *)
Definition list_path : string :=
  "results/example.com_20250101_120000_subdomains.txt".
Definition live_path : string :=
  "results/example.com_20250101_120000_live.json".
Definition older_list_path : string :=
  "results/example.com_20240615_093000_subdomains.txt".

(** [subfinder] finds two hosts, one of them twice; [httpx] reports one
    of them as JSON and the other as a bare URL. *)
Definition found : tools :=
  Tools true
    (Completed 0 ("a.example.com" +:+ nl +:+ "b.example.com" +:+ nl
                  +:+ "a.example.com" +:+ nl) EmptyString)
    (Completed 0 EmptyString EmptyString)
    (Some (json_line "https://a.example.com" "200" "Home" +:+ nl
           +:+ "https://b.example.com" +:+ nl)).

(** [subfinder] prints one host twice, the first time followed by a
    space. *)
Definition padded : tools :=
  Tools true
    (Completed 0 ("a.example.com " +:+ nl +:+ "a.example.com" +:+ nl)
               EmptyString)
    (Completed 0 EmptyString EmptyString) None.

(** [subfinder] outlives its five minutes. *)
Definition timed_out : tools :=
  Tools true (Raised TimeoutExpired "timed out after 300 seconds")
        (Completed 0 EmptyString EmptyString) None.

(** [httpx] writes one record, then a line that is neither JSON nor a
    URL, and exits with code 2. *)
Definition broken_probe : tools :=
  Tools true (Completed 0 ("a.example.com" +:+ nl) EmptyString)
    (Completed 2 EmptyString "fatal")
    (Some (json_line "https://a.example.com" "200" "Home" +:+ nl
           +:+ "example.com" +:+ nl)).

(** A world holding the list of the session; a world holding the lists
    of earlier sessions, one of them of another domain. *)
Definition listed : world := world_with [(list_path, "a.example.com" +:+ nl)].

Definition earlier_scans : world :=
  world_with
    [(older_list_path, "old.example.com" +:+ nl);
     (list_path, " a.example.com " +:+ nl +:+ nl +:+ "b.example.com" +:+ nl);
     ("results/other.org_20260101_000000_subdomains.txt",
      "www.other.org" +:+ nl)].

End Sample.

(** * Properties *)

Import Sample.

(** ** Notions used in the statements *)

(** The elements of [l] in order of first appearance: position [i] is
    kept when its element does not occur among the [i] elements before
    it. *)
Definition first_appearances (l : list string) : list string :=
  mjoin (imap (λ i x, if decide (x ∈ take i l) then [] else [x]) l).

(** The world after some more lines of output. *)
Definition add_outputs (o : list out_line) (w : world) : world :=
  World (files w) (denied w) (output w ++ o) (commands w) (posts w).

(** A statement that only prints. *)
Definition prints {A} (m : Py A) : Prop :=
  ∀ w, ∃ a o, m w = (Ok a, add_outputs o w).

(** A record whose summary line [run_httpx] can print: a [dict] whose
    title, when it has one, can be cut to fifty characters. *)
Definition displayable (host : pyval) : Prop :=
  match host with
  | PDict d =>
      match dict_get d "title" (PStr "N/A") with
      | PStr _ | PList _ => True
      | _ => False
      end
  | _ => True
  end.

(** A statement that, when it fails, fails with an instance of
    [Exception]: what an [except Exception] clause catches. *)
Definition fails_softly {A} (m : Py A) : Prop :=
  ∀ w, match (m w).1 with
       | Exc (SystemExit _) | Exc KeyboardInterrupt => False
       | _ => True
       end.

(** The part of the report that precedes the details of the live hosts
    (lines 378-386), for given counts. *)
Definition report_summary (E : environment) (args : arguments)
    (subdomains_file live_hosts_file : string) (subdomains live_hosts : nat)
  : string :=
  "Subdomain Scan Report" +:+ nl
  +:+ str_repeat "=" 50 +:+ nl
  +:+ "Target Domain: " +:+ domain args +:+ nl
  +:+ "Scan Time: " +:+ now_report E +:+ nl
  +:+ "Total Subdomains Found: " +:+ pretty subdomains +:+ nl
  +:+ "Total Live Hosts Found: " +:+ pretty live_hosts +:+ nl
  +:+ nl +:+ "Subdomains File: " +:+ subdomains_file +:+ nl
  +:+ "Live Hosts File: " +:+ live_hosts_file +:+ nl
  +:+ nl +:+ str_repeat "=" 50 +:+ nl.

(** The lines of the content of a file: the stretches between line ends,
    a line end being a line feed, a carriage return followed by a line feed,
    or a carriage return alone. A content that ends in a line end has an
    empty last stretch. *)
Fixpoint lines_of (content : string) : list string :=
  match content with
  | EmptyString => [EmptyString]
  | String c r =>
      if Ascii.eqb c LF then EmptyString :: lines_of r
      else if Ascii.eqb c CR then
        match r with
        | String d r' =>
            if Ascii.eqb d LF then EmptyString :: lines_of r'
            else EmptyString :: lines_of r
        | EmptyString => [EmptyString; EmptyString]
        end
      else
        match lines_of r with
        | line :: rest => String c line :: rest
        | [] => [String c EmptyString]
        end
  end.

(** The non-blank lines of a file, as the specification words the list a
    resumed session loads: its lines without the white space at their
    ends, those that are empty then left out. *)
Definition nonblank_lines (content : string) : list string :=
  filter (λ line, line ≠ EmptyString) (strip <$> lines_of content).

(** A statement that ends the process, if it does, through [sys.exit(1)]
    or an instance of [Exception]. *)
Definition exits_with_1 {A} (m : Py A) : Prop :=
  ∀ w, match (m w).1 with
       | Exc (SystemExit code) => code = 1%Z
       | Exc KeyboardInterrupt => False
       | _ => True
       end.

(** A statement that leaves one aspect of the world as it is: [proj] is
    the list of commands run, the list of requests sent, the content of a
    file. *)
Definition keeps {A B} (proj : world → B) (m : Py A) : Prop :=
  ∀ w, proj (m w).2 = proj w.

(** An aspect of the world that no printing changes, and one that writing
    to the file at [p] does not change. *)
Definition ignores_output {B} (proj : world → B) : Prop :=
  ∀ o w, proj (add_output o w) = proj w.

Definition ignores_file {B} (proj : world → B) (p : string) : Prop :=
  (∀ x w, proj (set_files (λ fs, <[p := x]> fs) w) = proj w)
  ∧ (∀ g w, proj (set_files (λ fs, alter g p fs) w) = proj w).

(** An aspect of the world that running a command does not change,
    whatever files the command leaves. *)
Definition ignores_spawn {B} (proj : world → B) : Prop :=
  ∀ c fs w, proj (add_command c (set_files (λ _, fs) w)) = proj w.

(** The two commands [check_tool_installed] runs to look for a tool. *)
Definition is_probe (cmd : list string) : Prop :=
  ∃ tool, cmd = ["which"; tool] ∨ cmd = ["command"; "-v"; tool].

(** Lines 18-26: the escape sequences of class [Colors]. *)
Module Colors.
Definition ESC : string := String "027"%char EmptyString.
Definition HEADER : string := ESC +:+ "[95m".
Definition BLUE : string := ESC +:+ "[94m".
Definition GREEN : string := ESC +:+ "[92m".
Definition WARNING : string := ESC +:+ "[93m".
Definition FAIL : string := ESC +:+ "[91m".
Definition ENDC : string := ESC +:+ "[0m".
Definition BOLD : string := ESC +:+ "[1m".
Definition UNDERLINE : string := ESC +:+ "[4m".
End Colors.

(** Lines 30-42: the text [print_status] prints when the clock reads
    [timestamp]; [status_type] is the string its caller passes. *)
Definition status_text (timestamp message status_type : string) : string :=
  if String.eqb status_type "success" then
    Colors.GREEN +:+ "[" +:+ timestamp +:+ "] [+] " +:+ message +:+ Colors.ENDC
  else if String.eqb status_type "error" then
    Colors.FAIL +:+ "[" +:+ timestamp +:+ "] [-] " +:+ message +:+ Colors.ENDC
  else if String.eqb status_type "warning" then
    Colors.WARNING +:+ "[" +:+ timestamp +:+ "] [!] " +:+ message +:+ Colors.ENDC
  else if String.eqb status_type "info" then
    Colors.BLUE +:+ "[" +:+ timestamp +:+ "] [*] " +:+ message +:+ Colors.ENDC
  else "[" +:+ timestamp +:+ "] [*] " +:+ message.

(** The strings the script passes as [status_type]. *)
Definition severity_name (s : severity) : string :=
  match s with
  | info => "info" | success => "success" | error => "error"
  | warning => "warning"
  end.

(** The characters a line of output puts on the terminal, before the
    final newline. *)
Definition render (timestamp : string) (line : out_line) : string :=
  match line with
  | Status s message => status_text timestamp message (severity_name s)
  | Plain text => text
  end.

(** Tools none of which [which] finds. *)
Definition not_installed : tools :=
  Tools false (Raised OSError "No such file or directory")
        (Raised OSError "No such file or directory") None.

(** An environment whose clock reads [stamp] when the session starts. *)
Definition at_time (stamp : string) (e : environment) : environment :=
  {| spawn := spawn e;
     json_loads := json_loads e;
     py_str := py_str e;
     fnmatch := fnmatch e;
     requests_installed := requests_installed e;
     http_post := http_post e;
     getenv := getenv e;
     now_stamp := stamp;
     now_report := now_report e;
     now_message := now_message e;
     elapsed_2f := elapsed_2f e |}.

(** The block of the report for a live host with the fields [d], whose
    technologies are the names [names] (lines 395-403). *)
Definition detail_block (E : environment) (d : list (string * pyval))
    (names : list string) : string :=
  ("URL: " +:+ fmt E (dict_get d "url" (dict_get d "input" (PStr "N/A"))) +:+ nl)
  +:+ ("Status: " +:+ fmt E (dict_get d "status_code" (PStr "N/A")) +:+ nl)
  +:+ ("Title: " +:+ fmt E (dict_get d "title" (PStr "N/A")) +:+ nl)
  +:+ match names with
      | [] => EmptyString
      | _ => "Technologies: " +:+ join ", " names +:+ nl
      end
  +:+ (str_repeat "-" 30 +:+ nl).

Definition detail_blocks (E : environment)
    (hosts : list (list (string * pyval) * list string)) : string :=
  foldr (λ '(d, names) rest, detail_block E d names +:+ rest) EmptyString hosts.

(** The heading of the details (lines 389-390). *)
Definition details_heading : string :=
  (nl +:+ "LIVE HOSTS DETAILS:" +:+ nl) +:+ (str_repeat "-" 50 +:+ nl).

(** A decoded record whose technologies, if it has any, are a list of
    names. *)
Definition listed_technologies (host : list (string * pyval) * list string) : Prop :=
  dict_get host.1 "technologies" (PList []) = PList (PStr <$> host.2).

(** [subfinder] succeeds and prints an empty line. *)
Definition silent : tools :=
  Tools true (Completed 0 nl EmptyString) (Completed 0 EmptyString EmptyString) None.

(** A scan that only rewrites the report from an earlier list. *)
Definition scan_reporting : arguments :=
  Arguments "example.com" "results" "none" None true true.

(** A world whose list of the session cannot be opened. *)
Definition locked : world :=
  world_denying [(list_path, "a.example.com" +:+ nl)]
                [(list_path, (OSError, "[Errno 13] Permission denied"))].

(** Two decoded records: one with technologies, one built from a bare
    URL. *)
Definition reported : list (list (string * pyval) * list string) :=
  [([("url", PStr "https://a.example.com"); ("status_code", PInt 200);
     ("title", PStr "Home");
     ("technologies", PList [PStr "nginx"; PStr "php"])], ["nginx"; "php"]);
   ([("input", PStr "https://b.example.com");
     ("url", PStr "https://b.example.com")], [])].

(** [httpx] reports one host whose title is [null]. *)
Definition untitled_line : string :=
  "{" +:+ dq +:+ "url" +:+ dq +:+ ":" +:+ dq +:+ "https://a.example.com" +:+ dq
  +:+ "," +:+ dq +:+ "title" +:+ dq +:+ ":null}".

Definition untitled : tools :=
  Tools true (Completed 0 ("a.example.com" +:+ nl) EmptyString)
    (Completed 0 EmptyString EmptyString) (Some (untitled_line +:+ nl)).

(** ** Text *)

Section text_facts.
Implicit Types (s r : string) (c : ascii).

Lemma str_app_cons c s t : String c s +:+ t = String c (s +:+ t).
Proof. reflexivity. Qed.

Lemma str_app_nil_l t : EmptyString +:+ t = t.
Proof. reflexivity. Qed.

Lemma str_app_assoc s1 s2 s3 : (s1 +:+ s2) +:+ s3 = s1 +:+ (s2 +:+ s3).
Proof. induction s1 as [|a s1 IH]; [done|]. rewrite !str_app_cons. by rewrite IH. Qed.

Lemma str_app_nil_r s : s +:+ EmptyString = s.
Proof. induction s as [|a s IH]; [done|]. rewrite str_app_cons. by rewrite IH. Qed.

Lemma contains_app c s1 s2 :
  contains c (s1 +:+ s2) = contains c s1 || contains c s2.
Proof.
  induction s1 as [|a s1 IH]; [done|]. rewrite str_app_cons. cbn. rewrite IH.
  by rewrite orb_assoc.
Qed.

Lemma contains_lstrip c s : contains c s = false → contains c (lstrip s) = false.
Proof.
  induction s as [|a s IH]; [done|]. cbn. intros [? ?]%orb_false_iff.
  destruct (isspace a); [auto|]. cbn. by apply orb_false_iff.
Qed.

Lemma contains_rstrip c s : contains c s = false → contains c (rstrip s) = false.
Proof.
  induction s as [|a s IH]; [done|]. cbn. intros [Ha Hs]%orb_false_iff.
  specialize (IH Hs). destruct (rstrip s) as [|b t].
  - destruct (isspace a); [done|]. cbn. by rewrite Ha.
  - cbn. rewrite Ha. exact IH.
Qed.

Lemma contains_strip c s : contains c s = false → contains c (strip s) = false.
Proof. intros. by apply contains_lstrip, contains_rstrip. Qed.

Lemma split_nonempty c s : split c s ≠ [].
Proof. destruct s as [|a s]; [done|]. cbn. destruct (Ascii.eqb a c); [done|]. by destruct (split c s). Qed.

(** No piece of [s.split(sep)] contains the separator, nor any character
    that [s] does not contain. *)
Lemma split_pieces sep c s :
  (c = sep ∨ contains c s = false) →
  Forall (λ p, contains c p = false) (split sep s).
Proof.
  induction s as [|a s IH]; intros Hc.
  - by repeat constructor.
  - cbn. destruct (Ascii.eqb a sep) eqn:Ha.
    + apply Ascii.eqb_eq in Ha as ->. constructor; [done|].
      apply IH. destruct Hc as [?|[? ?]%orb_false_iff]; auto.
    + assert (Ascii.eqb a c = false) as Hac.
      { destruct Hc as [->|[? ?]%orb_false_iff]; auto. }
      assert (Forall (λ p, contains c p = false) (split sep s)) as HF.
      { apply IH. destruct Hc as [?|[? ?]%orb_false_iff]; auto. }
      destruct (split sep s) as [|h t] eqn:Hs.
      * repeat constructor. cbn. by rewrite Hac.
      * inversion HF; subst. constructor; [|done]. cbn. by rewrite Hac.
Qed.

Lemma universal_newlines_no_CR_aux s :
  contains CR (universal_newlines s) = false
  ∧ ∀ a, contains CR (universal_newlines (String a s)) = false.
Proof.
  induction s as [|b r [IH1 IH2]].
  - split; [done|]. intros a. cbn. by destruct (Ascii.eqb a CR) eqn:Ha; cbn; rewrite ?Ha.
  - split; [apply IH2|]. intros a. specialize (IH2 b).
    assert (universal_newlines (String a (String b r))
            = if Ascii.eqb a CR
              then (if Ascii.eqb b LF then String LF (universal_newlines r)
                    else String LF (universal_newlines (String b r)))
              else String a (universal_newlines (String b r))) as -> by done.
    destruct (Ascii.eqb a CR) eqn:Ha; [destruct (Ascii.eqb b LF)|];
      cbn [contains]; rewrite ?IH1, ?IH2, ?Ha; done.
Qed.

Lemma universal_newlines_no_CR s : contains CR (universal_newlines s) = false.
Proof. apply universal_newlines_no_CR_aux. Qed.

Lemma universal_newlines_id s :
  contains CR s = false → universal_newlines s = s.
Proof.
  induction s as [|a s IH]; [done|]. cbn. intros [Ha Hs]%orb_false_iff.
  rewrite Ha. by rewrite IH.
Qed.

Lemma rstrip_app_nl s : rstrip (s +:+ nl) = rstrip s.
Proof. induction s as [|a s IH]; [done|]. rewrite str_app_cons. cbn. by rewrite IH. Qed.

Lemma strip_app_nl s : strip (s +:+ nl) = strip s.
Proof. unfold strip. by rewrite rstrip_app_nl. Qed.

Lemma iter_lines_line s rest :
  contains LF s = false →
  iter_lines (s +:+ nl +:+ rest) = (s +:+ nl) :: iter_lines rest.
Proof.
  induction s as [|a s IH]; [done|]. rewrite str_app_cons. cbn.
  intros [Ha Hs]%orb_false_iff. rewrite Ha, (IH Hs). done.
Qed.
End text_facts.

(** ** The deduplication loop *)

Section dedupe_facts.
Implicit Types (l u : list string) (x : string).

Lemma first_appearances_snoc l x :
  first_appearances (l ++ [x])
  = first_appearances l ++ (if decide (x ∈ l) then [] else [x]).
Proof.
  unfold first_appearances. rewrite imap_app, join_app. f_equal.
  - f_equal. apply imap_ext. intros i y Hi.
    apply lookup_lt_Some in Hi. by rewrite take_app_le by lia.
  - cbn. rewrite Nat.add_0_r, take_app_length, app_nil_r. done.
Qed.

Lemma dedupe_snoc_state l x :
  foldl dedupe_step ([], ∅) (l ++ [x])
  = dedupe_step (foldl dedupe_step ([], ∅) l) x.
Proof. apply foldl_snoc. Qed.

(** The loop invariant: [seen] holds exactly the elements of
    [unique_subdomains], which has no repeats, covers the input read so
    far and lists it by first appearance. *)
Lemma dedupe_invariant l :
  let st := foldl dedupe_step ([], ∅) l in
  (∀ x, x ∈ st.2 ↔ x ∈ st.1) ∧ NoDup st.1 ∧ (∀ x, x ∈ st.1 ↔ x ∈ l)
  ∧ st.1 = first_appearances l.
Proof.
  induction l as [|x l IH] using rev_ind.
  - cbn. split_and!; [set_solver|constructor|set_solver|done].
  - cbn zeta in *. rewrite dedupe_snoc_state, first_appearances_snoc.
    destruct (foldl dedupe_step ([], ∅) l) as [u seen]. cbn in IH.
    destruct IH as (Hseen & Hnd & Hin & Hfa). unfold dedupe_step. cbn.
    destruct (decide (x ∈ seen)) as [Hx|Hx]; cbn.
    + assert (x ∈ l) by (by apply Hin, Hseen).
      rewrite decide_True by done. rewrite app_nil_r. split_and!; try done.
      intros y. rewrite Hin, elem_of_app, list_elem_of_singleton.
      split; [auto|]. by intros [?| ->].
    + assert (x ∉ l) by (rewrite <-Hin, <-Hseen; done).
      rewrite decide_False by done. split_and!.
      * intros y. rewrite elem_of_union, elem_of_singleton, Hseen.
        rewrite elem_of_app, list_elem_of_singleton. tauto.
      * apply NoDup_app. split_and!; [done| |apply NoDup_singleton].
        intros y Hy ->%list_elem_of_singleton. apply Hx. by apply Hseen.
      * intros y. rewrite !elem_of_app, Hin. done.
      * by rewrite Hfa.
Qed.

Lemma dedupe_NoDup l : NoDup (dedupe l).
Proof. apply (dedupe_invariant l). Qed.

Lemma dedupe_elem_of l x : x ∈ dedupe l ↔ x ∈ l.
Proof. apply (dedupe_invariant l). Qed.

Lemma dedupe_first_appearances l : dedupe l = first_appearances l.
Proof. apply (dedupe_invariant l). Qed.

Lemma first_appearances_NoDup_id l : NoDup l → first_appearances l = l.
Proof.
  induction l as [|x l IH] using rev_ind; [done|].
  rewrite NoDup_app. intros (Hl & Hnin & _). rewrite first_appearances_snoc, IH by done.
  rewrite decide_False; [done|]. intros Hx. apply (Hnin x Hx). set_solver.
Qed.

Lemma dedupe_idempotent l : dedupe (dedupe l) = dedupe l.
Proof.
  rewrite (dedupe_first_appearances (dedupe l)).
  apply first_appearances_NoDup_id, dedupe_NoDup.
Qed.

Lemma dedupe_Forall (P : string → Prop) l : Forall P l → Forall P (dedupe l).
Proof.
  rewrite !Forall_forall. intros H x Hx. by apply H, dedupe_elem_of.
Qed.
End dedupe_facts.

(** ** Running statements *)

Section monad_facts.
Context {A B : Type}.

Lemma bind_run (m : Py A) (f : A → Py B) w :
  (m ≫= f) w = match m w with
               | (Ok a, w') => f a w'
               | (Exc e, w') => (Exc e, w')
               end.
Proof. reflexivity. Qed.

Lemma bind_Ok (m : Py A) (f : A → Py B) w a w' :
  m w = (Ok a, w') → (m ≫= f) w = f a w'.
Proof. intros H. by rewrite bind_run, H. Qed.

Lemma bind_Exc (m : Py A) (f : A → Py B) w e w' :
  m w = (Exc e, w') → (m ≫= f) w = (Exc e, w').
Proof. intros H. by rewrite bind_run, H. Qed.

Lemma try_except_Ok (m : Py A) h w a w' :
  m w = (Ok a, w') → try_except m h w = (Ok a, w').
Proof. intros H. unfold try_except. by rewrite H. Qed.

Lemma try_except_Exc (m : Py A) h w e w' :
  m w = (Exc e, w') →
  try_except m h w = match h e with Some k => k w' | None => (Exc e, w') end.
Proof. intros H. unfold try_except. by rewrite H. Qed.
End monad_facts.

Lemma add_outputs_nil w : add_outputs [] w = w.
Proof. destruct w. unfold add_outputs. cbn. by rewrite app_nil_r. Qed.

Lemma add_outputs_app o1 o2 w :
  add_outputs o2 (add_outputs o1 w) = add_outputs (o1 ++ o2) w.
Proof. unfold add_outputs. cbn. by rewrite app_assoc. Qed.

Lemma add_output_outputs o w : add_output o w = add_outputs [o] w.
Proof. reflexivity. Qed.

Lemma prints_ret {A} (a : A) : prints (mret a).
Proof. intros w. exists a, []. by rewrite add_outputs_nil. Qed.

Lemma prints_print_status msg s : prints (print_status msg s).
Proof. intros w. by exists (), [Status s msg]. Qed.

Lemma prints_print msg : prints (print msg).
Proof. intros w. by exists (), [Plain msg]. Qed.

Lemma prints_bind {A B} (m : Py A) (f : A → Py B) :
  prints m → (∀ a, prints (f a)) → prints (m ≫= f).
Proof.
  intros Hm Hf w. destruct (Hm w) as (a & o & Hw).
  destruct (Hf a (add_outputs o w)) as (b & o' & Hw').
  exists b, (o ++ o'). by rewrite (bind_Ok _ _ _ _ _ Hw), Hw', add_outputs_app.
Qed.

Lemma prints_for_each {A} (l : list A) (body : A → Py unit) :
  (∀ x, prints (body x)) → prints (for_each l body).
Proof.
  intros Hb. induction l as [|x l IH]; [apply prints_ret|].
  cbn. apply prints_bind; [apply Hb|]. intros _. apply IH.
Qed.

Lemma prints_when (b : bool) (m : Py unit) : prints m → prints (if b then m else mret ()).
Proof. destruct b; [done|]. intros _. apply prints_ret. Qed.

Lemma for_each_write (us : list string) (p : string) : ∀ (w : world) (c : string),
  files w !! p = Some c →
  ∃ w', for_each us (λ subdomain, write p (subdomain +:+ nl)) w = (Ok (), w')
        ∧ files w' !! p = Some (c +:+ list_file us)
        ∧ denied w' = denied w ∧ output w' = output w.
Proof.
  induction us as [|x us IH]; intros w c Hc.
  - exists w. cbn. by rewrite str_app_nil_r.
  - cbn [for_each]. rewrite bind_run. unfold write at 1. cbn [set_files].
    edestruct (IH (set_files (λ fs, alter (λ c0, c0 +:+ (x +:+ nl)) p fs) w)) as (w' & Hrun & Hf & Hd & Ho).
    { cbn. rewrite lookup_alter_eq, Hc. done. }
    exists w'. rewrite Hrun. split_and!; [done| |done|done].
    rewrite Hf. cbn [list_file foldr]. by rewrite !str_app_assoc.
Qed.

Lemma prints_show_subdomains unique : prints (show_subdomains unique).
Proof.
  unfold show_subdomains. destruct unique as [|x unique]; [apply prints_ret|].
  apply prints_bind; [apply prints_print_status|]. intros _.
  apply prints_bind.
  - apply prints_for_each. intros [i sub]. apply prints_print.
  - intros _. apply prints_when, prints_print.
Qed.

Lemma list_file_lines us :
  Forall (λ p, contains LF p = false) us →
  iter_lines (list_file us) = (λ sub, sub +:+ nl) <$> us.
Proof.
  induction 1 as [|x us Hx _ IH]; [done|].
  cbn [list_file foldr fmap list_fmap]. rewrite iter_lines_line by done.
  f_equal. exact IH.
Qed.

Lemma list_file_no_CR us :
  Forall (λ p, contains CR p = false) us → contains CR (list_file us) = false.
Proof.
  induction 1 as [|x us Hx _ IH]; [done|].
  cbn [list_file foldr]. rewrite !contains_app. fold (list_file us).
  by rewrite Hx, IH.
Qed.

Lemma subprocess_run_Completed E cmd t w rc out err fs :
  spawn E cmd t (files w) = (Completed rc out err, fs) →
  subprocess_run E cmd t w
  = (Ok (CompletedProcess rc (universal_newlines out) (universal_newlines err)),
     add_command cmd (set_files (λ _, fs) w)).
Proof. intros H. unfold subprocess_run. by rewrite H. Qed.

Lemma subprocess_run_Raised E cmd t w cls msg fs :
  spawn E cmd t (files w) = (Raised cls msg, fs) →
  subprocess_run E cmd t w
  = (Exc (Error cls msg), add_command cmd (set_files (λ _, fs) w)).
Proof. intros H. unfold subprocess_run. by rewrite H. Qed.


Lemma ret_run {A} (a : A) (w : world) : (mret a : Py A) w = (Ok a, w).
Proof. reflexivity. Qed.

Lemma path_exists_run p w :
  path_exists p w = (Ok (bool_decide (is_Some (files w !! p))), w).
Proof. reflexivity. Qed.

Lemma read_text_Ok p w c :
  files w !! p = Some c → denied w !! p = None →
  read_text p w = (Ok (universal_newlines c), w).
Proof. intros Hf Hd. unfold read_text. by rewrite Hd, Hf. Qed.


(** ** The reader of the probe output *)

Lemma truthy_true s : truthy s = true ↔ s ≠ EmptyString.
Proof. by destruct s. Qed.

Section reader.
Context (E : environment).
Implicit Types (acc : list pyval) (line : string) (w : world).

Lemma read_record_blank acc line w :
  strip line = EmptyString → read_record E acc line w = (Ok acc, w).
Proof. intros H. unfold read_record. by rewrite H. Qed.

Lemma read_record_decoded acc line w v :
  strip line ≠ EmptyString → json_loads E (strip line) = inl v →
  read_record E acc line w = (Ok (acc ++ [v]), w).
Proof.
  intros Hne Hv. unfold read_record. apply truthy_true in Hne as ->.
  unfold try_except, loads. rewrite bind_run, Hv. done.
Qed.

Lemma read_record_fallback acc line w msg :
  strip line ≠ EmptyString →
  json_loads E (strip line) = inr (JSONDecodeError, msg) →
  startswith "http" (strip line) = true →
  read_record E acc line w = (Ok (acc ++ [url_record (strip line)]), w).
Proof.
  intros Hne Hv Hh. unfold read_record. apply truthy_true in Hne as ->.
  unfold try_except, loads. rewrite bind_run, Hv. unfold raise. by rewrite Hh.
Qed.

Lemma read_record_dropped acc line w msg :
  strip line ≠ EmptyString →
  json_loads E (strip line) = inr (JSONDecodeError, msg) →
  startswith "http" (strip line) = false →
  read_record E acc line w = (Ok acc, w).
Proof.
  intros Hne Hv Hh. unfold read_record. apply truthy_true in Hne as ->.
  unfold try_except, loads. rewrite bind_run, Hv. unfold raise. by rewrite Hh.
Qed.

(** The loop neither reads nor changes the world. *)
Lemma read_record_pure acc line : ∃ r, ∀ w, read_record E acc line w = (r, w).
Proof.
  unfold read_record. destruct (truthy (strip line)); [|by eexists].
  unfold try_except, loads. setoid_rewrite bind_run.
  destruct (json_loads E (strip line)) as [v|[cls msg]]; [by eexists|].
  unfold raise. destruct cls; try by eexists.
  destruct (startswith "http" (strip line)); by eexists.
Qed.

Lemma read_records_pure lines : ∀ acc, ∃ r, ∀ w, read_records E acc lines w = (r, w).
Proof.
  induction lines as [|line lines IH]; intros acc; [by eexists|].
  cbn [read_records]. destruct (read_record_pure acc line) as [[acc'|e] Hr].
  - destruct (IH acc') as [r Hr']. exists r. intros w.
    by rewrite bind_run, Hr, Hr'.
  - exists (Exc e). intros w. by rewrite bind_run, Hr.
Qed.

Lemma read_records_app before after acc w :
  read_records E acc (before ++ after) w
  = match read_records E acc before w with
    | (Ok acc', w') => read_records E acc' after w'
    | (Exc e, w') => (Exc e, w')
    end.
Proof.
  revert acc w. induction before as [|x before IH]; intros acc w; [done|].
  cbn [app read_records]. rewrite !bind_run.
  destruct (read_record E acc x w) as [[acc'|e] w']; [apply IH|done].
Qed.
End reader.


(** ** What the summary of the live hosts needs *)

Lemma prints_for_each_elem {A} (l : list A) (body : A → Py unit) :
  (∀ x, x ∈ l → prints (body x)) → prints (for_each l body).
Proof.
  induction l as [|x l IH]; intros Hb; [apply prints_ret|].
  cbn. apply prints_bind; [apply Hb; left|]. intros _.
  apply IH. intros y Hy. apply Hb. by right.
Qed.

Lemma elem_of_enumerate1 {A} (l : list A) i x :
  (i, x) ∈ enumerate1 l → x ∈ l.
Proof.
  unfold enumerate1. intros (j & y & [= _ ->] & Hl)%elem_of_lookup_imap.
  by eapply list_elem_of_lookup_2.
Qed.

Lemma prints_show_host E i host : displayable host → prints (show_host E i host).
Proof.
  unfold displayable, show_host. destruct host as [| | | | |l|d]; try (intros _; apply prints_print).
  destruct (dict_get d "title" (PStr "N/A")); try done; intros _;
    (apply prints_bind; [apply prints_ret|intros; apply prints_print]).
Qed.

Lemma prints_show_live_hosts E hosts :
  Forall displayable (take 5 hosts) → prints (show_live_hosts E hosts).
Proof.
  intros Hd. unfold show_live_hosts. destruct hosts as [|h hosts]; [apply prints_ret|].
  apply prints_bind; [apply prints_print_status|]. intros _.
  apply prints_bind.
  - apply prints_for_each_elem. intros [i host] Hin%elem_of_enumerate1.
    apply prints_show_host. revert host Hin. by apply Forall_forall.
  - intros _. apply prints_when, prints_print.
Qed.

Lemma displayable_url_record line : displayable (url_record line).
Proof. done. Qed.


(** ** Which exceptions a stage can meet *)

Section soft.
Context (E : environment).

Lemma soft_prints {A} (m : Py A) : prints m → fails_softly m.
Proof. intros H w. destruct (H w) as (a & o & ->). done. Qed.

Lemma soft_ret {A} (a : A) : fails_softly (mret a : Py A).
Proof. done. Qed.

Lemma soft_raise {A} cls msg : fails_softly (raise (Error cls msg) : Py A).
Proof. done. Qed.

Lemma soft_bind {A B} (m : Py A) (f : A → Py B) :
  fails_softly m → (∀ a, fails_softly (f a)) → fails_softly (m ≫= f).
Proof.
  intros Hm Hf w. rewrite bind_run. specialize (Hm w).
  destruct (m w) as [[a|e] w']; [apply Hf|done].
Qed.

Lemma soft_try {A} (m : Py A) h :
  fails_softly m → (∀ e k, h e = Some k → fails_softly k) →
  fails_softly (try_except m h).
Proof.
  intros Hm Hh w. unfold try_except. specialize (Hm w).
  destruct (m w) as [[a|e] w']; [done|].
  destruct (h e) as [k|] eqn:Hk; [by apply (Hh e)|done].
Qed.

Lemma soft_for_each {A} (l : list A) (body : A → Py unit) :
  (∀ x, fails_softly (body x)) → fails_softly (for_each l body).
Proof.
  intros Hb. induction l as [|x l IH]; [done|].
  cbn. apply soft_bind; [apply Hb|]. intros _. apply IH.
Qed.

Lemma soft_if {A} (b : bool) (m1 m2 : Py A) :
  fails_softly m1 → fails_softly m2 → fails_softly (if b then m1 else m2).
Proof. by destruct b. Qed.

Lemma soft_subprocess_run cmd t : fails_softly (subprocess_run E cmd t).
Proof.
  intros w. unfold subprocess_run.
  by destruct (spawn E cmd t (files w)) as [[rc out err|cls msg] fs].
Qed.

Lemma soft_path_exists p : fails_softly (path_exists p).
Proof. done. Qed.

Lemma soft_read_text p : fails_softly (read_text p).
Proof.
  intros w. unfold read_text. destruct (denied w !! p) as [[cls msg]|]; [done|].
  by destruct (files w !! p).
Qed.

Lemma soft_open_w p : fails_softly (open_w p).
Proof. intros w. unfold open_w. by destruct (denied w !! p) as [[cls msg]|]. Qed.

Lemma soft_write p s : fails_softly (write p s).
Proof. done. Qed.

Lemma soft_loads line : fails_softly (loads E line).
Proof. intros w. unfold loads. by destruct (json_loads E line) as [v|[cls msg]]. Qed.

Lemma soft_read_record acc line : fails_softly (read_record E acc line).
Proof.
  unfold read_record. apply soft_if; [|done]. apply soft_try.
  - apply soft_bind; [apply soft_loads|done].
  - intros [| |[] msg] k [= <-]; try done. by apply soft_if.
Qed.

Lemma soft_read_records lines : ∀ acc, fails_softly (read_records E acc lines).
Proof.
  induction lines as [|line lines IH]; intros acc; [done|].
  cbn. apply soft_bind; [apply soft_read_record|apply IH].
Qed.

Lemma soft_read_live_hosts o : fails_softly (read_live_hosts E o).
Proof.
  unfold read_live_hosts. apply soft_bind; [done|]. intros b.
  apply soft_if; [|done]. apply soft_bind; [apply soft_read_text|].
  intros text. apply soft_read_records.
Qed.

Lemma soft_slice_to n v : fails_softly (slice_to n v).
Proof. by destruct v. Qed.

Lemma soft_show_host i host : fails_softly (show_host E i host).
Proof.
  destruct host; try done. cbn. apply soft_bind; [apply soft_slice_to|done].
Qed.

Lemma soft_show_live_hosts hosts : fails_softly (show_live_hosts E hosts).
Proof.
  unfold show_live_hosts. destruct hosts; [done|].
  apply soft_bind; [done|]. intros _. apply soft_bind.
  - apply soft_for_each. intros [i host]. apply soft_show_host.
  - intros _. by apply soft_if.
Qed.

(** A [try] whose handlers catch every [Exception] and only print
    returns. *)
Lemma try_except_total {A} (m : Py A) h :
  fails_softly m →
  (∀ cls msg, ∃ k, h (Error cls msg) = Some k ∧ prints k) →
  ∀ w, ∃ a w', try_except m h w = (Ok a, w').
Proof.
  intros Hm Hh w. unfold try_except. specialize (Hm w).
  destruct (m w) as [[a|[c| |cls msg]] w']; [by eauto|done|done|].
  destruct (Hh cls msg) as (k & -> & Hk). destruct (Hk w') as (a & o & ->). eauto.
Qed.
End soft.

(** ** The stages, case by case *)

Section stage_cases.
Context (E : environment).

Lemma soft_run_subfinder_try domain o : fails_softly (run_subfinder_try E domain o).
Proof.
  unfold run_subfinder_try. apply soft_bind; [done|]. intros _.
  apply soft_bind; [apply soft_subprocess_run|]. intros result.
  apply soft_if; [done|].
  apply soft_bind; [done|]. intros _.
  apply soft_bind; [apply soft_open_w|]. intros _.
  apply soft_bind; [by apply soft_for_each|]. intros _.
  apply soft_bind; [done|]. intros _.
  apply soft_bind; [apply soft_prints, prints_show_subdomains|done].
Qed.

Lemma soft_run_httpx_try f o n : fails_softly (run_httpx_try E f o n).
Proof.
  unfold run_httpx_try. apply soft_bind; [done|]. intros _.
  apply soft_bind; [done|]. intros _.
  apply soft_bind; [apply soft_subprocess_run|]. intros result.
  apply soft_bind; [by apply soft_if|]. intros _.
  apply soft_bind; [apply soft_read_live_hosts|]. intros hosts.
  apply soft_bind; [done|]. intros _.
  apply soft_bind; [apply soft_show_live_hosts|done].
Qed.

(** Both sets of [except] clauses catch every [Exception], print one line
    and return an empty list. *)
Lemma run_subfinder_except_empty cls msg :
  ∃ line, run_subfinder_except (Error cls msg)
          = Some (print_status line error ;; mret []).
Proof. destruct cls; by eexists. Qed.

Lemma run_httpx_except_empty cls msg :
  ∃ line, run_httpx_except (Error cls msg)
          = Some (print_status line error ;; mret []).
Proof. destruct cls; by eexists. Qed.

Lemma try_caught_empty {A} (body : Py (list A)) handler w e w1 :
  fails_softly body →
  (∀ cls msg, ∃ line, handler (Error cls msg)
                      = Some (print_status line error ;; mret [])) →
  body w = (Exc e, w1) →
  ∃ w', try_except body handler w = (Ok [], w').
Proof.
  intros Hsoft Hh Hbody. specialize (Hsoft w). rewrite Hbody in Hsoft.
  destruct e as [code| |cls msg]; [done|done|].
  destruct (Hh cls msg) as [line Hline].
  rewrite (try_except_Exc _ _ _ _ _ Hbody), Hline. by eexists.
Qed.

Lemma try_total_list {A} (body : Py (list A)) handler :
  fails_softly body →
  (∀ cls msg, ∃ line, handler (Error cls msg)
                      = Some (print_status line error ;; mret [])) →
  ∀ w, ∃ l w', try_except body handler w = (Ok l, w').
Proof.
  intros Hsoft Hh. apply try_except_total; [done|]. intros cls msg.
  destruct (Hh cls msg) as [line ->]. eexists. split; [done|].
  apply prints_bind; [apply prints_print_status|intros; apply prints_ret].
Qed.

Lemma run_subfinder_total domain output_file w :
  ∃ l w', run_subfinder E domain output_file w = (Ok l, w').
Proof.
  unfold run_subfinder. rewrite bind_run. unfold print_status at 1.
  apply try_total_list;
    [apply soft_run_subfinder_try|apply run_subfinder_except_empty].
Qed.

(** An exception inside the [try] of [run_subfinder] gives an empty list. *)
Lemma run_subfinder_caught domain output_file w e w1 :
  run_subfinder_try E domain output_file
    (add_output (Status info ("Starting subdomain enumeration for: " +:+ domain)) w)
  = (Exc e, w1) →
  ∃ w', run_subfinder E domain output_file w = (Ok [], w').
Proof.
  intros Hbody. unfold run_subfinder. rewrite bind_run. unfold print_status at 1.
  eapply try_caught_empty;
    [apply soft_run_subfinder_try|apply run_subfinder_except_empty|done].
Qed.

Lemma run_subfinder_try_raised domain output_file w cls msg fs :
  spawn E (subfinder_cmd domain) (Some 300) (files w) = (Raised cls msg, fs) →
  ∃ w1, run_subfinder_try E domain output_file w = (Exc (Error cls msg), w1)
        ∧ denied w1 = denied w.
Proof.
  intros Hspawn. unfold run_subfinder_try.
  rewrite bind_run. unfold print_status at 1.
  rewrite bind_run. erewrite subprocess_run_Raised by exact Hspawn. by eexists.
Qed.

Lemma run_subfinder_raised domain output_file w cls msg fs :
  spawn E (subfinder_cmd domain) (Some 300) (files w) = (Raised cls msg, fs) →
  ∃ w', run_subfinder E domain output_file w = (Ok [], w').
Proof.
  intros Hspawn.
  edestruct (run_subfinder_try_raised domain output_file) as (w1 & Hbody & _);
    [|by eapply run_subfinder_caught]. exact Hspawn.
Qed.

Lemma run_subfinder_failed domain output_file w rc out err fs :
  spawn E (subfinder_cmd domain) (Some 300) (files w) = (Completed rc out err, fs) →
  rc ≠ 0%Z →
  ∃ w', run_subfinder E domain output_file w = (Ok [], w').
Proof.
  intros Hspawn Hrc. unfold run_subfinder. rewrite bind_run. unfold print_status at 1.
  eexists. apply try_except_Ok. unfold run_subfinder_try.
  rewrite bind_run. unfold print_status at 1.
  rewrite bind_run. erewrite subprocess_run_Completed by exact Hspawn.
  cbn [returncode]. apply Z.eqb_neq in Hrc as ->. cbn [negb].
  rewrite bind_run. unfold print_status at 1. reflexivity.
Qed.

Lemma run_subfinder_unwritable domain output_file w :
  is_Some (denied w !! output_file) →
  ∃ w', run_subfinder E domain output_file w = (Ok [], w').
Proof.
  intros [[cls msg] Hd].
  destruct (spawn E (subfinder_cmd domain) (Some 300) (files w))
    as [[rc out err|cls' msg'] fs] eqn:Hspawn.
  2:{ by eapply run_subfinder_raised. }
  destruct (decide (rc = 0%Z)) as [->|Hrc].
  2:{ by eapply run_subfinder_failed. }
  eapply run_subfinder_caught. unfold run_subfinder_try.
  rewrite bind_run. unfold print_status at 1.
  rewrite bind_run. erewrite subprocess_run_Completed by exact Hspawn.
  cbn [returncode Z.eqb negb]. rewrite bind_run. unfold print_status at 1.
  rewrite bind_run. unfold open_w. cbn [denied add_output add_command set_files].
  rewrite Hd. reflexivity.
Qed.

Lemma run_httpx_empty_lines_aux w f o c :
  files w !! f = Some c → denied w !! f = None →
  iter_lines (universal_newlines c) = [] →
  ∃ w', run_httpx E f o w = (Ok [], w').
Proof.
  intros Hc Hd Hlines. unfold run_httpx. rewrite bind_run. unfold print_status at 1.
  rewrite bind_run, path_exists_run. cbn [files add_output]. rewrite Hc.
  rewrite bool_decide_true by done. cbn [negb].
  rewrite bind_run. erewrite read_text_Ok by done. rewrite Hlines.
  cbn [length Nat.eqb]. rewrite bind_run. unfold print_status at 1. by eexists.
Qed.

(** The checks [run_httpx] makes before its [try]: the list file is there
    and has [n] lines, [n] not zero. *)
Lemma run_httpx_enters_try f o w c :
  files w !! f = Some c → denied w !! f = None →
  iter_lines (universal_newlines c) ≠ [] →
  run_httpx E f o w
  = try_except (run_httpx_try E f o (length (iter_lines (universal_newlines c))))
               run_httpx_except
      (add_output (Status info ("Probing for live hosts from: " +:+ f)) w).
Proof.
  intros Hc Hd Hlines. unfold run_httpx. rewrite bind_run. unfold print_status at 1.
  rewrite bind_run, path_exists_run. cbn [files add_output]. rewrite Hc.
  rewrite bool_decide_true by done. cbn [negb].
  rewrite bind_run. erewrite read_text_Ok by done.
  by destruct (iter_lines (universal_newlines c)).
Qed.

Lemma run_httpx_total f o w :
  files w !! f = None ∨ denied w !! f = None →
  ∃ l w', run_httpx E f o w = (Ok l, w').
Proof.
  intros Hin. destruct (files w !! f) as [c|] eqn:Hc.
  - destruct Hin as [?|Hd]; [done|].
    destruct (decide (iter_lines (universal_newlines c) = [])) as [Hl|Hl].
    + destruct (run_httpx_empty_lines_aux w f o c Hc Hd Hl) as [w' ->]. by eauto.
    + rewrite (run_httpx_enters_try _ _ _ c) by done.
      apply try_total_list; [apply soft_run_httpx_try|apply run_httpx_except_empty].
  - unfold run_httpx. rewrite bind_run. unfold print_status at 1.
    rewrite bind_run, path_exists_run. cbn [files add_output]. rewrite Hc.
    rewrite bool_decide_false by (by intros [? ?]). cbn [negb].
    rewrite bind_run. unfold print_status at 1. by eauto.
Qed.

(** An exception inside the [try] of [run_httpx] gives an empty list. *)
Lemma run_httpx_caught f o w c e w1 :
  files w !! f = Some c → denied w !! f = None →
  run_httpx_try E f o (length (iter_lines (universal_newlines c)))
    (add_output (Status info ("Probing for live hosts from: " +:+ f)) w)
  = (Exc e, w1) →
  ∃ w', run_httpx E f o w = (Ok [], w').
Proof.
  intros Hc Hd Hbody.
  destruct (decide (iter_lines (universal_newlines c) = [])) as [Hl|Hl].
  - by eapply run_httpx_empty_lines_aux.
  - rewrite (run_httpx_enters_try _ _ _ c) by done.
    eapply try_caught_empty;
      [apply soft_run_httpx_try|apply run_httpx_except_empty|done].
Qed.

Lemma run_httpx_raised f o w cls msg fs l w' :
  spawn E (httpx_cmd f o) (Some 600) (files w) = (Raised cls msg, fs) →
  run_httpx E f o w = (Ok l, w') → l = [].
Proof.
  intros Hspawn Hrun.
  destruct (files w !! f) as [c|] eqn:Hc.
  2:{ revert Hrun. unfold run_httpx. rewrite bind_run. unfold print_status at 1.
      rewrite bind_run, path_exists_run. cbn [files add_output]. rewrite Hc.
      rewrite bool_decide_false by (by intros [? ?]). cbn [negb].
      rewrite bind_run. unfold print_status at 1. by intros [= <- _]. }
  destruct (denied w !! f) as [[cls' msg']|] eqn:Hd.
  { revert Hrun. unfold run_httpx. rewrite bind_run. unfold print_status at 1.
    rewrite bind_run, path_exists_run. cbn [files add_output]. rewrite Hc.
    rewrite bool_decide_true by done. cbn [negb].
    rewrite bind_run. unfold read_text. cbn [denied add_output]. by rewrite Hd. }
  edestruct (run_httpx_caught f o w c) as [w'' Hrun'']; [done|done| |congruence].
  unfold run_httpx_try. rewrite bind_run. unfold print_status at 1.
  rewrite bind_run. unfold print_status at 1.
  rewrite bind_run. erewrite subprocess_run_Raised by exact Hspawn. reflexivity.
Qed.

(** The tool has run to its end, with whatever code: the records read from
    its output file are returned, provided the summary can show the first
    five. *)
Lemma run_httpx_completed f o w c rc out err fs hosts :
  files w !! f = Some c → denied w !! f = None →
  iter_lines (universal_newlines c) ≠ [] →
  spawn E (httpx_cmd f o) (Some 600) (files w) = (Completed rc out err, fs) →
  (∀ w3, files w3 = fs → denied w3 = denied w →
         read_live_hosts E o w3 = (Ok hosts, w3)) →
  Forall displayable (take 5 hosts) →
  ∃ w', run_httpx E f o w = (Ok hosts, w')
        ∧ (rc ≠ 0%Z → rc ≠ 1%Z →
           Status error ("Httpx failed (code " +:+ pretty rc +:+ "): "
                         +:+ str_take 200 (universal_newlines err))
           ∈ output w').
Proof.
  intros Hc Hd Hlines Hspawn Hread Hdisp.
  rewrite (run_httpx_enters_try _ _ _ c) by done.
  set (w0 := add_output _ w).
  set (n := pretty (length (iter_lines (universal_newlines c)))).
  set (cmd := httpx_cmd f o).
  set (w1 := add_output (Status info ("Running httpx on " +:+ n +:+ " subdomains")) w0).
  set (w2 := add_output (Status info ("Command: " +:+ join " " cmd)) w1).
  set (w3 := add_command cmd (set_files (λ _, fs) w2)).
  set (failure := Status error ("Httpx failed (code " +:+ pretty rc +:+ "): "
                                +:+ str_take 200 (universal_newlines err))).
  assert (∃ w4, (if negb (rc =? 0)%Z && negb (rc =? 1)%Z
                 then print_status ("Httpx failed (code " +:+ pretty rc +:+ "): "
                                    +:+ str_take 200 (universal_newlines err)) error
                 else mret ()) w3 = (Ok (), w4)
                ∧ files w4 = fs ∧ denied w4 = denied w
                ∧ (rc ≠ 0%Z → rc ≠ 1%Z → failure ∈ output w4))
    as (w4 & Hw4 & Hf4 & Hd4 & Ho4).
  { destruct (rc =? 0)%Z eqn:H0; [|destruct (rc =? 1)%Z eqn:H1]; cbn [negb andb].
    - exists w3. split_and!; try done. by apply Z.eqb_eq in H0.
    - exists w3. split_and!; try done. by apply Z.eqb_eq in H1.
    - eexists. split_and!; [reflexivity|done|done|].
      intros _ _. cbn. apply elem_of_app. right. by apply list_elem_of_singleton. }
  destruct (prints_show_live_hosts E hosts Hdisp
              (add_output (Status success ("Found " +:+ pretty (length hosts)
                 +:+ " live hosts in " +:+ elapsed_2f E +:+ " seconds")) w4))
    as (u & o' & Hshow).
  eexists. split.
  - apply try_except_Ok. unfold run_httpx_try.
    rewrite bind_run. unfold print_status at 1. fold n w1.
    rewrite bind_run. unfold print_status at 1. fold cmd w2.
    rewrite bind_run, (subprocess_run_Completed E cmd _ w2 _ _ _ _ Hspawn). fold w3.
    cbn [returncode stderr]. rewrite bind_run, Hw4, bind_run, (Hread w4 Hf4 Hd4).
    rewrite bind_run. unfold print_status at 1. rewrite bind_run, Hshow.
    reflexivity.
  - intros H0 H1. cbn. apply elem_of_app. left. apply elem_of_app. left.
    by apply Ho4.
Qed.

End stage_cases.

(** ** The report and the timeout of the enumeration *)

Lemma write_run (p s : string) (w : world) (c : string) :
  files w !! p = Some c →
  ∃ w', write p s w = (Ok (), w')
        ∧ files w' !! p = Some (c +:+ s)
        ∧ denied w' = denied w ∧ output w' = output w.
Proof.
  intros Hc. eexists. split; [reflexivity|]. cbn. by rewrite lookup_alter_eq, Hc.
Qed.

Lemma open_w_run (p : string) (w : world) :
  denied w !! p = None →
  ∃ w', open_w p w = (Ok (), w')
        ∧ files w' !! p = Some EmptyString
        ∧ denied w' = denied w ∧ output w' = output w.
Proof.
  intros Hd. unfold open_w. rewrite Hd. eexists. split; [reflexivity|].
  cbn. by rewrite lookup_insert_eq.
Qed.

Lemma open_w_denied (p : string) (w : world) cls msg :
  denied w !! p = Some (cls, msg) → open_w p w = (Exc (Error cls msg), w).
Proof. intros Hd. unfold open_w. by rewrite Hd. Qed.

Lemma generate_report_no_hosts E args sf lf rf (subdomains : list string) w :
  denied w !! rf = None →
  ∃ w', generate_report E args sf lf rf subdomains [] w = (Ok (), w')
        ∧ files w' !! rf = Some (report_summary E args sf lf (length subdomains) 0)
        ∧ last (output w') = Some (Status success ("Report saved to: " +:+ rf)).
Proof.
  intros Hd. unfold generate_report.
  destruct (open_w_run rf w Hd) as (w0 & Hopen & Hf0 & Hd0 & Ho0).
  eexists. split.
  - apply try_except_Ok. rewrite bind_run, Hopen.
    do 9 (rewrite bind_run; unfold write at 1). rewrite bind_run, ret_run.
    unfold print_status. reflexivity.
  - split; [|cbn; apply last_snoc].
    cbn. rewrite !lookup_alter_eq, Hf0. cbn. unfold report_summary.
    by rewrite !str_app_assoc.
Qed.

Lemma generate_report_denied E args sf lf rf subdomains hosts w cls msg :
  denied w !! rf = Some (cls, msg) →
  generate_report E args sf lf rf subdomains hosts w
  = (Ok (), add_output (Status error ("Error generating report: " +:+ msg)) w).
Proof.
  intros Hd. unfold generate_report. erewrite try_except_Exc.
  2:{ rewrite bind_run. erewrite open_w_denied by done. reflexivity. }
  reflexivity.
Qed.

Lemma run_subfinder_timeout E domain output_file w msg fs :
  spawn E (subfinder_cmd domain) (Some 300) (files w) = (Raised TimeoutExpired msg, fs) →
  ∃ w', run_subfinder E domain output_file w = (Ok [], w')
        ∧ denied w' = denied w
        ∧ last (output w') = Some (Status error "Subfinder timed out after 5 minutes").
Proof.
  intros Hspawn. unfold run_subfinder. rewrite bind_run. unfold print_status at 1.
  erewrite try_except_Exc.
  2:{ unfold run_subfinder_try. rewrite bind_run. unfold print_status at 1.
      rewrite bind_run. erewrite subprocess_run_Raised by exact Hspawn. reflexivity. }
  cbn [run_subfinder_except]. rewrite bind_run. unfold print_status at 1.
  eexists. split; [reflexivity|].
  split; [done|]. cbn. apply last_snoc.
Qed.


(** ** Choosing the list to resume from *)

Lemma last_sorted_max (l : list string) (f : string) :
  f ∈ l → (∀ g, g ∈ l → String.le g f) → last (sorted l) = Some f.
Proof.
  intros Hf Hmax. unfold sorted.
  pose proof (merge_sort_Permutation String.le l) as Hperm.
  pose proof (StronglySorted_merge_sort String.le l) as Hsorted.
  destruct (last (merge_sort String.le l)) as [x|] eqn:Hlast.
  - apply last_Some in Hlast as [l' Hl']. rewrite Hl' in Hsorted, Hperm.
    assert (x ∈ l) as Hx by (rewrite <-Hperm; set_solver).
    assert (f ∈ l' ++ [x]) as [Hf'| ->%list_elem_of_singleton]%elem_of_app
      by (by rewrite Hperm); [|done].
    f_equal. apply (anti_symm String.le); [by apply Hmax|].
    eapply StronglySorted_app_1_elem_of; [done..|]. by apply list_elem_of_singleton.
  - apply last_None in Hlast. rewrite Hlast in Hperm.
    apply Permutation_nil_l in Hperm. subst. by apply elem_of_nil in Hf.
Qed.

Lemma sorted_nil : sorted [] = [].
Proof. reflexivity. Qed.


(** ** Reading a written list back *)

Lemma nonblank_app_nl (s : string) : nonblank (s +:+ nl) ↔ nonblank s.
Proof. unfold nonblank. by rewrite strip_app_nl. Qed.

(** Reading back a written list whose entries carry no white space at
    either end. *)
Lemma stripped_lines_list_file (us : list string) :
  Forall (λ p, contains LF p = false) us →
  Forall (λ p, contains CR p = false) us →
  Forall nonblank us →
  Forall (λ sub, strip sub = sub) us →
  stripped_lines (universal_newlines (list_file us)) = us.
Proof.
  intros HLF HCR Hnb Hst. unfold stripped_lines.
  rewrite universal_newlines_id by (by apply list_file_no_CR).
  rewrite list_file_lines by done. clear HLF HCR.
  induction us as [|x us IH]; [done|].
  apply Forall_cons in Hnb as [Hx Hnb]. apply Forall_cons in Hst as [Hsx Hst].
  cbn [fmap list_fmap]. rewrite filter_cons_True by (by apply nonblank_app_nl).
  cbn [fmap list_fmap]. rewrite strip_app_nl, Hsx. f_equal. by apply IH.
Qed.

(** ** The lines a resumed session loads *)

(** The lines of a loop over a text and the pieces between its line feeds:
    the first agree up to the final line feed, and so do the rest once
    the blank ones are dropped and the others stripped. *)
Lemma iter_lines_split_aux (s : string) :
  match iter_lines s, split LF s with
  | [], [piece] => piece = EmptyString
  | line :: lines, piece :: pieces =>
      (line = piece ∧ lines = [] ∧ pieces = [])
      ∨ (line = piece +:+ nl
         ∧ strip <$> filter nonblank lines = strip <$> filter nonblank pieces)
  | _, _ => False
  end.
Proof.
  assert (∀ line piece (lines pieces : list string),
            (line = piece ∧ lines = [] ∧ pieces = [])
            ∨ (line = piece +:+ nl
               ∧ strip <$> filter nonblank lines = strip <$> filter nonblank pieces) →
            strip <$> filter nonblank (line :: lines)
            = strip <$> filter nonblank (piece :: pieces)) as Hcons.
  { intros line piece lines pieces [(-> & -> & ->)|[-> Hrest]]; [done|].
    destruct (decide (nonblank piece)) as [Hp|Hp].
    - rewrite (filter_cons_True _ (piece +:+ nl)) by (by apply nonblank_app_nl).
      rewrite (filter_cons_True _ piece) by done.
      cbn [fmap list_fmap]. by rewrite strip_app_nl, Hrest.
    - rewrite (filter_cons_False _ (piece +:+ nl)) by (by rewrite nonblank_app_nl).
      rewrite (filter_cons_False _ piece) by done. exact Hrest. }
  induction s as [|c r IH]; [done|]. cbn [iter_lines split].
  destruct (Ascii.eqb c LF) eqn:Hc.
  - right. split; [done|].
    destruct (iter_lines r) as [|line lines], (split LF r) as [|piece pieces];
      try done.
    + destruct pieces; [|done]. subst piece. done.
    + by apply Hcons.
  - destruct (iter_lines r) as [|line lines], (split LF r) as [|piece pieces];
      try done.
    + destruct pieces; [|done]. subst piece. by left.
    + destruct IH as [(-> & -> & ->)|[-> Hrest]]; [by left|right]. done.
Qed.

Lemma iter_lines_split (s : string) :
  strip <$> filter nonblank (iter_lines s) = strip <$> filter nonblank (split LF s).
Proof.
  pose proof (iter_lines_split_aux s) as H.
  destruct (iter_lines s) as [|line lines], (split LF s) as [|piece pieces];
    try done.
  - destruct pieces; [|done]. subst piece. done.
  - destruct H as [(-> & -> & ->)|[-> Hrest]]; [done|].
    destruct (decide (nonblank piece)) as [Hp|Hp].
    + rewrite (filter_cons_True _ (piece +:+ nl)) by (by apply nonblank_app_nl).
      rewrite (filter_cons_True _ piece) by done.
      cbn [fmap list_fmap]. by rewrite strip_app_nl, Hrest.
    + rewrite (filter_cons_False _ (piece +:+ nl)) by (by rewrite nonblank_app_nl).
      rewrite (filter_cons_False _ piece) by done. exact Hrest.
Qed.

(** Reading in text mode and cutting at the line feeds gives the lines of
    the content. *)
Lemma lines_of_cons2 a b r :
  lines_of (String a (String b r))
  = if Ascii.eqb a LF then EmptyString :: lines_of (String b r)
    else if Ascii.eqb a CR then
      (if Ascii.eqb b LF then EmptyString :: lines_of r
       else EmptyString :: lines_of (String b r))
    else match lines_of (String b r) with
         | line :: rest => String a line :: rest
         | [] => [String a EmptyString]
         end.
Proof. reflexivity. Qed.

Lemma universal_newlines_cons2 a b r :
  universal_newlines (String a (String b r))
  = if Ascii.eqb a CR then
      (if Ascii.eqb b LF then String LF (universal_newlines r)
       else String LF (universal_newlines (String b r)))
    else String a (universal_newlines (String b r)).
Proof. reflexivity. Qed.

Lemma split_cons sep c s :
  split sep (String c s)
  = if Ascii.eqb c sep then EmptyString :: split sep s
    else match split sep s with
         | h :: t => String c h :: t
         | [] => [String c EmptyString]
         end.
Proof. reflexivity. Qed.

Lemma lines_of_split_aux (s : string) :
  lines_of s = split LF (universal_newlines s)
  ∧ ∀ a, lines_of (String a s) = split LF (universal_newlines (String a s)).
Proof.
  assert (∀ a, Ascii.eqb a LF = true → Ascii.eqb a CR = false) as Hlf.
  { intros a ->%Ascii.eqb_eq. done. }
  induction s as [|b r [IH1 IH2]].
  - split; [done|]. intros a. cbn.
    destruct (Ascii.eqb a LF) eqn:Ha.
    + rewrite (Hlf a Ha). cbn. by rewrite Ha.
    + destruct (Ascii.eqb a CR) eqn:Ha'; cbn; by rewrite ?Ha.
  - split; [apply IH2|]. intros a.
    rewrite lines_of_cons2, universal_newlines_cons2.
    destruct (Ascii.eqb a LF) eqn:Ha.
    + rewrite (Hlf a Ha), split_cons, Ha. f_equal. apply IH2.
    + destruct (Ascii.eqb a CR) eqn:Ha'.
      * destruct (Ascii.eqb b LF) eqn:Hb; rewrite split_cons;
          change (Ascii.eqb LF LF) with true; cbv iota; f_equal;
          [apply IH1|apply IH2].
      * rewrite split_cons, Ha. by rewrite (IH2 b).
Qed.

Lemma lines_of_split (s : string) : lines_of s = split LF (universal_newlines s).
Proof. apply lines_of_split_aux. Qed.

Lemma filter_strip_nonblank (pieces : list string) :
  strip <$> filter nonblank pieces
  = filter (λ line, line ≠ EmptyString) (strip <$> pieces).
Proof.
  induction pieces as [|piece pieces IH]; [done|]. cbn [fmap list_fmap].
  destruct (decide (nonblank piece)) as [Hp|Hp].
  - rewrite !filter_cons_True by done. cbn [fmap list_fmap]. by rewrite IH.
  - rewrite !filter_cons_False by done. exact IH.
Qed.

(** What the loader of [main] makes of a file is the list of its
    non-blank lines. *)
Lemma stripped_lines_nonblank_lines (content : string) :
  stripped_lines (universal_newlines content) = nonblank_lines content.
Proof.
  unfold stripped_lines, nonblank_lines.
  by rewrite iter_lines_split, <-lines_of_split, filter_strip_nonblank.
Qed.

(** ** Notification *)

Section notification.
Context (E : environment).

(** The names the notification code reads without their being bound:
    [telegram_token] in the Telegram branch, and [platform_webhook] and
    [platform], the default values of the last two parameters of
    [send_notification], which Python evaluates when the [def] statement
    runs. [main] passes both parameters at each call. *)
Lemma unbound_names :
  ("telegram_token" ∉ module_globals)
  ∧ ("platform_webhook" ∉ module_globals)
  ∧ ("platform" ∉ module_globals).
Proof. split_and!; apply (bool_decide_unpack _); vm_compute; exact I. Qed.

(** The identifier of the specification's example, cut at its slash. *)
Lemma split_slash_example :
  split "/" "token123/chatID456" = ["token123"; "chatID456"].
Proof. reflexivity. Qed.

(** Discord and Slack: the identifier is the address posted to. *)
Lemma webhook_posted_verbatim domain n m url platform w :
  requests_installed E = true →
  url ≠ EmptyString →
  platform = "discord" ∨ platform = "slack" →
  ∃ b payload w',
    send_notification E domain n m url platform w = (Ok b, w')
    ∧ posts w' = posts w ++ [(url, payload)].
Proof.
  intros Hreq Hurl Hp. unfold send_notification.
  apply truthy_true in Hurl as ->. cbn [negb].
  unfold try_except, import_requests. rewrite Hreq.
  destruct Hp as [-> | ->]; cbn [String.eqb Ascii.eqb Bool.eqb];
    rewrite !bind_run, ret_run; unfold post; cbn [fst snd];
    destruct (http_post E url _) as [code|cls msg]; cbn.
  - destruct (code =? 200)%Z; rewrite bind_run; unfold print_status at 1;
      by eexists _, _, _.
  - destruct cls; rewrite bind_run; unfold print_status at 1; by eexists _, _, _.
  - destruct (code =? 200)%Z; rewrite bind_run; unfold print_status at 1;
      by eexists _, _, _.
  - destruct cls; rewrite bind_run; unfold print_status at 1; by eexists _, _, _.
Qed.
End notification.


(** ** How the session can end *)

Section exits.
Context (E : environment).

Lemma soft_total {A} (m : Py A) :
  (∀ w, ∃ a w', m w = (Ok a, w')) → fails_softly m.
Proof. intros H w. by destruct (H w) as (a & w' & ->). Qed.

Lemma soft_check_tool_installed tool : fails_softly (check_tool_installed E tool).
Proof.
  unfold check_tool_installed. apply soft_try.
  - apply soft_bind; [apply soft_subprocess_run|]. intros r.
    apply soft_if; [done|]. apply soft_bind; [apply soft_subprocess_run|done].
  - intros [| |cls msg] k [= <-]. done.
Qed.

Lemma soft_mkdir d : fails_softly (mkdir d).
Proof.
  intros w. unfold mkdir. destruct (denied w !! d) as [[cls msg]|]; [done|].
  by destruct (bool_decide _).
Qed.

Lemma soft_run_subfinder domain o : fails_softly (run_subfinder E domain o).
Proof. apply soft_total. intros w. apply run_subfinder_total. Qed.

Lemma soft_run_httpx f o : fails_softly (run_httpx E f o).
Proof.
  unfold run_httpx. apply soft_bind; [done|]. intros _.
  apply soft_bind; [done|]. intros present. apply soft_if; [done|].
  apply soft_bind; [apply soft_read_text|]. intros text.
  apply soft_if; [done|]. apply soft_try; [apply soft_run_httpx_try|].
  intros [| |cls msg] k Hk; [done|done|].
  destruct (run_httpx_except_empty cls msg) as [line Hline].
  rewrite Hline in Hk. by injection Hk as <-.
Qed.

Lemma soft_str_items l : ∀ i, fails_softly (str_items i l).
Proof.
  induction l as [|v l IH]; intros i; [done|].
  destruct v; try done. cbn. apply soft_bind; [apply IH|done].
Qed.

Lemma soft_join_value sep v : fails_softly (join_value sep v).
Proof.
  destruct v; try done. cbn. apply soft_bind; [apply soft_str_items|done].
Qed.

Lemma soft_report_host rf host : fails_softly (report_host E rf host).
Proof.
  destruct host; try done. cbn.
  do 3 (apply soft_bind; [done|]; intros _).
  apply soft_bind; [|done]. apply soft_if; [|done].
  apply soft_bind; [apply soft_join_value|done].
Qed.

Lemma soft_generate_report args sf lf rf subdomains hosts :
  fails_softly (generate_report E args sf lf rf subdomains hosts).
Proof.
  unfold generate_report. apply soft_try.
  - apply soft_bind; [apply soft_open_w|]. intros _.
    do 9 (apply soft_bind; [done|]; intros _).
    apply soft_bind; [|done]. destruct hosts; [done|].
    do 2 (apply soft_bind; [done|]; intros _).
    apply soft_for_each. intros host. apply soft_report_host.
  - intros [| |cls msg] k [= <-]. done.
Qed.

Lemma exits_soft {A} (m : Py A) : fails_softly m → exits_with_1 m.
Proof. intros H w. specialize (H w). by destruct (m w).1 as [|[]]. Qed.

Lemma exits_bind {A B} (m : Py A) (f : A → Py B) :
  exits_with_1 m → (∀ a, exits_with_1 (f a)) → exits_with_1 (m ≫= f).
Proof.
  intros Hm Hf w. rewrite bind_run. specialize (Hm w).
  destruct (m w) as [[a|e] w']; [apply Hf|done].
Qed.

Lemma exits_if {A} (b : bool) (m1 m2 : Py A) :
  exits_with_1 m1 → exits_with_1 m2 → exits_with_1 (if b then m1 else m2).
Proof. by destruct b. Qed.

Lemma exits_setup args : exits_with_1 (setup E args).
Proof.
  unfold setup. apply exits_bind; [apply exits_soft, soft_mkdir|]. intros _.
  do 5 (apply exits_bind; [done|]; intros _).
  apply exits_bind.
  { apply exits_soft, soft_if; [done|].
    apply soft_bind; [apply soft_check_tool_installed|done]. }
  intros missing. apply exits_if.
  { do 2 (apply exits_bind; [done|]; intros _). done. }
  apply exits_bind.
  { apply exits_soft, soft_if; [done|].
    apply soft_bind; [apply soft_check_tool_installed|done]. }
  intros missing'. apply exits_if; [|done].
  do 2 (apply exits_bind; [done|]; intros _). done.
Qed.

Lemma exits_resolve_subdomains args sf : exits_with_1 (resolve_subdomains E args sf).
Proof.
  unfold resolve_subdomains. apply exits_if.
  - apply exits_soft. apply soft_bind; [apply soft_run_subfinder|]. intros subs.
    apply soft_bind; [|done]. unfold when. by apply soft_if.
  - apply exits_bind; [done|]. intros _.
    apply exits_bind; [done|]. intros existing.
    destruct (last (sorted existing)).
    + apply exits_soft. apply soft_bind; [done|]. intros _.
      apply soft_bind; [apply soft_read_text|done].
    + apply exits_bind; [done|]. intros _. done.
Qed.

Lemma soft_probe args subs sf lf : fails_softly (probe E args subs sf lf).
Proof.
  unfold probe. apply soft_if.
  - do 2 (apply soft_bind; [done|]; intros _). apply soft_run_httpx.
  - apply soft_if; by (apply soft_bind; [done|]).
Qed.
End exits.

Lemma notify_step_raises (E : environment) (args : arguments)
    (subdomains : list string) (live_hosts : list pyval) (w : world) :
  notify args ≠ "none" →
  webhook args = None ∨ webhook args = Some EmptyString →
  notify_step E args subdomains live_hosts w
  = (Exc (Error AttributeError
            "'Namespace' object has no attribute 'webhook_url'"), w).
Proof.
  intros Hn Hw. unfold notify_step.
  apply String.eqb_neq in Hn as ->. cbn [negb andb].
  by destruct Hw as [-> | ->].
Qed.

(** ** The collector *)

Lemma output_lines_clean (out : string) (c : ascii) :
  c = LF ∨ contains c (strip out) = false →
  Forall (λ p, contains c p = false) (dedupe (output_lines out)).
Proof.
  intros Hc. apply dedupe_Forall, Forall_forall.
  intros x [_ Hx]%list_elem_of_filter. revert x Hx.
  by apply Forall_forall, split_pieces.
Qed.

Lemma output_lines_nonblank (out : string) :
  Forall nonblank (dedupe (output_lines out)).
Proof.
  apply dedupe_Forall, Forall_forall. by intros x [? _]%list_elem_of_filter.
Qed.

(** The successful run: what is returned and what is left in the file. *)
Lemma run_subfinder_success (E : environment) (domain output_file : string)
    (w : world) (raw err : string) (fs : gmap string string) :
  spawn E (subfinder_cmd domain) (Some 300) (files w) = (Completed 0 raw err, fs) →
  denied w !! output_file = None →
  let unique := dedupe (output_lines (universal_newlines raw)) in
  ∃ w', run_subfinder E domain output_file w = (Ok unique, w')
        ∧ files w' !! output_file = Some (list_file unique)
        ∧ denied w' = denied w.
Proof.
  intros Hspawn Hden unique.
  unfold run_subfinder. rewrite bind_run. unfold print_status at 1.
  set (w0 := add_output _ w).
  set (w1 := add_output (Status info ("Running command: "
                                      +:+ join " " (subfinder_cmd domain))) w0).
  set (w2 := add_command (subfinder_cmd domain) (set_files (λ _, fs) w1)).
  set (w3 := add_output (Status success ("Found " +:+ pretty (length unique)
                                         +:+ " unique subdomains")) w2).
  set (w4 := set_files (λ fs, <[output_file := EmptyString]> fs) w3).
  destruct (for_each_write unique output_file w4 EmptyString)
    as (w5 & Hrun5 & Hf5 & Hd5 & Ho5).
  { cbn. apply lookup_insert_eq. }
  destruct (prints_show_subdomains unique
              (add_output (Status info ("Results saved to: " +:+ output_file)) w5))
    as (u & o & Hshow).
  eexists. split.
  { apply try_except_Ok. unfold run_subfinder_try.
    rewrite bind_run. unfold print_status at 1. fold w1.
    rewrite bind_run, (subprocess_run_Completed E _ _ w1 _ _ _ _ Hspawn). fold w2.
    cbn [returncode stdout negb Z.eqb].
    fold (output_lines (universal_newlines raw)). fold unique.
    rewrite bind_run. unfold print_status at 1. fold w3.
    rewrite bind_run. unfold open_w.
    replace (denied w3 !! output_file) with (@None (error_class * string)) by done.
    fold w4. rewrite bind_run, Hrun5. rewrite bind_run. unfold print_status at 1.
    rewrite bind_run, Hshow. reflexivity. }
  split; [exact Hf5|]. cbn. exact Hd5.
Qed.

(** C1. When the enumeration tool succeeds and the list file can be
    written, [run_subfinder] returns the non-blank lines of the tool's
    output with each distinct line once, in order of first appearance, and
    the file it writes holds exactly that sequence, one entry per line, none
    of them blank. *)
Theorem run_subfinder_deduplicates (E : environment) (domain output_file : string)
    (w : world) (raw err : string) (fs : gmap string string) :
  spawn E (subfinder_cmd domain) (Some 300) (files w) = (Completed 0 raw err, fs) →
  denied w !! output_file = None →
  let lines := output_lines (universal_newlines raw) in
  ∃ unique w',
    run_subfinder E domain output_file w = (Ok unique, w')
    ∧ NoDup unique
    ∧ (∀ x, x ∈ unique ↔ x ∈ lines)
    ∧ unique = first_appearances lines
    ∧ files w' !! output_file = Some (list_file unique)
    ∧ iter_lines (universal_newlines (list_file unique))
      = (λ sub, sub +:+ nl) <$> unique
    ∧ Forall nonblank unique.
Proof.
  intros Hspawn Hden lines.
  destruct (run_subfinder_success E domain output_file w raw err fs Hspawn Hden)
    as (w' & Hrun & Hfile & _).
  exists (dedupe lines), w'. split_and!; [done|..].
  - apply dedupe_NoDup.
  - apply dedupe_elem_of.
  - apply dedupe_first_appearances.
  - exact Hfile.
  - rewrite universal_newlines_id.
    + apply list_file_lines, output_lines_clean. by left.
    + apply list_file_no_CR, output_lines_clean. right.
      apply contains_strip, universal_newlines_no_CR.
  - apply output_lines_nonblank.
Qed.

(** Witness of C1: [subfinder] prints two hosts, one of them twice. *)
Lemma run_subfinder_deduplicates_witness :
  ∃ unique w',
    run_subfinder (env found no_vars post_ok) "example.com" list_path empty_world
    = (Ok unique, w')
    ∧ NoDup unique
    ∧ (∀ x, x ∈ unique
            ↔ x ∈ output_lines (universal_newlines
                    ("a.example.com" +:+ nl +:+ "b.example.com" +:+ nl
                     +:+ "a.example.com" +:+ nl)))
    ∧ unique = first_appearances
                 (output_lines (universal_newlines
                    ("a.example.com" +:+ nl +:+ "b.example.com" +:+ nl
                     +:+ "a.example.com" +:+ nl)))
    ∧ files w' !! list_path = Some (list_file unique)
    ∧ iter_lines (universal_newlines (list_file unique))
      = (λ sub, sub +:+ nl) <$> unique
    ∧ Forall nonblank unique.
Proof.
  apply (run_subfinder_deduplicates (env found no_vars post_ok) "example.com"
           list_path empty_world _ EmptyString ∅); reflexivity.
Defined.

(** The list returned there. *)
Example run_subfinder_example :
  (run_subfinder (env found no_vars post_ok) "example.com" list_path empty_world).1
  = Ok ["a.example.com"; "b.example.com"].
Proof. vm_compute. reflexivity. Qed.

(** ** The probe *)

(** C6, as amended. When the subdomain-list file is missing, or is there,
    can be opened and holds no line, [run_httpx] returns an empty list after
    one more status line, an error or a warning; it raises nothing, runs no
    tool and changes nothing else. *)
Theorem run_httpx_empty_input (E : environment) (subdomains_file output_file : string)
    (w : world) :
  (files w !! subdomains_file = None
   ∨ ∃ c, files w !! subdomains_file = Some c
          ∧ denied w !! subdomains_file = None
          ∧ iter_lines (universal_newlines c) = []) →
  ∃ sev msg,
    run_httpx E subdomains_file output_file w
    = (Ok [], add_outputs
                [Status info ("Probing for live hosts from: " +:+ subdomains_file);
                 Status sev msg] w)
    ∧ (sev = error ∨ sev = warning).
Proof.
  intros [Hnone|(c & Hc & Hd & Hlines)].
  - exists error, ("Input file " +:+ subdomains_file +:+ " not found "). split; [|by left].
    unfold run_httpx. rewrite bind_run. unfold print_status at 1.
    rewrite bind_run, path_exists_run. cbn [files add_output]. rewrite Hnone.
    rewrite bool_decide_false by (by intros [? ?]). cbn [negb].
    rewrite bind_run. unfold print_status at 1. rewrite ret_run.
    by rewrite !add_output_outputs, add_outputs_app.
  - exists warning, "No subdomains to probe". split; [|by right].
    unfold run_httpx. rewrite bind_run. unfold print_status at 1.
    rewrite bind_run, path_exists_run. cbn [files add_output]. rewrite Hc.
    rewrite bool_decide_true by done. cbn [negb].
    rewrite bind_run. erewrite read_text_Ok by done. rewrite Hlines. cbn [length Nat.eqb].
    rewrite bind_run. unfold print_status at 1. rewrite ret_run.
    by rewrite !add_output_outputs, add_outputs_app.
Qed.

(** Counterexample to C6 as stated: the list file is there and holds no
    line, but cannot be opened; it is opened at line 134, before the [try]
    of line 154, and [run_httpx] raises. *)
Lemma run_httpx_empty_unreadable_raises :
  let w := world_denying [(list_path, EmptyString)]
                         [(list_path, (OSError, "[Errno 13] Permission denied"))] in
  files w !! list_path = Some EmptyString
  ∧ iter_lines (universal_newlines EmptyString) = []
  ∧ run_httpx (env found no_vars post_ok) list_path live_path w
    = (Exc (Error OSError "[Errno 13] Permission denied"),
       add_output (Status info ("Probing for live hosts from: " +:+ list_path)) w).
Proof. vm_compute. split_and!; reflexivity. Qed.

(** Witness of C6 as amended: the list file is missing; the list file is
    there, can be opened and is empty. *)
Lemma run_httpx_empty_input_witness :
  let E := env found no_vars post_ok in
  (∃ sev msg,
     run_httpx E list_path live_path empty_world
     = (Ok [], add_outputs
                 [Status info ("Probing for live hosts from: " +:+ list_path);
                  Status sev msg] empty_world)
     ∧ (sev = error ∨ sev = warning))
  ∧ (∃ sev msg,
       run_httpx E list_path live_path (world_with [(list_path, EmptyString)])
       = (Ok [], add_outputs
                   [Status info ("Probing for live hosts from: " +:+ list_path);
                    Status sev msg] (world_with [(list_path, EmptyString)]))
       ∧ (sev = error ∨ sev = warning)).
Proof.
  intros E. split.
  - apply (run_httpx_empty_input E list_path live_path empty_world).
    left. reflexivity.
  - apply (run_httpx_empty_input E list_path live_path
             (world_with [(list_path, EmptyString)])).
    right. exists EmptyString. split_and!.
    + vm_compute. reflexivity.
    + vm_compute. reflexivity.
    + reflexivity.
Defined.

(** C9. A non-empty line of the probe output that fails JSON decoding and
    does not start with [http] yields no record: the turn of the loop
    leaves the list as it was, the loop returns what it returns without
    that line, and so does the reading of an output file. *)
Theorem undecodable_line_dropped (E : environment) (before after : list string)
    (line msg : string) (acc : list pyval) (w : world) :
  strip line ≠ EmptyString →
  json_loads E (strip line) = inr (JSONDecodeError, msg) →
  startswith "http" (strip line) = false →
  read_record E acc line w = (Ok acc, w)
  ∧ read_records E acc (before ++ line :: after) w
    = read_records E acc (before ++ after) w
  ∧ ∀ output_file w1 w2 c1 c2,
      files w1 !! output_file = Some c1 → denied w1 !! output_file = None →
      files w2 !! output_file = Some c2 → denied w2 !! output_file = None →
      iter_lines (universal_newlines c1) = before ++ line :: after →
      iter_lines (universal_newlines c2) = before ++ after →
      (read_live_hosts E output_file w1).1 = (read_live_hosts E output_file w2).1.
Proof.
  intros Hne Hv Hh.
  assert (∀ acc w, read_records E acc (before ++ line :: after) w
                   = read_records E acc (before ++ after) w) as Hsame.
  { intros acc' w'. rewrite !read_records_app.
    destruct (read_records E acc' before w') as [[acc''|e] w'']; [|done].
    cbn [read_records]. by rewrite bind_run, (read_record_dropped _ _ _ _ msg). }
  split_and!; [by apply (read_record_dropped _ _ _ _ msg)|apply Hsame|].
  intros o w1 w2 c1 c2 Hf1 Hd1 Hf2 Hd2 Hl1 Hl2. unfold read_live_hosts.
  rewrite !bind_run. unfold path_exists. rewrite Hf1, Hf2.
  rewrite !bool_decide_true by done. rewrite !bind_run.
  unfold read_text. rewrite Hd1, Hd2, Hf1, Hf2, Hl1, Hl2, Hsame.
  destruct (read_records_pure E (before ++ after) []) as [r Hr].
  by rewrite !Hr.
Qed.

(** Witness of C9: the line [example.com] after a URL. *)
Lemma undecodable_line_dropped_witness :
  read_record (env found no_vars post_ok) [] ("example.com" +:+ nl) empty_world
  = (Ok [], empty_world)
  ∧ read_records (env found no_vars post_ok) []
      (["https://a.example.com" +:+ nl] ++ ("example.com" +:+ nl) :: [])
      empty_world
    = read_records (env found no_vars post_ok) []
        (["https://a.example.com" +:+ nl] ++ []) empty_world
  ∧ ∀ output_file w1 w2 c1 c2,
      files w1 !! output_file = Some c1 → denied w1 !! output_file = None →
      files w2 !! output_file = Some c2 → denied w2 !! output_file = None →
      iter_lines (universal_newlines c1)
      = ["https://a.example.com" +:+ nl] ++ ("example.com" +:+ nl) :: [] →
      iter_lines (universal_newlines c2) = ["https://a.example.com" +:+ nl] ++ [] →
      (read_live_hosts (env found no_vars post_ok) output_file w1).1
      = (read_live_hosts (env found no_vars post_ok) output_file w2).1.
Proof.
  apply (undecodable_line_dropped (env found no_vars post_ok)
           ["https://a.example.com" +:+ nl] [] ("example.com" +:+ nl)
           "Expecting value" [] empty_world).
  - vm_compute. discriminate.
  - reflexivity.
  - reflexivity.
Defined.

(** C3, as amended. A non-empty line of the probe output that fails JSON
    decoding and starts with [http] yields the minimal record, whose
    [input] and [url] entries both hold the line and which has no other
    entry. So an output file of two lines, the first a JSON value that can be
    displayed and the second such a line, makes [run_httpx] return exactly two
    records, the second being that minimal record. *)
Theorem run_httpx_fallback_record (E : environment) :
  (∀ (line msg : string) (acc : list pyval) (w : world),
     strip line ≠ EmptyString →
     json_loads E (strip line) = inr (JSONDecodeError, msg) →
     startswith "http" (strip line) = true →
     read_record E acc line w
     = (Ok (acc ++ [PDict [("input", PStr (strip line));
                           ("url", PStr (strip line))]]), w))
  ∧ (∀ (subdomains_file output_file : string) (w : world) (c out err text : string)
       (rc : Z) (fs : gmap string string) (l1 l2 msg : string) (v : pyval),
       files w !! subdomains_file = Some c →
       denied w !! subdomains_file = None →
       iter_lines (universal_newlines c) ≠ [] →
       spawn E (httpx_cmd subdomains_file output_file) (Some 600) (files w)
         = (Completed rc out err, fs) →
       fs !! output_file = Some text →
       denied w !! output_file = None →
       iter_lines (universal_newlines text) = [l1; l2] →
       strip l1 ≠ EmptyString → json_loads E (strip l1) = inl v → displayable v →
       strip l2 ≠ EmptyString →
       json_loads E (strip l2) = inr (JSONDecodeError, msg) →
       startswith "http" (strip l2) = true →
       ∃ w', run_httpx E subdomains_file output_file w
             = (Ok [v; PDict [("input", PStr (strip l2));
                              ("url", PStr (strip l2))]], w')).
Proof.
  split.
  { intros line msg acc w Hne Hv Hh. by apply (read_record_fallback _ _ _ _ msg). }
  intros f o w c out err text rc fs l1 l2 msg v Hc Hd Hlines Hspawn Htext Hdo Hl
    Hne1 Hv1 Hdisp Hne2 Hv2 Hh2.
  edestruct (run_httpx_completed E f o w c rc out err fs
               [v; url_record (strip l2)]) as (w' & Hrun & _); try done.
  - intros w3 Hf3 Hd3. unfold read_live_hosts.
    rewrite bind_run, path_exists_run, Hf3, Htext.
    rewrite bool_decide_true by done. rewrite bind_run.
    erewrite read_text_Ok; [|by rewrite Hf3|by rewrite Hd3]. rewrite Hl.
    cbn [read_records]. rewrite bind_run, (read_record_decoded _ _ _ _ v) by done.
    rewrite bind_run, (read_record_fallback _ _ _ _ msg) by done. done.
  - by repeat constructor.
  - by exists w'.
Qed.

(** Counterexample to C3 as stated: the non-empty line [example.com]
    fails JSON decoding and yields no record, so that an output file of one
    JSON line and that line gives one record, not two; and the record built
    for a line that starts with [http] has its [input] entry set, not only
    its [url]. *)
Lemma bare_hostname_line_is_lost :
  strip ("example.com" +:+ nl) ≠ EmptyString
  ∧ json_loads (env broken_probe no_vars post_ok) (strip ("example.com" +:+ nl))
    = inr (JSONDecodeError, "Expecting value")
  ∧ read_record (env broken_probe no_vars post_ok) [] ("example.com" +:+ nl)
                empty_world
    = (Ok [], empty_world)
  ∧ (run_httpx (env broken_probe no_vars post_ok) list_path live_path listed).1
    = Ok [PDict [("url", PStr "https://a.example.com");
                 ("status_code", PInt 200); ("title", PStr "Home")]]
  ∧ (read_record (env found no_vars post_ok) [] ("https://b.example.com" +:+ nl)
                 empty_world).1
    = Ok [PDict [("input", PStr "https://b.example.com");
                 ("url", PStr "https://b.example.com")]]
  ∧ dict_lookup "input" [("input", PStr "https://b.example.com");
                   ("url", PStr "https://b.example.com")]
    = Some (PStr "https://b.example.com").
Proof. vm_compute. split_and!; try reflexivity. discriminate. Qed.

(** Witness of C3 as amended: a JSON line and a bare URL. *)
Lemma run_httpx_fallback_record_witness :
  read_record (env found no_vars post_ok) [] ("https://b.example.com" +:+ nl)
              empty_world
  = (Ok ([] ++ [PDict [("input", PStr (strip ("https://b.example.com" +:+ nl)));
                       ("url", PStr (strip ("https://b.example.com" +:+ nl)))]]),
     empty_world)
  ∧ ∃ w', run_httpx (env found no_vars post_ok) list_path live_path listed
          = (Ok [PDict [("url", PStr "https://a.example.com");
                        ("status_code", PInt 200); ("title", PStr "Home")];
                 PDict [("input", PStr (strip ("https://b.example.com" +:+ nl)));
                        ("url", PStr (strip ("https://b.example.com" +:+ nl)))]],
             w').
Proof.
  split.
  - apply (proj1 (run_httpx_fallback_record (env found no_vars post_ok))
             ("https://b.example.com" +:+ nl) "Expecting value" [] empty_world).
    + vm_compute. discriminate.
    + reflexivity.
    + reflexivity.
  - apply (proj2 (run_httpx_fallback_record (env found no_vars post_ok))
             list_path live_path listed ("a.example.com" +:+ nl)
             EmptyString EmptyString
             (json_line "https://a.example.com" "200" "Home" +:+ nl
              +:+ "https://b.example.com" +:+ nl)
             0%Z
             (<[live_path := json_line "https://a.example.com" "200" "Home" +:+ nl
                             +:+ "https://b.example.com" +:+ nl]> (files listed))
             (json_line "https://a.example.com" "200" "Home" +:+ nl)
             ("https://b.example.com" +:+ nl) "Expecting value").
    + reflexivity.
    + reflexivity.
    + vm_compute. discriminate.
    + reflexivity.
    + vm_compute. reflexivity.
    + reflexivity.
    + reflexivity.
    + vm_compute. discriminate.
    + reflexivity.
    + exact I.
    + vm_compute. discriminate.
    + reflexivity.
    + reflexivity.
Defined.

(** C10, as amended. [run_subfinder] always returns: an exception raised
    inside its [try] (a timeout or any other) and a non-zero exit code of the
    tool each give an empty list. [run_httpx] always returns when the
    subdomain-list file is missing or can be read: an exception raised inside
    its [try] (a timeout or any other) gives an empty list, while a tool that
    runs to its end, with exit code 0, 1 or any other, gives the records read
    from the output file, provided the summary can show them. And a line
    that fails JSON decoding makes the reader build a URL record or skip the
    line, never raise. *)
Theorem stages_contain_failures (E : environment) :
  (∀ (domain output_file : string) (w : world),
     ∃ l w', run_subfinder E domain output_file w = (Ok l, w')
       ∧ (∀ e w1,
            run_subfinder_try E domain output_file
              (add_output
                 (Status info ("Starting subdomain enumeration for: " +:+ domain)) w)
            = (Exc e, w1) → l = [])
       ∧ (∀ cls msg fs,
            spawn E (subfinder_cmd domain) (Some 300) (files w)
              = (Raised cls msg, fs) → l = [])
       ∧ (∀ rc out err fs,
            spawn E (subfinder_cmd domain) (Some 300) (files w)
              = (Completed rc out err, fs) → rc ≠ 0%Z → l = []))
  ∧ (∀ (subdomains_file output_file : string) (w : world),
       files w !! subdomains_file = None ∨ denied w !! subdomains_file = None →
       ∃ l w', run_httpx E subdomains_file output_file w = (Ok l, w')
         ∧ (∀ c e w1,
              files w !! subdomains_file = Some c →
              run_httpx_try E subdomains_file output_file
                (length (iter_lines (universal_newlines c)))
                (add_output
                   (Status info ("Probing for live hosts from: "
                                 +:+ subdomains_file)) w)
              = (Exc e, w1) → l = [])
         ∧ (∀ cls msg fs,
              spawn E (httpx_cmd subdomains_file output_file) (Some 600) (files w)
                = (Raised cls msg, fs) → l = [])
         ∧ (∀ c rc out err fs hosts,
              files w !! subdomains_file = Some c →
              iter_lines (universal_newlines c) ≠ [] →
              spawn E (httpx_cmd subdomains_file output_file) (Some 600) (files w)
                = (Completed rc out err, fs) →
              (∀ w3, files w3 = fs → denied w3 = denied w →
                     read_live_hosts E output_file w3 = (Ok hosts, w3)) →
              Forall displayable (take 5 hosts) →
              l = hosts))
  ∧ (∀ (line msg : string) (acc : list pyval) (w : world),
       json_loads E (strip line) = inr (JSONDecodeError, msg) →
       ∃ acc', read_record E acc line w = (Ok acc', w)).
Proof.
  split_and!.
  - intros domain o w. destruct (run_subfinder_total E domain o w) as (l & w' & Hrun).
    exists l, w'. split_and!; [done|..].
    + intros e w1 Hbody.
      destruct (run_subfinder_caught E domain o w e w1 Hbody) as [w'' H'].
      congruence.
    + intros cls msg fs Hs.
      destruct (run_subfinder_raised E domain o w _ _ _ Hs) as [w'' H'].
      congruence.
    + intros rc out err fs Hs Hrc.
      destruct (run_subfinder_failed E domain o w _ _ _ _ Hs Hrc) as [w'' H'].
      congruence.
  - intros f o w Hin. destruct (run_httpx_total E f o w Hin) as (l & w' & Hrun).
    exists l, w'. split_and!; [done|..].
    + intros c e w1 Hc Hbody. destruct Hin as [Hn|Hd]; [congruence|].
      destruct (run_httpx_caught E f o w c e w1 Hc Hd Hbody) as [w'' H'].
      congruence.
    + intros cls msg fs Hs. by eapply run_httpx_raised.
    + intros c rc out err fs hosts Hc Hl Hs Hread Hdisp.
      destruct Hin as [Hn|Hd]; [congruence|].
      destruct (run_httpx_completed E f o w c rc out err fs hosts
                  Hc Hd Hl Hs Hread Hdisp) as (w'' & H' & _).
      congruence.
  - intros line msg acc w Hv. unfold read_record.
    destruct (truthy (strip line)); [|by eexists].
    unfold try_except, loads. rewrite bind_run, Hv. unfold raise.
    destruct (startswith "http" (strip line)); by eexists.
Qed.

(** Counterexample to C10 as stated: [httpx] exits with code 2 after
    writing a record, and [run_httpx] returns that record, not an empty list;
    and a subdomain-list file that exists but cannot be opened makes
    [run_httpx] raise, the file being read before the [try]. *)
Lemma run_httpx_failure_not_empty :
  (spawn (env broken_probe no_vars post_ok) (httpx_cmd list_path live_path)
         (Some 600) (files listed)).1
  = Completed 2 EmptyString "fatal"
  ∧ (run_httpx (env broken_probe no_vars post_ok) list_path live_path listed).1
    = Ok [PDict [("url", PStr "https://a.example.com");
                 ("status_code", PInt 200); ("title", PStr "Home")]]
  ∧ (run_httpx (env found no_vars post_ok) list_path live_path
       (world_denying [(list_path, "a.example.com" +:+ nl)]
                      [(list_path, (OSError, "Permission denied"))])).1
    = Exc (Error OSError "Permission denied").
Proof. vm_compute. split_and!; reflexivity. Qed.

(** Witness of C10 as amended: a timeout of [subfinder], and an [httpx]
    that exits with code 2 after writing a record and a line that is
    neither JSON nor a URL. *)
Lemma stages_contain_failures_witness :
  (∃ w', run_subfinder (env timed_out no_vars post_ok) "example.com" list_path
                       empty_world = (Ok [], w'))
  ∧ (∃ w', run_httpx (env broken_probe no_vars post_ok) list_path live_path listed
           = (Ok [PDict [("url", PStr "https://a.example.com");
                         ("status_code", PInt 200); ("title", PStr "Home")]], w'))
  ∧ (∃ acc', read_record (env broken_probe no_vars post_ok) []
               ("example.com" +:+ nl) empty_world = (Ok acc', empty_world)).
Proof.
  split_and!.
  - destruct (proj1 (stages_contain_failures (env timed_out no_vars post_ok))
                "example.com" list_path empty_world)
      as (l & w' & Hrun & _ & Hraised & _).
    rewrite (Hraised TimeoutExpired "timed out after 300 seconds" ∅ eq_refl) in Hrun.
    exists w'. exact Hrun.
  - destruct (proj1 (proj2 (stages_contain_failures (env broken_probe no_vars post_ok)))
                list_path live_path listed (or_intror eq_refl))
      as (l & w' & Hrun & _ & _ & Hcompleted).
    rewrite (Hcompleted ("a.example.com" +:+ nl) 2%Z EmptyString "fatal"
               (<[live_path := json_line "https://a.example.com" "200" "Home" +:+ nl
                               +:+ "example.com" +:+ nl]> (files listed))
               [PDict [("url", PStr "https://a.example.com");
                       ("status_code", PInt 200); ("title", PStr "Home")]])
      in Hrun.
    + exists w'. exact Hrun.
    + reflexivity.
    + vm_compute. discriminate.
    + reflexivity.
    + intros w3 Hf3 Hd3. unfold read_live_hosts.
      rewrite bind_run, path_exists_run, Hf3.
      rewrite bool_decide_true by (vm_compute; by eexists).
      rewrite bind_run. erewrite read_text_Ok; [|by rewrite Hf3|by rewrite Hd3].
      reflexivity.
    + repeat constructor.
  - apply (proj2 (proj2 (stages_contain_failures (env broken_probe no_vars post_ok)))
             ("example.com" +:+ nl) "Expecting value" [] empty_world).
    reflexivity.
Defined.

(** ** The session *)

(** C7. When the tools have been found and running [subfinder] ends in a
    timeout, [run_subfinder] returns an empty list and [main] goes on to the
    report: the report file, if it can be written, holds the summary with
    both counts at zero, otherwise the failure to write it is printed; in
    both cases [main] continues with the notification and the closing
    summary. *)
Theorem timeout_reaches_report (E : environment) (args : arguments) (w w1 : world)
    (msg : string) (fs : gmap string string) :
  skip_subfinder args = false →
  setup E args w = (Ok (), w1) →
  spawn E (subfinder_cmd (domain args)) (Some 300) (files w1)
    = (Raised TimeoutExpired msg, fs) →
  let subdomains_file := session_file E args "_subdomains.txt" in
  let live_hosts_file := session_file E args "_live.json" in
  let report_file := session_file E args "_report.txt" in
  (∃ w2, run_subfinder E (domain args) subdomains_file w1 = (Ok [], w2))
  ∧ ∃ w3,
      main E args w
      = (notify_step E args [] [] ≫= λ _, summary args [] []) w3
      ∧ match denied w1 !! report_file with
        | None =>
            files w3 !! report_file
            = Some (report_summary E args subdomains_file live_hosts_file 0 0)
            ∧ last (output w3)
              = Some (Status success ("Report saved to: " +:+ report_file))
        | Some (_, why) =>
            last (output w3)
            = Some (Status error ("Error generating report: " +:+ why))
        end.
Proof.
  intros Hskip Hsetup Hspawn sf lf rf.
  destruct (run_subfinder_timeout E (domain args) sf w1 msg fs Hspawn)
    as (w2 & Hrun & Hd2 & _).
  split; [by eauto|].
  unfold main. rewrite bind_run, Hsetup. unfold stages. fold sf lf rf.
  rewrite bind_run. unfold resolve_subdomains. rewrite Hskip. cbn [negb].
  rewrite bind_run, Hrun. unfold when. rewrite bind_run. unfold print_status at 1.
  rewrite ret_run. rewrite bind_run.
  set (w2' := add_output _ w2).
  assert (∃ w2'', probe E args [] sf lf w2' = (Ok [], w2'')
                  ∧ denied w2'' = denied w1) as (w2'' & -> & Hd2'').
  { unfold probe. rewrite andb_false_r.
    destruct (skip_httpx args); rewrite bind_run; unfold print_status at 1;
      eexists; (split; [reflexivity|done]). }
  rewrite bind_run.
  destruct (denied w1 !! rf) as [[cls why]|] eqn:Hrf.
  - rewrite (generate_report_denied _ _ _ _ _ _ _ _ cls why) by (by rewrite Hd2'').
    eexists. split; [reflexivity|]. cbn. apply last_snoc.
  - destruct (generate_report_no_hosts E args sf lf rf [] w2'') as (w3 & -> & Hf & Ho).
    { by rewrite Hd2''. }
    exists w3. done.
Qed.

(** Witness of C7. *)
Lemma timeout_reaches_report_witness :
  let E := env timed_out no_vars post_ok in
  let w1 := (setup E scan empty_world).2 in
  (∃ w2, run_subfinder E (domain scan) (session_file E scan "_subdomains.txt") w1
         = (Ok [], w2))
  ∧ ∃ w3,
      main E scan empty_world
      = (notify_step E scan [] [] ≫= λ _, summary scan [] []) w3
      ∧ match denied w1 !! session_file E scan "_report.txt" with
        | None =>
            files w3 !! session_file E scan "_report.txt"
            = Some (report_summary E scan (session_file E scan "_subdomains.txt")
                      (session_file E scan "_live.json") 0 0)
            ∧ last (output w3)
              = Some (Status success
                        ("Report saved to: " +:+ session_file E scan "_report.txt"))
        | Some (_, why) =>
            last (output w3)
            = Some (Status error ("Error generating report: " +:+ why))
        end.
Proof.
  intros E w1.
  apply (timeout_reaches_report E scan empty_world w1
           "timed out after 300 seconds" ∅); reflexivity.
Defined.

(** The whole run there: exit status 0 and the report with zero counts. *)
Example timed_out_scan_report :
  let r := script (env timed_out no_vars post_ok) scan empty_world in
  r.1 = 0%Z
  ∧ files r.2 !! "results/example.com_20250101_120000_report.txt"
    = Some ("Subdomain Scan Report" +:+ nl
            +:+ "==================================================" +:+ nl
            +:+ "Target Domain: example.com" +:+ nl
            +:+ "Scan Time: 2025-01-01 12:00:05" +:+ nl
            +:+ "Total Subdomains Found: 0" +:+ nl
            +:+ "Total Live Hosts Found: 0" +:+ nl
            +:+ nl +:+ "Subdomains File: " +:+ list_path +:+ nl
            +:+ "Live Hosts File: " +:+ live_path +:+ nl
            +:+ nl +:+ "==================================================" +:+ nl).
Proof. vm_compute. split; reflexivity. Qed.

(** C5. With [--skip-subfinder], once the set-up has passed: if a file of
    the output directory matches [{domain}_*_subdomains.txt] and no matching
    file compares greater, that file is chosen and the subdomain list is
    the list of its non-blank lines ([nonblank_lines], stated on the content
    of the file), with no tool run; if no file matches, [main] ends in
    [sys.exit(1)], the process exits with status 1 and no tool has been run
    since the set-up. *)
Theorem resume_from_latest_list (E : environment) (args : arguments) (w w1 : world) :
  skip_subfinder args = true →
  setup E args w = (Ok (), w1) →
  let pattern := domain args +:+ "_*_subdomains.txt" in
  let candidate (p : string) : Prop :=
    is_Some (files w1 !! p) ∧ glob_match E (output_dir args) pattern p = true in
  (∀ (f c : string),
     candidate f → (∀ g, candidate g → String.le g f) →
     files w1 !! f = Some c → denied w1 !! f = None →
     ∃ w2, resolve_subdomains E args (session_file E args "_subdomains.txt") w1
           = (Ok (nonblank_lines c, f), w2)
           ∧ commands w2 = commands w1)
  ∧ ((∀ p, ¬ candidate p) →
     ∃ w2, main E args w = (Exc (SystemExit 1), w2)
           ∧ script E args w = (1%Z, w2)
           ∧ commands w2 = commands w1).
Proof.
  intros Hskip Hsetup pattern candidate.
  assert (∀ p, p ∈ filter (λ p, glob_match E (output_dir args) pattern p = true)
                     (elements (dom (files w1))) ↔ candidate p) as Hcand.
  { intros p. rewrite list_elem_of_filter, elem_of_elements, elem_of_dom.
    unfold candidate. tauto. }
  split.
  - intros f c Hf Hmax Hc Hd.
    unfold resolve_subdomains. rewrite Hskip. cbn [negb].
    rewrite bind_run. unfold print_status at 1. rewrite bind_run.
    unfold glob at 1. cbn [files add_output]. fold pattern.
    rewrite (last_sorted_max _ f).
    2:{ by apply Hcand. }
    2:{ intros g Hg. by apply Hmax, Hcand. }
    rewrite bind_run. unfold print_status at 1. rewrite bind_run.
    erewrite read_text_Ok; [|exact Hc|exact Hd].
    rewrite stripped_lines_nonblank_lines. eexists. split; [reflexivity|done].
  - intros Hnone.
    assert (main E args w
            = (Exc (SystemExit 1),
               add_output (Status error "No existing subdomains file found")
                 (add_output (Status info "Skipping subfinder step") w1))) as Hmain.
    { unfold main. rewrite bind_run, Hsetup.
      unfold stages. rewrite bind_run.
      unfold resolve_subdomains. rewrite Hskip. cbn [negb].
      rewrite bind_run. unfold print_status at 1. rewrite bind_run.
      unfold glob at 1. cbn [files add_output]. fold pattern.
      assert (filter (λ p, glob_match E (output_dir args) pattern p = true)
                     (elements (dom (files w1))) = []) as ->.
      { apply elem_of_nil_inv. intros p Hp. by apply (Hnone p), Hcand. }
      rewrite sorted_nil. cbn [last]. rewrite bind_run. unfold print_status at 1.
      reflexivity. }
    eexists. split; [exact Hmain|]. split; [|done].
    unfold script. by rewrite Hmain.
Qed.

(** Witness of C5: the later of two lists of the domain is chosen, the
    list of another domain is not a candidate, and the two names of the
    chosen file are loaded, without the white space around the first and
    without the empty line; and an empty directory ends the run. *)
Lemma resume_from_latest_list_witness :
  let E := env found no_vars post_ok in
  (∃ w2, resolve_subdomains E scan_resuming
           (session_file E scan_resuming "_subdomains.txt")
           (setup E scan_resuming earlier_scans).2
         = (Ok (["a.example.com"; "b.example.com"], list_path), w2)
         ∧ commands w2 = commands (setup E scan_resuming earlier_scans).2)
  ∧ (∃ w2, main E scan_resuming empty_world = (Exc (SystemExit 1), w2)
           ∧ script E scan_resuming empty_world = (1%Z, w2)
           ∧ commands w2 = commands (setup E scan_resuming empty_world).2).
Proof.
  intros E. split.
  - destruct (proj1 (resume_from_latest_list E scan_resuming earlier_scans
                       (setup E scan_resuming earlier_scans).2 eq_refl eq_refl)
                list_path
                (" a.example.com " +:+ nl +:+ nl +:+ "b.example.com" +:+ nl))
      as (w2 & Hrun & Hcommands).
    + split; [|reflexivity]. vm_compute. by eexists.
    + intros g [Hg Hm]. apply elem_of_dom in Hg.
      change (dom (files (setup E scan_resuming earlier_scans).2))
        with (dom (list_to_map (M := gmap string string)
                [(older_list_path, "old.example.com" +:+ nl);
                 (list_path, " a.example.com " +:+ nl +:+ nl +:+ "b.example.com" +:+ nl);
                 ("results/other.org_20260101_000000_subdomains.txt",
                  "www.other.org" +:+ nl)])) in Hg.
      rewrite dom_list_to_map_L in Hg. cbn in Hg.
      rewrite !elem_of_union, !elem_of_singleton in Hg.
      destruct Hg as [->|[->|[->|Hg]]].
      * vm_compute. exact I.
      * vm_compute. exact I.
      * vm_compute in Hm. discriminate Hm.
      * by apply elem_of_empty in Hg.
    + reflexivity.
    + reflexivity.
    + exists w2. split; [|exact Hcommands]. rewrite Hrun. reflexivity.
  - apply (proj2 (resume_from_latest_list E scan_resuming empty_world
                    (setup E scan_resuming empty_world).2 eq_refl eq_refl)).
    intros p [[c Hc] _]. vm_compute in Hc. discriminate Hc.
Defined.

(** The list loaded there. *)
Example resume_example :
  (resolve_subdomains (env found no_vars post_ok) scan_resuming
     (session_file (env found no_vars post_ok) scan_resuming "_subdomains.txt")
     earlier_scans).1
  = Ok (["a.example.com"; "b.example.com"], list_path).
Proof. vm_compute. reflexivity. Qed.

(** C8, as amended. When every entry of the list the collector wrote is
    free of white space at both ends, reading the written file back line by
    line, stripping each line and dropping the blank ones gives the list
    that was written, and removing duplicates from it changes nothing. *)
Theorem reload_written_list (E : environment) (domain output_file : string)
    (w : world) (raw err : string) (fs : gmap string string) :
  spawn E (subfinder_cmd domain) (Some 300) (files w) = (Completed 0 raw err, fs) →
  denied w !! output_file = None →
  let unique := dedupe (output_lines (universal_newlines raw)) in
  Forall (λ sub, strip sub = sub) unique →
  ∃ w' text,
    run_subfinder E domain output_file w = (Ok unique, w')
    ∧ read_text output_file w' = (Ok text, w')
    ∧ stripped_lines text = unique
    ∧ dedupe (stripped_lines text) = unique.
Proof.
  intros Hspawn Hden unique Hst.
  destruct (run_subfinder_success E domain output_file w raw err fs Hspawn Hden)
    as (w' & Hrun & Hfile & Hd).
  fold unique in Hrun, Hfile. exists w'. eexists. split; [exact Hrun|].
  split; [apply read_text_Ok; [exact Hfile|by rewrite Hd]|].
  assert (stripped_lines (universal_newlines (list_file unique)) = unique) as ->.
  { apply stripped_lines_list_file; [| |apply output_lines_nonblank|done].
    - apply output_lines_clean. by left.
    - apply output_lines_clean. right.
      apply contains_strip, universal_newlines_no_CR. }
  split; [done|apply dedupe_idempotent].
Qed.

(** Counterexample to C8 as stated: [subfinder] prints one host twice,
    the first time followed by a space. The collector compares the lines as
    they are, keeps both and writes both; the reader strips each line, so the
    list read back holds the host twice, removing duplicates from it changes
    it, and neither list is the one written. *)
Lemma reload_padded_list_differs :
  let r := run_subfinder (env padded no_vars post_ok) "example.com" list_path
                         empty_world in
  r.1 = Ok ["a.example.com "; "a.example.com"]
  ∧ files r.2 !! list_path = Some ("a.example.com " +:+ nl +:+ "a.example.com" +:+ nl)
  ∧ (read_text list_path r.2).1
    = Ok ("a.example.com " +:+ nl +:+ "a.example.com" +:+ nl)
  ∧ stripped_lines ("a.example.com " +:+ nl +:+ "a.example.com" +:+ nl)
    = ["a.example.com"; "a.example.com"]
  ∧ dedupe (stripped_lines ("a.example.com " +:+ nl +:+ "a.example.com" +:+ nl))
    = ["a.example.com"]
  ∧ ["a.example.com"] ≠ ["a.example.com "; "a.example.com"]
  ∧ ["a.example.com"] ≠ ["a.example.com"; "a.example.com"].
Proof. vm_compute. split_and!; try reflexivity; discriminate. Qed.

(** Witness of C8 as amended. *)
Lemma reload_written_list_witness :
  ∃ w' text,
    run_subfinder (env found no_vars post_ok) "example.com" list_path empty_world
    = (Ok ["a.example.com"; "b.example.com"], w')
    ∧ read_text list_path w' = (Ok text, w')
    ∧ stripped_lines text = ["a.example.com"; "b.example.com"]
    ∧ dedupe (stripped_lines text) = ["a.example.com"; "b.example.com"].
Proof.
  apply (reload_written_list (env found no_vars post_ok) "example.com"
           list_path empty_world
           ("a.example.com" +:+ nl +:+ "b.example.com" +:+ nl
            +:+ "a.example.com" +:+ nl) EmptyString ∅);
    [reflexivity|reflexivity|].
  vm_compute. repeat constructor.
Defined.

(** C2, on the code as it is. For Telegram and the identifier
    [token123/chatID456] no request is sent: building the address reads the
    unbound name [telegram_token], the [NameError] is caught and reported as
    a warning, and [send_notification] returns [False]. More generally no
    identifier makes the Telegram branch post anything. *)
Theorem telegram_notification_not_sent (E : environment) (domain : string)
    (total_subdomains live_hosts : nat) (w : world) :
  send_notification E domain total_subdomains live_hosts
                    "token123/chatID456" "telegram" w
  = (Ok false,
     add_output
       (Status warning
          (if requests_installed E
           then "Notification error: name 'telegram_token' is not defined"
           else "Requests library required for notifications. Install with: pip install requests"))
       w)
  ∧ ∀ webhook_url,
      ∃ w', send_notification E domain total_subdomains live_hosts
                              webhook_url "telegram" w = (Ok false, w')
            ∧ posts w' = posts w.
Proof.
  split.
  - unfold send_notification. cbn [truthy negb String.eqb Ascii.eqb Bool.eqb].
    unfold try_except, import_requests.
    destruct (requests_installed E); reflexivity.
  - intros url. unfold send_notification.
    destruct (truthy url); cbn [negb]; [|by eexists].
    cbn [String.eqb Ascii.eqb Bool.eqb]. unfold try_except, import_requests.
    destruct (requests_installed E); [|by eexists].
    unfold index_from_end, load_global, raise, print_status.
    cbv [mbind mret Py_bind Py_ret].
    destruct (1 <=? length (split "/" url)); [|by eexists].
    destruct (split "/" url !! (length (split "/" url) - 1)) as [chat_id|];
      [|by eexists].
    destruct (2 <=? length (split "/" url)); [|by eexists].
    destruct (split "/" url !! (length (split "/" url) - 2)) as [bot_token|];
      by eexists.
Qed.

(** C4, on the code as it is. When a notification is requested and no
    webhook is given on the command line, the branch meant to fall back to
    the environment reads [args.webhook_url], an attribute the parser never
    creates: [AttributeError] is raised whatever the environment holds, and
    the process ends with status 1 instead of completing. *)
Theorem missing_webhook_aborts (E : environment) (args : arguments) (w : world) :
  notify args ≠ "none" →
  webhook args = None ∨ webhook args = Some EmptyString →
  (∀ subdomains live_hosts w',
     notify_step E args subdomains live_hosts w'
     = (Exc (Error AttributeError
               "'Namespace' object has no attribute 'webhook_url'"), w'))
  ∧ (script E args w).1 = 1%Z.
Proof.
  intros Hn Hw. split; [intros; by apply notify_step_raises|].
  assert (exits_with_1 (main E args)) as Hexit.
  { unfold main. apply exits_bind; [apply exits_setup|]. intros _.
    unfold stages. apply exits_bind; [apply exits_resolve_subdomains|].
    intros [subs sf]. apply exits_bind; [apply exits_soft, soft_probe|].
    intros hosts. apply exits_bind; [apply exits_soft, soft_generate_report|].
    intros _. apply exits_bind; [|done].
    intros w'. by rewrite notify_step_raises. }
  assert (∀ u w', main E args w ≠ (Ok u, w')) as Hnot.
  { intros u w'. unfold main, stages. rewrite bind_run.
    destruct (setup E args w) as [[[]|e] w1]; [|done]. rewrite bind_run.
    destruct (resolve_subdomains E args _ w1) as [[[subs sf]|e] w2]; [|done].
    rewrite bind_run.
    destruct (probe E args subs sf _ w2) as [[hosts|e] w3]; [|done].
    rewrite bind_run.
    destruct (generate_report E args sf _ _ subs hosts w3) as [[[]|e] w4]; [|done].
    rewrite bind_run, notify_step_raises by done. done. }
  unfold script. specialize (Hexit w).
  destruct (main E args w) as [[u|[code| |cls msg]] w'].
  - by destruct (Hnot u w').
  - cbn in *. by subst.
  - done.
  - done.
Qed.

(** Witness of C4's theorem: a scan asked to notify through Telegram with
    no webhook on the command line. *)
Lemma missing_webhook_aborts_witness :
  (∀ subdomains live_hosts w',
     notify_step (env found no_vars post_ok) scan_notifying subdomains live_hosts w'
     = (Exc (Error AttributeError
               "'Namespace' object has no attribute 'webhook_url'"), w'))
  ∧ (script (env found no_vars post_ok) scan_notifying empty_world).1 = 1%Z.
Proof.
  apply (missing_webhook_aborts (env found no_vars post_ok) scan_notifying
           empty_world).
  - vm_compute. discriminate.
  - left. reflexivity.
Defined.

(** * Further properties of the script *)

(** ** What a statement leaves alone

    The commands run, the requests sent and the content of a file are
    aspects of the world; the lemmas of this section say which statements
    keep an aspect that printing and writing to other files do not
    change. *)

Section frame.
Context (E : environment) {B : Type} (proj : world → B).
Hypothesis proj_output : ignores_output proj.

Lemma keeps_ret {A} (a : A) : keeps proj (mret a : Py A).
Proof. done. Qed.

Lemma keeps_raise {A} e : keeps proj (raise e : Py A).
Proof. done. Qed.

Lemma keeps_print_status msg sev : keeps proj (print_status msg sev).
Proof. intros w. apply proj_output. Qed.

Lemma keeps_print msg : keeps proj (print msg).
Proof. intros w. apply proj_output. Qed.

Lemma keeps_bind {A C} (m : Py A) (f : A → Py C) :
  keeps proj m → (∀ a, keeps proj (f a)) → keeps proj (m ≫= f).
Proof.
  intros Hm Hf w. rewrite bind_run. specialize (Hm w).
  destruct (m w) as [[a|e] w']; [|done]. cbn in Hm. by rewrite Hf.
Qed.

Lemma keeps_try {A} (m : Py A) h :
  keeps proj m → (∀ e k, h e = Some k → keeps proj k) →
  keeps proj (try_except m h).
Proof.
  intros Hm Hh w. unfold try_except. specialize (Hm w).
  destruct (m w) as [[a|e] w']; [done|]. cbn in Hm.
  destruct (h e) as [k|] eqn:Hk; [|done]. by rewrite (Hh e k Hk).
Qed.

Lemma keeps_for_each {A} (l : list A) (body : A → Py unit) :
  (∀ x, keeps proj (body x)) → keeps proj (for_each l body).
Proof.
  intros Hb. induction l as [|x l IH]; [done|].
  cbn. apply keeps_bind; [apply Hb|]. intros _. apply IH.
Qed.

Lemma keeps_if {A} (b : bool) (m1 m2 : Py A) :
  keeps proj m1 → keeps proj m2 → keeps proj (if b then m1 else m2).
Proof. by destruct b. Qed.

Lemma keeps_read_text p : keeps proj (read_text p).
Proof.
  intros w. unfold read_text. destruct (denied w !! p) as [[??]|]; [done|].
  by destruct (files w !! p).
Qed.

Lemma keeps_open_w p : ignores_file proj p → keeps proj (open_w p).
Proof.
  intros [Hins _] w. unfold open_w.
  destruct (denied w !! p) as [[??]|]; [done|]. apply Hins.
Qed.

Lemma keeps_write p s : ignores_file proj p → keeps proj (write p s).
Proof. intros [_ Halt] w. apply Halt. Qed.

Lemma keeps_read_records lines acc : keeps proj (read_records E acc lines).
Proof. intros w. by destruct (read_records_pure E lines acc) as [r ->]. Qed.

Lemma keeps_read_live_hosts o : keeps proj (read_live_hosts E o).
Proof.
  unfold read_live_hosts. apply keeps_bind; [done|]. intros b.
  apply keeps_if; [|done]. apply keeps_bind; [apply keeps_read_text|].
  intros text. apply keeps_read_records.
Qed.

Lemma keeps_show_host i host : keeps proj (show_host E i host).
Proof.
  destruct host; try apply keeps_print. cbn. apply keeps_bind.
  - by destruct (dict_get _ _ _).
  - intros v. apply keeps_print.
Qed.

Lemma keeps_show_live_hosts hosts : keeps proj (show_live_hosts E hosts).
Proof.
  unfold show_live_hosts. destruct hosts; [done|].
  apply keeps_bind; [apply keeps_print_status|]. intros _. apply keeps_bind.
  - apply keeps_for_each. intros [i host]. apply keeps_show_host.
  - intros _. apply keeps_if; [apply keeps_print|done].
Qed.

Lemma keeps_show_subdomains l : keeps proj (show_subdomains l).
Proof.
  unfold show_subdomains. destruct l; [done|].
  apply keeps_bind; [apply keeps_print_status|]. intros _. apply keeps_bind.
  - apply keeps_for_each. intros [i sub]. apply keeps_print.
  - intros _. apply keeps_if; [apply keeps_print|done].
Qed.

Lemma keeps_run_subfinder_except e k :
  run_subfinder_except e = Some k → keeps proj k.
Proof.
  destruct e as [| |[] msg]; intros [= <-];
    (apply keeps_bind; [apply keeps_print_status|done]).
Qed.

Lemma keeps_run_httpx_except e k :
  run_httpx_except e = Some k → keeps proj k.
Proof.
  destruct e as [| |[] msg]; intros [= <-];
    (apply keeps_bind; [apply keeps_print_status|done]).
Qed.

Lemma keeps_str_items l : ∀ i, keeps proj (str_items i l).
Proof.
  induction l as [|v l IH]; intros i; [done|].
  destruct v; try done. cbn. apply keeps_bind; [apply IH|done].
Qed.

Lemma keeps_join_value sep v : keeps proj (join_value sep v).
Proof.
  destruct v; try done. cbn. apply keeps_bind; [apply keeps_str_items|done].
Qed.

Lemma keeps_report_host rf host :
  ignores_file proj rf → keeps proj (report_host E rf host).
Proof.
  intros Hrf. destruct host; try done. cbn.
  do 3 (apply keeps_bind; [by apply keeps_write|]; intros _).
  apply keeps_bind; [|intros _; by apply keeps_write]. apply keeps_if; [|done].
  apply keeps_bind; [apply keeps_join_value|]. intros joined. by apply keeps_write.
Qed.

Lemma keeps_generate_report args sf lf rf subdomains hosts :
  ignores_file proj rf →
  keeps proj (generate_report E args sf lf rf subdomains hosts).
Proof.
  intros Hrf. unfold generate_report. apply keeps_try.
  - apply keeps_bind; [by apply keeps_open_w|]. intros _.
    do 9 (apply keeps_bind; [by apply keeps_write|]; intros _).
    apply keeps_bind; [|intros _; apply keeps_print_status].
    destruct hosts; [done|].
    do 2 (apply keeps_bind; [by apply keeps_write|]; intros _).
    apply keeps_for_each. intros host. by apply keeps_report_host.
  - intros [| |cls msg] k [= <-]. apply keeps_print_status.
Qed.

Lemma keeps_glob d pattern : keeps proj (glob E d pattern).
Proof. done. Qed.

Lemma keeps_mkdir d : keeps proj (mkdir d).
Proof.
  intros w. unfold mkdir. destruct (denied w !! d) as [[??]|]; [done|].
  by destruct (bool_decide _).
Qed.

Lemma keeps_summary args subs hosts : keeps proj (summary args subs hosts).
Proof.
  unfold summary. do 5 (apply keeps_bind; [apply keeps_print_status|]; intros _).
  apply keeps_print_status.
Qed.
End frame.

Lemma commands_ignore_output : ignores_output commands.
Proof. done. Qed.
Lemma file_ignores_output (q : string) : ignores_output (λ w, files w !! q).
Proof. done. Qed.
Lemma file_ignores_file (q p : string) : q ≠ p → ignores_file (λ w, files w !! q) p.
Proof.
  intros Hne. split; intros; cbn.
  - by rewrite lookup_insert_ne.
  - by rewrite lookup_alter_ne.
Qed.

Section commands_facts.
Context (E : environment).

(** [subprocess.run] records its command, whether it returns or raises. *)
Lemma subprocess_run_commands cmd t w :
  commands (subprocess_run E cmd t w).2 = commands w ++ [cmd].
Proof.
  unfold subprocess_run.
  by destruct (spawn E cmd t (files w)) as [[rc out err|cls msg] fs].
Qed.

(** A command followed by statements that start none. *)
Lemma spawn_then_quiet {A} cmd t (f : completed_process → Py A) w :
  (∀ r, keeps commands (f r)) →
  commands ((subprocess_run E cmd t ≫= f) w).2 = commands w ++ [cmd].
Proof.
  intros Hf. rewrite bind_run. pose proof (subprocess_run_commands cmd t w) as Hc.
  destruct (subprocess_run E cmd t w) as [[r|e] w']; cbn in Hc; [|done].
  by rewrite Hf.
Qed.

Lemma run_subfinder_try_commands domain o w :
  commands (run_subfinder_try E domain o w).2 = commands w ++ [subfinder_cmd domain].
Proof.
  unfold run_subfinder_try. rewrite bind_run. unfold print_status at 1.
  rewrite spawn_then_quiet; [done|]. intros r. apply keeps_if; [done|].
  apply keeps_bind; [done|]. intros _.
  apply keeps_bind; [by apply keeps_open_w|]. intros _.
  apply keeps_bind; [by apply keeps_for_each|]. intros _.
  apply keeps_bind; [done|]. intros _.
  apply keeps_bind; [by apply keeps_show_subdomains|done].
Qed.

Lemma run_httpx_try_commands f o n w :
  commands (run_httpx_try E f o n w).2 = commands w ++ [httpx_cmd f o].
Proof.
  unfold run_httpx_try. rewrite bind_run. unfold print_status at 1.
  rewrite bind_run. unfold print_status at 1.
  rewrite spawn_then_quiet; [done|]. intros r.
  apply keeps_bind; [by apply keeps_if|]. intros _.
  apply keeps_bind; [by apply keeps_read_live_hosts|]. intros hosts.
  apply keeps_bind; [done|]. intros _.
  apply keeps_bind; [by apply keeps_show_live_hosts|done].
Qed.
Lemma run_subfinder_commands domain output_file w :
  commands (run_subfinder E domain output_file w).2
  = commands w ++ [subfinder_cmd domain].
Proof.
  unfold run_subfinder. rewrite bind_run. unfold print_status at 1.
  unfold try_except.
  pose proof (run_subfinder_try_commands domain output_file
                (add_output (Status info ("Starting subdomain enumeration for: "
                                          +:+ domain)) w)) as Hbody.
  destruct (run_subfinder_try E domain output_file _) as [[l|e] w']; [done|].
  cbn in Hbody. destruct (run_subfinder_except e) as [k|] eqn:Hk; [|done].
  by rewrite (keeps_run_subfinder_except commands commands_ignore_output e k Hk).
Qed.

Lemma run_httpx_guarded_commands f o n w :
  commands (try_except (run_httpx_try E f o n) run_httpx_except w).2
  = commands w ++ [httpx_cmd f o].
Proof.
  unfold try_except. pose proof (run_httpx_try_commands f o n w) as Hbody.
  destruct (run_httpx_try E f o n w) as [[l|e] w']; [done|].
  cbn in Hbody. destruct (run_httpx_except e) as [k|] eqn:Hk; [|done].
  by rewrite (keeps_run_httpx_except commands commands_ignore_output e k Hk).
Qed.

(** A list file that can be read and has a line: the tool is started. *)
Lemma run_httpx_commands f o w c :
  files w !! f = Some c → denied w !! f = None →
  iter_lines (universal_newlines c) ≠ [] →
  commands (run_httpx E f o w).2 = commands w ++ [httpx_cmd f o].
Proof.
  intros Hc Hd Hl. rewrite (run_httpx_enters_try E _ _ _ c) by done.
  by rewrite run_httpx_guarded_commands.
Qed.
End commands_facts.

(** X1. [run_subfinder] starts exactly one process, the [subfinder]
    command for the domain, whatever the tool does: succeed, fail, time out
    or be impossible to start, and whether or not the list file can be
    written. *)
Theorem run_subfinder_runs_once (E : environment) (domain output_file : string)
    (w : world) :
  commands (run_subfinder E domain output_file w).2
  = commands w ++ [subfinder_cmd domain].
Proof. apply run_subfinder_commands. Qed.

(** X2. [run_httpx] starts at most one process, the [httpx] command on
    the list file. It starts none when the list file is missing or holds no
    line, and exactly that one when the file can be read and holds a
    line. *)
Theorem run_httpx_runs_at_most_once (E : environment)
    (subdomains_file output_file : string) (w : world) :
  let after := commands (run_httpx E subdomains_file output_file w).2 in
  (after = commands w
   ∨ after = commands w ++ [httpx_cmd subdomains_file output_file])
  ∧ (files w !! subdomains_file = None → after = commands w)
  ∧ (∀ c, files w !! subdomains_file = Some c →
          iter_lines (universal_newlines c) = [] → after = commands w)
  ∧ (∀ c, files w !! subdomains_file = Some c →
          denied w !! subdomains_file = None →
          iter_lines (universal_newlines c) ≠ [] →
          after = commands w ++ [httpx_cmd subdomains_file output_file]).
Proof.
  intros after. subst after.
  pose proof (run_httpx_commands E subdomains_file output_file w) as Hrun.
  assert (files w !! subdomains_file = None →
          commands (run_httpx E subdomains_file output_file w).2 = commands w) as Hmiss.
  { intros Hn. unfold run_httpx. rewrite bind_run. unfold print_status at 1.
    rewrite bind_run, path_exists_run. cbn [files add_output]. rewrite Hn.
    rewrite bool_decide_false by (by intros [? ?]). cbn [negb].
    rewrite bind_run. unfold print_status at 1. done. }
  assert (∀ c, files w !! subdomains_file = Some c →
               iter_lines (universal_newlines c) = [] →
               commands (run_httpx E subdomains_file output_file w).2 = commands w)
    as Hempty.
  { intros c Hc Hl. unfold run_httpx. rewrite bind_run. unfold print_status at 1.
    rewrite bind_run, path_exists_run. cbn [files add_output]. rewrite Hc.
    rewrite bool_decide_true by done. cbn [negb]. rewrite bind_run.
    unfold read_text. cbn [denied files add_output].
    destruct (denied w !! subdomains_file) as [[cls msg]|]; [done|].
    rewrite Hc, Hl. cbn [length Nat.eqb]. rewrite bind_run. unfold print_status at 1.
    done. }
  split_and!; [|done|done|done].
  destruct (files w !! subdomains_file) as [c|] eqn:Hc; [|left; by apply Hmiss].
  destruct (decide (iter_lines (universal_newlines c) = [])) as [Hl|Hl].
  { left. by eapply Hempty. }
  destruct (denied w !! subdomains_file) as [[cls msg]|] eqn:Hd.
  - left. unfold run_httpx. rewrite bind_run. unfold print_status at 1.
    rewrite bind_run, path_exists_run. cbn [files add_output]. rewrite Hc.
    rewrite bool_decide_true by done. cbn [negb]. rewrite bind_run.
    unfold read_text. cbn [denied files add_output]. by rewrite Hd.
  - right. by eapply Hrun.
Qed.

(** Witness of X2: a list of one name is probed; with no list file nothing is
    run. *)
Lemma run_httpx_runs_at_most_once_witness :
  let E := env found no_vars post_ok in
  commands (run_httpx E list_path live_path listed).2
  = commands listed ++ [httpx_cmd list_path live_path]
  ∧ commands (run_httpx E list_path live_path empty_world).2 = commands empty_world.
Proof.
  intros E. split.
  - apply (proj2 (proj2 (proj2 (run_httpx_runs_at_most_once E list_path live_path
                                  listed)))
             ("a.example.com" +:+ nl)).
    + vm_compute. reflexivity.
    + vm_compute. reflexivity.
    + vm_compute. discriminate.
  - apply (proj1 (proj2 (run_httpx_runs_at_most_once E list_path live_path
                           empty_world))).
    vm_compute. reflexivity.
Defined.

(** ** Looking for the tools, and how a run ends *)

Section session_facts.
Context (E : environment).

(** What looking for a tool does to the world: it runs one or two of the
    probing commands and nothing else. *)
Lemma check_tool_installed_run tool w :
  ∃ b cs w', check_tool_installed E tool w = (Ok b, w')
             ∧ commands w' = commands w ++ cs ∧ Forall is_probe cs
             ∧ output w' = output w ∧ denied w' = denied w.
Proof.
  assert (is_probe ["which"; tool]) as Hp1 by (exists tool; by left).
  assert (is_probe ["command"; "-v"; tool]) as Hp2 by (exists tool; by right).
  unfold check_tool_installed, try_except, catch_Exception. rewrite bind_run.
  unfold subprocess_run at 1.
  destruct (spawn E ["which"; tool] None (files w)) as [[rc out err|cls msg] fs].
  2:{ eexists false, [_], _. split; [reflexivity|]. by repeat constructor. }
  cbn [returncode]. destruct (rc =? 0)%Z.
  { eexists true, [_], _. split; [reflexivity|]. by repeat constructor. }
  rewrite bind_run. unfold subprocess_run at 1. cbn [files add_command set_files].
  destruct (spawn E ["command"; "-v"; tool] None fs) as [[rc' out' err'|cls msg] fs'].
  - eexists _, [_; _], _. split; [reflexivity|]. cbn. rewrite <-app_assoc.
    by repeat constructor.
  - eexists false, [_; _], _. split; [reflexivity|]. cbn. rewrite <-app_assoc.
    by repeat constructor.
Qed.

Lemma generate_report_returns args sf lf rf subdomains hosts w :
  ∃ w', generate_report E args sf lf rf subdomains hosts w = (Ok (), w').
Proof.
  unfold generate_report.
  edestruct (try_except_total (A := unit)) as ([] & w' & Hrun); [| |by eauto].
  - apply soft_bind; [apply soft_open_w|]. intros _.
    do 9 (apply soft_bind; [done|]; intros _).
    apply soft_bind; [|done]. destruct hosts; [done|].
    do 2 (apply soft_bind; [done|]; intros _).
    apply soft_for_each. intros host. apply soft_report_host.
  - intros cls msg. eexists. split; [reflexivity|]. apply prints_print_status.
Qed.

Lemma soft_post url payload : fails_softly (post E url payload).
Proof. intros w. unfold post. by destruct (http_post E url payload). Qed.

Lemma soft_index_from_end l k : fails_softly (index_from_end l k).
Proof.
  unfold index_from_end. destruct (k <=? length l); [|done].
  by destruct (l !! (length l - k)).
Qed.

Lemma send_notification_returns domain n m url platform w :
  ∃ b w', send_notification E domain n m url platform w = (Ok b, w').
Proof.
  unfold send_notification. destruct (truthy url); cbn [negb]; [|by eauto].
  apply try_except_total.
  - assert (fails_softly (import_requests E)) as Himp.
    { unfold import_requests. by destruct (requests_installed E). }
    apply soft_bind.
    + repeat apply soft_if.
      * apply soft_bind; [apply Himp|]. intros _.
        apply soft_bind; [apply soft_index_from_end|]. intros chat_id.
        apply soft_bind; [apply soft_index_from_end|]. intros bot_token.
        apply soft_bind; [done|]. intros token. apply soft_post.
      * apply soft_bind; [apply Himp|]. intros _. apply soft_post.
      * apply soft_bind; [apply Himp|]. intros _. apply soft_post.
      * done.
    + intros code. by apply soft_if.
  - intros cls msg.
    destruct cls; eexists; (split; [reflexivity|]);
      (apply prints_bind; [apply prints_print_status|intros; apply prints_ret]).
Qed.

Lemma soft_notify_step args subdomains hosts :
  fails_softly (notify_step E args subdomains hosts).
Proof.
  unfold notify_step. repeat apply soft_if; try done.
  apply soft_bind; [done|]. intros _. apply soft_bind; [|done].
  apply soft_total. intros w. apply send_notification_returns.
Qed.

Lemma exits_main (args : arguments) : exits_with_1 (main E args).
Proof.
  unfold main. apply exits_bind; [apply exits_setup|]. intros _.
  unfold stages. apply exits_bind; [apply exits_resolve_subdomains|].
  intros [subs sf]. apply exits_bind; [apply exits_soft, soft_probe|].
  intros hosts. apply exits_bind; [apply exits_soft, soft_generate_report|].
  intros _. apply exits_bind; [apply exits_soft, soft_notify_step|done].
Qed.

(** A non-empty result of [run_subfinder] means the list file was written
    and can be read. *)
Lemma run_subfinder_nonempty_file domain o w l w' :
  run_subfinder E domain o w = (Ok l, w') → l ≠ [] →
  files w' !! o = Some (list_file l) ∧ denied w' !! o = None.
Proof.
  intros Hrun Hne.
  destruct (spawn E (subfinder_cmd domain) (Some 300) (files w))
    as [[rc out err|cls msg] fs] eqn:Hspawn.
  2:{ destruct (run_subfinder_raised E domain o w _ _ _ Hspawn) as [w'' H'].
      congruence. }
  destruct (decide (rc = 0%Z)) as [->|Hrc].
  2:{ destruct (run_subfinder_failed E domain o w _ _ _ _ Hspawn Hrc) as [w'' H'].
      congruence. }
  destruct (denied w !! o) as [d|] eqn:Hd.
  { destruct (run_subfinder_unwritable E domain o w) as [w'' H']; [by eauto|].
    congruence. }
  destruct (run_subfinder_success E domain o w out err fs Hspawn Hd)
    as (w'' & H' & Hf & Hd'').
  rewrite H' in Hrun. injection Hrun as <- <-. split; [done|]. by rewrite Hd''.
Qed.
End session_facts.

(** X3. [check_tool_installed] always returns an answer, and the answer
    is [True] exactly when [which] exits with code 0, or [which] exits with
    another code and [command -v], run next, exits with code 0. A command
    that cannot be started counts as a tool that is not installed. *)
Theorem check_tool_installed_answer (E : environment) (tool_name : string)
    (w : world) :
  ∃ b w',
    check_tool_installed E tool_name w = (Ok b, w')
    ∧ (b = true ↔
       (∃ out err fs,
          spawn E ["which"; tool_name] None (files w) = (Completed 0 out err, fs))
       ∨ (∃ rc out err fs out' err' fs',
            spawn E ["which"; tool_name] None (files w) = (Completed rc out err, fs)
            ∧ rc ≠ 0%Z
            ∧ spawn E ["command"; "-v"; tool_name] None fs
              = (Completed 0 out' err', fs'))).
Proof.
  unfold check_tool_installed, try_except, catch_Exception. rewrite bind_run.
  unfold subprocess_run at 1.
  destruct (spawn E ["which"; tool_name] None (files w))
    as [[rc out err|cls msg] fs] eqn:Hwhich.
  2:{ eexists false, _. split; [reflexivity|]. split; [done|].
      intros [(?&?&?&?)|(?&?&?&?&?&?&?&?&?)]; done. }
  cbn [returncode]. destruct (rc =? 0)%Z eqn:Hrc.
  { apply Z.eqb_eq in Hrc as ->. eexists true, _. split; [reflexivity|].
    split; [|done]. intros _. left. by eauto. }
  apply Z.eqb_neq in Hrc.
  rewrite bind_run. unfold subprocess_run at 1. cbn [files add_command set_files].
  destruct (spawn E ["command"; "-v"; tool_name] None fs)
    as [[rc' out' err'|cls msg] fs'] eqn:Hcmd.
  - eexists _, _. split; [reflexivity|]. cbn [returncode]. split.
    + intros ->%Z.eqb_eq. right. by eauto 10.
    + intros [(?&?&?&[= -> _ _ _])|(?&?&?&?&?&?&?&[= _ _ _ <-]&_&Hc)]; [done|].
      rewrite Hcmd in Hc. by injection Hc as ->.
  - eexists false, _. split; [reflexivity|]. split; [done|].
    intros [(?&?&?&[= -> _ _ _])|(?&?&?&?&?&?&?&[= _ _ _ <-]&_&Hc)]; [done|].
    by rewrite Hcmd in Hc.
Qed.

(** Witness of X3: a tool that [which] finds is installed. *)
Lemma check_tool_installed_answer_witness :
  ∃ w', check_tool_installed (env found no_vars post_ok) "subfinder" empty_world
        = (Ok true, w').
Proof.
  destruct (check_tool_installed_answer (env found no_vars post_ok) "subfinder"
              empty_world) as (b & w' & Hrun & Hiff).
  exists w'. rewrite Hrun. f_equal. f_equal. apply Hiff. left.
  by eexists _, _, _.
Defined.

(** X4. [main] ends in one of these ways, unless it is interrupted
    from the keyboard. It ends the process with status 0 or 2 only through
    [parse_args], for [-h] and for a usage error, before anything is printed
    or run. Once the arguments are parsed it returns, and then the closing
    summary has been printed (the line [Scan Complete!], and a rule of sixty
    [=] as the last line), or it calls [sys.exit(1)], or an [Exception]
    leaves it. *)
Theorem main_outcomes (E : environment) (cl : command_line) (w : world) :
  match (main E cl w).1 with
  | Ok _ =>
      (∃ args : arguments, cl = Parsed args)
      ∧ Status success "Scan Complete!" ∈ output (main E cl w).2
      ∧ last (output (main E cl w).2) = Some (Status info (str_repeat "=" 60))
  | Exc (SystemExit code) =>
      (code = 0%Z ∧ cl = HelpRequested ∧ (main E cl w).2 = w)
      ∨ (code = 2%Z ∧ cl = UsageError ∧ (main E cl w).2 = w)
      ∨ (code = 1%Z ∧ ∃ args : arguments, cl = Parsed args)
  | Exc KeyboardInterrupt => False
  | Exc (Error _ _) => ∃ args : arguments, cl = Parsed args
  end.
Proof.
  destruct cl as [args| |].
  2:{ cbn. by left. }
  2:{ cbn. right. by left. }
  pose proof (exits_main E args w) as Hexit.
  destruct (main E args w) as [[[]|[code| |cls msg]] w'] eqn:Hmain; cbn in *.
  - split; [by eexists|]. revert Hmain. unfold main, stages.
    rewrite bind_run. destruct (setup E args w) as [[[]|e] w1]; [|done].
    rewrite bind_run.
    destruct (resolve_subdomains E args _ w1) as [[[subs sf]|e] w2]; [|done].
    rewrite bind_run. destruct (probe E args subs sf _ w2) as [[hosts|e] w3]; [|done].
    rewrite bind_run.
    destruct (generate_report E args sf _ _ subs hosts w3) as [[[]|e] w4]; [|done].
    rewrite bind_run.
    destruct (notify_step E args subs hosts w4) as [[[]|e] w5]; [|done].
    intros [= <-]. cbn. split; [|apply last_snoc].
    rewrite !elem_of_app, !list_elem_of_singleton. tauto.
  - right. right. split; [done|by eexists].
  - done.
  - by eexists.
Qed.

(** X5. When a tool that a stage to be run needs is not installed, the
    process exits with status 1 and the only commands it has run are the
    probes [which] and [command -v]: no enumeration, no probing. *)
Theorem missing_tool_stops_scan (E : environment) (args : arguments) (w : world)
    (tool : string) :
  (skip_subfinder args = false ∧ tool = "subfinder")
  ∨ (skip_httpx args = false ∧ tool = "httpx") →
  (∀ w0, (check_tool_installed E tool w0).1 = Ok false) →
  ∃ w' cs, script E args w = (1%Z, w')
           ∧ commands w' = commands w ++ cs ∧ Forall is_probe cs.
Proof.
  intros Hneed Hmissing. unfold script, main. rewrite bind_run.
  assert (∃ e w1 cs, setup E args w = (Exc e, w1)
                     ∧ (e = SystemExit 1 ∨ ∃ cls msg, e = Error cls msg)
                     ∧ commands w1 = commands w ++ cs ∧ Forall is_probe cs)
    as (e & w1 & cs & -> & He & Hc & Hp).
  { unfold setup. rewrite bind_run. unfold mkdir.
    destruct (denied w !! Path (output_dir args)) as [[cls msg]|].
    { eexists _, w, []. rewrite app_nil_r. split_and!; [done|by eauto|done|done]. }
    destruct (bool_decide (is_Some (files w !! Path (output_dir args)))).
    { eexists _, w, []. rewrite app_nil_r. split_and!; [done|by eauto|done|done]. }
    do 5 (rewrite bind_run; unfold print_status at 1).
    set (w0 := add_output _ _).
    assert (commands w0 = commands w) as Hw0 by done.
    rewrite bind_run.
    destruct (skip_subfinder args) eqn:Hs1.
    - rewrite ret_run. cbv iota. rewrite bind_run.
      destruct Hneed as [[? _]|[Hs2 ->]]; [done|]. rewrite Hs2, bind_run.
      destruct (check_tool_installed_run E "httpx" w0)
        as (b & cs & w1 & Hrun & Hc & Hp & _).
      pose proof (Hmissing w0) as Hm. rewrite Hrun in Hm. injection Hm as ->.
      rewrite Hrun, ret_run. cbn [negb].
      do 2 (rewrite bind_run; unfold print_status at 1).
      eexists _, _, cs. split_and!; [reflexivity|by left| |done].
      cbn. by rewrite Hc, Hw0.
    - rewrite bind_run.
      destruct (check_tool_installed_run E "subfinder" w0)
        as (b & cs & w1 & Hrun & Hc & Hp & _).
      rewrite Hrun, ret_run. destruct b; cbn [negb].
      2:{ do 2 (rewrite bind_run; unfold print_status at 1).
          eexists _, _, cs. split_and!; [reflexivity|by left| |done].
          cbn. by rewrite Hc, Hw0. }
      destruct Hneed as [[_ ->]|[Hs2 ->]].
      { pose proof (Hmissing w0) as Hm. by rewrite Hrun in Hm. }
      rewrite bind_run, Hs2, bind_run.
      destruct (check_tool_installed_run E "httpx" w1)
        as (b & cs' & w2 & Hrun' & Hc' & Hp' & _).
      pose proof (Hmissing w1) as Hm. rewrite Hrun' in Hm. injection Hm as ->.
      rewrite Hrun', ret_run. cbn [negb].
      do 2 (rewrite bind_run; unfold print_status at 1).
      eexists _, _, (cs ++ cs'). split_and!; [reflexivity|by left| |].
      + cbn. by rewrite Hc', Hc, Hw0, app_assoc.
      + by apply Forall_app. }
  destruct He as [->|(cls & msg & ->)]; by eexists _, cs.
Qed.

(** Witness of X5: no tool is installed. *)
Lemma missing_tool_stops_scan_witness :
  let E := env not_installed no_vars post_ok in
  ∃ w' cs, script E scan empty_world = (1%Z, w')
           ∧ commands w' = commands empty_world ++ cs ∧ Forall is_probe cs.
Proof.
  intros E. apply (missing_tool_stops_scan E scan empty_world "subfinder").
  - left. by split.
  - intros w0. reflexivity.
Defined.

(** ** Lists of names, lines and file names *)

Section text_facts.

Lemma dedupe_snoc l x :
  dedupe (l ++ [x]) = dedupe l ++ (if decide (x ∈ l) then [] else [x]).
Proof. by rewrite !dedupe_first_appearances, first_appearances_snoc. Qed.

Lemma dedupe_sublist l : dedupe l `sublist_of` l.
Proof.
  induction l as [|x l IH] using rev_ind; [done|].
  rewrite dedupe_snoc. apply sublist_app; [done|].
  destruct (decide (x ∈ l)); [apply sublist_nil_l|done].
Qed.

Lemma rstrip_idempotent s : rstrip (rstrip s) = rstrip s.
Proof.
  induction s as [|c r IH]; [done|]. cbn.
  destruct (rstrip r) as [|d r'] eqn:Hr.
  - destruct (isspace c) eqn:Hc; [done|]. cbn. by rewrite Hc.
  - cbn [rstrip] in *. by rewrite IH.
Qed.

Lemma rstrip_fixed_tail c r : rstrip (String c r) = String c r → rstrip r = r.
Proof.
  cbn. destruct (rstrip r) as [|d r'] eqn:Hr.
  - destruct (isspace c); [done|]. by intros [= <-].
  - by intros [= <-].
Qed.

Lemma rstrip_lstrip_fixed t : rstrip t = t → rstrip (lstrip t) = lstrip t.
Proof.
  induction t as [|c r IH]; [done|]. intros Hfix. cbn [lstrip].
  destruct (isspace c); [|done]. apply IH. by eapply rstrip_fixed_tail.
Qed.

Lemma lstrip_idempotent t : lstrip (lstrip t) = lstrip t.
Proof.
  induction t as [|c r IH]; [done|]. cbn.
  destruct (isspace c) eqn:Hc; [done|]. cbn. by rewrite Hc.
Qed.

Lemma strip_idempotent s : strip (strip s) = strip s.
Proof.
  unfold strip. rewrite rstrip_lstrip_fixed by apply rstrip_idempotent.
  apply lstrip_idempotent.
Qed.

(** Every line of a text is a stretch without LF, followed by LF unless
    it is the last one. *)
Lemma iter_lines_shape s :
  Forall (λ l, ∃ b, contains LF b = false ∧ (l = b ∨ l = b +:+ nl))
         (iter_lines s).
Proof.
  induction s as [|c r IH]; [constructor|]. cbn.
  destruct (Ascii.eqb c LF) eqn:Hc.
  - constructor; [|done]. exists EmptyString. split; [done|by right].
  - destruct (iter_lines r) as [|h t].
    + repeat constructor. exists (String c EmptyString). cbn. rewrite Hc. by eauto.
    + apply Forall_cons in IH as [(b & Hb & Hh) Ht]. constructor; [|done].
      exists (String c b). cbn. rewrite Hc, Hb. split; [done|].
      destruct Hh as [->| ->]; [by left|by right].
Qed.

Lemma str_length_app s t :
  String.length (s +:+ t) = String.length s + String.length t.
Proof. induction s as [|c s IH]; [done|]. rewrite str_app_cons. cbn. by rewrite IH. Qed.

Lemma str_app_inj_r s1 s2 t : s1 +:+ t = s2 +:+ t → s1 = s2.
Proof.
  revert s2. induction s1 as [|c s1 IH]; intros [|d s2] H.
  - done.
  - apply (f_equal String.length) in H. rewrite !str_length_app in H. cbn in H. lia.
  - apply (f_equal String.length) in H. rewrite !str_length_app in H. cbn in H. lia.
  - rewrite !str_app_cons in H. injection H as -> H. f_equal. by apply IH.
Qed.

Lemma str_app_inj_l s t1 t2 : s +:+ t1 = s +:+ t2 → t1 = t2.
Proof.
  induction s as [|c s IH]; [done|]. rewrite !str_app_cons. intros [= H]. by apply IH.
Qed.

Lemma str_app_inj_length s1 s2 t1 t2 :
  String.length s1 = String.length s2 →
  s1 +:+ t1 = s2 +:+ t2 → s1 = s2 ∧ t1 = t2.
Proof.
  revert s2. induction s1 as [|c s1 IH]; intros [|d s2] Hlen H; try done.
  rewrite !str_app_cons in H. injection H as -> H. injection Hlen as Hlen.
  destruct (IH _ Hlen H) as [-> ->]. done.
Qed.

End text_facts.

(** X7. The loop of [run_subfinder] that removes duplicates only
    deletes entries: its result is a subsequence of the input, and it is the
    input itself exactly when the input has no repeated entry. *)
Theorem dedupe_keeps_order (l : list string) :
  dedupe l `sublist_of` l ∧ (dedupe l = l ↔ NoDup l).
Proof.
  split; [apply dedupe_sublist|]. split.
  - intros <-. apply dedupe_NoDup.
  - intros H. rewrite dedupe_first_appearances. by apply first_appearances_NoDup_id.
Qed.

(** Witness of X7: a list without repeats is returned as it is. *)
Lemma dedupe_keeps_order_witness :
  dedupe ["a.example.com"; "b.example.com"] = ["a.example.com"; "b.example.com"].
Proof.
  apply (proj2 (dedupe_keeps_order ["a.example.com"; "b.example.com"])).
  apply (bool_decide_unpack _). vm_compute. exact I.
Defined.

(** X8. More output only adds names at the end: the result for a list
    followed by another is the result for the first, followed by the result
    for the second without the names the first already has. *)
Theorem dedupe_app (l k : list string) :
  dedupe (l ++ k) = dedupe l ++ filter (λ x, x ∉ l) (dedupe k).
Proof.
  induction k as [|x k IH] using rev_ind.
  - by rewrite !app_nil_r.
  - rewrite app_assoc, !dedupe_snoc, IH, filter_app, <-app_assoc. f_equal. f_equal.
    destruct (decide (x ∈ k)) as [Hk|Hk].
    + rewrite decide_True; [done|]. apply elem_of_app. by right.
    + destruct (decide (x ∈ l)) as [Hl|Hl].
      * rewrite decide_True by (apply elem_of_app; by left).
        rewrite filter_cons_False; [done|]. by intros ?.
      * rewrite decide_False by (by intros [?|?]%elem_of_app).
        by rewrite filter_cons_True.
Qed.

(** X9. The list that [main] loads from an earlier file has clean
    entries: none is empty, none has leading or trailing white space, none
    contains a line feed. *)
Theorem stripped_lines_clean (text : string) :
  Forall (λ sub, sub ≠ EmptyString ∧ strip sub = sub ∧ contains LF sub = false)
         (stripped_lines text).
Proof.
  unfold stripped_lines. rewrite Forall_fmap. apply Forall_forall.
  intros line [Hnb Hin]%list_elem_of_filter. cbn.
  split_and!; [exact Hnb|apply strip_idempotent|].
  pose proof (iter_lines_shape text) as Hshape.
  rewrite Forall_forall in Hshape. destruct (Hshape _ Hin) as (b & Hb & [->| ->]).
  - by apply contains_strip.
  - rewrite strip_app_nl. by apply contains_strip.
Qed.

(** X10. When every line is non-blank and decodes as JSON, the loop over
    the lines of the output file of [httpx] appends the decoded values in
    the order of the lines, one per line, repeated records included, and
    prints nothing. *)
Theorem read_records_in_order (E : environment) (lines : list string)
    (values acc : list pyval) (w : world) :
  Forall2 (λ line v, strip line ≠ EmptyString ∧ json_loads E (strip line) = inl v)
          lines values →
  read_records E acc lines w = (Ok (acc ++ values), w).
Proof.
  intros H. revert acc. induction H as [|line v lines values [Hl Hv] _ IH]; intros acc.
  - cbn. by rewrite app_nil_r.
  - cbn [read_records]. rewrite bind_run, (read_record_decoded E acc line w v) by done.
    rewrite IH. by rewrite <-app_assoc.
Qed.

(** Witness of X10: two lines of [httpx -json] output. *)
Lemma read_records_in_order_witness :
  read_records (env found no_vars post_ok) []
    [json_line "https://a.example.com" "200" "Home" +:+ nl;
     json_line "https://b.example.com" "404" "Gone" +:+ nl] empty_world
  = (Ok ([] ++ [PDict [("url", PStr "https://a.example.com");
                       ("status_code", PInt 200); ("title", PStr "Home")];
                PDict [("url", PStr "https://b.example.com");
                       ("status_code", PInt 404); ("title", PStr "Gone")]]),
     empty_world).
Proof.
  apply (read_records_in_order (env found no_vars post_ok)).
  repeat constructor; vm_compute; (discriminate || reflexivity).
Defined.

(** X11. The three files of a session have different names, and two
    sessions of one domain in one directory that start at different clock
    readings (of equal length, as [%Y%m%d_%H%M%S] gives) do not share a file
    name. *)
Theorem session_files_distinct (E1 E2 : environment) (args : arguments)
    (suffix1 suffix2 : string) :
  String.length (now_stamp E1) = String.length (now_stamp E2) →
  now_stamp E1 ≠ now_stamp E2 ∨ suffix1 ≠ suffix2 →
  session_file E1 args suffix1 ≠ session_file E2 args suffix2.
Proof.
  unfold session_file, path_join. intros Hlen Hne H.
  do 3 apply str_app_inj_l in H. apply str_app_inj_length in H; [|done].
  destruct H, Hne; done.
Qed.

(** Witness of X11: two scans started one second apart. *)
Lemma session_files_distinct_witness :
  let E := env found no_vars post_ok in
  session_file E scan "_subdomains.txt"
  ≠ session_file (at_time "20250101_120001" E) scan "_subdomains.txt".
Proof.
  intros E.
  apply (session_files_distinct E (at_time "20250101_120001" E) scan).
  - reflexivity.
  - left. vm_compute. discriminate.
Defined.

(** X12. The text [print_status] puts on the terminal (the colour of
    class [Colors], the time, the marker, the message, the reset sequence)
    determines the kind of message, the time and the message, for clock
    readings of equal length, as [%H:%M:%S] gives. *)
Theorem status_line_injective (ts1 ts2 m1 m2 : string) (s1 s2 : severity) :
  String.length ts1 = String.length ts2 →
  render ts1 (Status s1 m1) = render ts2 (Status s2 m2) →
  s1 = s2 ∧ ts1 = ts2 ∧ m1 = m2.
Proof.
  intros Hlen H. cbn [render] in H.
  set (digit := λ s, match s with
                     | info => "4" | success => "2" | error => "1" | warning => "3"
                     end%char).
  set (mark := λ s, match s with
                    | info => "*" | success => "+" | error => "-" | warning => "!"
                    end%char).
  assert (∀ s ts m, status_text ts m (severity_name s)
            = String "027" (String "[" (String "9" (String (digit s)
                (String "m" (String "["
                   (ts +:+ String "]" (String " " (String "[" (String (mark s)
                      (String "]" (String " " (m +:+ Colors.ENDC)))))))))))))
    as Heq.
  { intros s ts m. destruct s; reflexivity. }
  rewrite !Heq in H. injection H as Hd H.
  assert (s1 = s2) as <- by (by destruct s1, s2).
  split; [done|]. apply str_app_inj_length in H as [-> H]; [|done].
  injection H as H. by apply str_app_inj_r in H.
Qed.

(** Witness of X12: a warning printed at noon. *)
Lemma status_line_injective_witness :
  warning = warning ∧ "12:00:00" = "12:00:00"
  ∧ "No subdomains to probe" = "No subdomains to probe".
Proof.
  apply (status_line_injective "12:00:00" "12:00:00" "No subdomains to probe"
           "No subdomains to probe" warning warning); reflexivity.
Defined.

(** ** The report, the notification and the failures of the enumeration *)

Section stage_facts.
Context (E : environment).

Lemma write_eq p s w :
  write p s w = (Ok (), set_files (λ fs, alter (λ c, c +:+ s) p fs) w).
Proof. reflexivity. Qed.

(** The four writes of a detail block with no technologies, and the five
    of one with a list of names. *)
Lemma str_items_names names : ∀ i w,
  str_items i (PStr <$> names) w = (Ok names, w).
Proof.
  induction names as [|n names IH]; intros i w; [done|].
  cbn [fmap list_fmap str_items]. rewrite bind_run.
  change (list_fmap string pyval PStr names) with (PStr <$> names).
  by rewrite IH.
Qed.

Lemma report_host_block rf d names w c :
  dict_get d "technologies" (PList []) = PList (PStr <$> names) →
  files w !! rf = Some c →
  ∃ w', report_host E rf (PDict d) w = (Ok (), w')
        ∧ files w' !! rf
          = Some (c
                  +:+ ("URL: " +:+ fmt E (dict_get d "url" (dict_get d "input" (PStr "N/A")))
                       +:+ nl)
                  +:+ ("Status: " +:+ fmt E (dict_get d "status_code" (PStr "N/A")) +:+ nl)
                  +:+ ("Title: " +:+ fmt E (dict_get d "title" (PStr "N/A")) +:+ nl)
                  +:+ match names with
                      | [] => EmptyString
                      | _ => "Technologies: " +:+ join ", " names +:+ nl
                      end
                  +:+ (str_repeat "-" 30 +:+ nl))
        ∧ denied w' = denied w ∧ output w' = output w.
Proof.
  intros Htech Hc. unfold report_host. rewrite Htech.
  do 3 (rewrite bind_run, write_eq).
  rewrite bind_run.
  destruct names as [|n names].
  - cbn [py_truthy fmap list_fmap]. rewrite ret_run, write_eq.
    eexists. split; [reflexivity|]. cbn [files set_files denied output].
    rewrite !lookup_alter_eq, Hc. cbn [fmap option_fmap option_map].
    split; [|done]. f_equal. rewrite str_app_nil_l. by rewrite !str_app_assoc.
  - replace (py_truthy (PList (PStr <$> n :: names))) with true by done.
    unfold join_value. rewrite !bind_run.
    rewrite str_items_names, ret_run, write_eq, write_eq.
    eexists. split; [reflexivity|]. cbn [files set_files denied output].
    rewrite !lookup_alter_eq, Hc. cbn [fmap option_fmap option_map].
    split; [|done]. f_equal. by rewrite !str_app_assoc.
Qed.
End stage_facts.

Section report_facts.
Context (E : environment).

Lemma report_host_detail rf d names w c :
  listed_technologies (d, names) →
  files w !! rf = Some c →
  ∃ w', report_host E rf (PDict d) w = (Ok (), w')
        ∧ files w' !! rf = Some (c +:+ detail_block E d names)
        ∧ denied w' = denied w ∧ output w' = output w.
Proof.
  intros Ht Hc. destruct (report_host_block E rf d names w c Ht Hc)
    as (w' & Hrun & Hf & Hd & Ho).
  exists w'. split_and!; [done| |done|done]. by rewrite Hf.
Qed.

Lemma report_hosts_details rf hosts : ∀ w c,
  Forall listed_technologies hosts →
  files w !! rf = Some c →
  ∃ w', for_each ((λ h, PDict h.1) <$> hosts) (report_host E rf) w = (Ok (), w')
        ∧ files w' !! rf = Some (c +:+ detail_blocks E hosts)
        ∧ denied w' = denied w ∧ output w' = output w.
Proof.
  induction hosts as [|[d names] hosts IH]; intros w c Hall Hc.
  - exists w. cbn. by rewrite str_app_nil_r.
  - apply Forall_cons in Hall as [Hh Hall].
    destruct (report_host_detail rf d names w c Hh Hc) as (w1 & Hrun & Hf & Hd & Ho).
    destruct (IH w1 _ Hall Hf) as (w2 & Hrun2 & Hf2 & Hd2 & Ho2).
    exists w2. cbn [fmap list_fmap for_each]. rewrite bind_run. cbn [fst].
    rewrite Hrun. split; [exact Hrun2|]. rewrite Hf2, Hd2, Ho2.
    split_and!; [|done|done]. f_equal. cbn [detail_blocks foldr].
    by rewrite str_app_assoc.
Qed.

(** The world after the nine lines of the summary have been written. *)
Lemma report_summary_written args sf lf rf (n m : nat) w :
  denied w !! rf = None →
  ∃ w9,
    (∀ rest : Py unit,
       (open_w rf ;;
        write rf ("Subdomain Scan Report" +:+ nl) ;;
        write rf (str_repeat "=" 50 +:+ nl) ;;
        write rf ("Target Domain: " +:+ domain args +:+ nl) ;;
        write rf ("Scan Time: " +:+ now_report E +:+ nl) ;;
        write rf ("Total Subdomains Found: " +:+ pretty n +:+ nl) ;;
        write rf ("Total Live Hosts Found: " +:+ pretty m +:+ nl) ;;
        write rf (nl +:+ "Subdomains File: " +:+ sf +:+ nl) ;;
        write rf ("Live Hosts File: " +:+ lf +:+ nl) ;;
        write rf (nl +:+ str_repeat "=" 50 +:+ nl) ;;
        rest) w = rest w9)
    ∧ files w9 !! rf = Some (report_summary E args sf lf n m)
    ∧ denied w9 = denied w ∧ output w9 = output w.
Proof.
  intros Hd. destruct (open_w_run rf w Hd) as (w0 & Hopen & Hf0 & Hd0 & Ho0).
  eexists. split.
  - intros rest. rewrite bind_run, Hopen. do 9 (rewrite bind_run, write_eq).
    reflexivity.
  - cbn [files set_files denied output]. split; [|done].
    rewrite !lookup_alter_eq, Hf0. cbn [fmap option_fmap option_map].
    unfold report_summary. by rewrite !str_app_assoc.
Qed.

Lemma for_each_app {A} (l1 l2 : list A) (body : A → Py unit) w :
  for_each (l1 ++ l2) body w
  = match for_each l1 body w with
    | (Ok _, w') => for_each l2 body w'
    | (Exc e, w') => (Exc e, w')
    end.
Proof.
  revert w. induction l1 as [|x l1 IH]; intros w; [done|].
  cbn [app for_each]. rewrite !bind_run.
  destruct (body x w) as [[[]|e] w']; [apply IH|done].
Qed.

(** The heading of the details, once the summary is in the file. *)
Lemma details_heading_written rf w c (rest : Py unit) :
  files w !! rf = Some c →
  ∃ w2, (write rf (nl +:+ "LIVE HOSTS DETAILS:" +:+ nl) ;;
         write rf (str_repeat "-" 50 +:+ nl) ;;
         rest) w = rest w2
        ∧ files w2 !! rf = Some (c +:+ details_heading)
        ∧ denied w2 = denied w ∧ output w2 = output w.
Proof.
  intros Hc. eexists. split.
  - do 2 (rewrite bind_run, write_eq). reflexivity.
  - cbn [files set_files denied output]. split; [|done].
    rewrite !lookup_alter_eq, Hc. cbn [fmap option_fmap option_map].
    unfold details_heading. by rewrite !str_app_assoc.
Qed.
End report_facts.

(** X13. When the report file can be opened and every live host is a
    record whose technologies, if any, are a list of names, the report step
    leaves in the file exactly the summary (with the numbers of subdomains
    and of live hosts), then, if there is a live host, the heading of the
    details and one block per host in order; it prints that the report was
    saved. *)
Theorem generate_report_content (E : environment) (args : arguments)
    (subdomains_file live_hosts_file report_file : string)
    (subdomains : list string)
    (hosts : list (list (string * pyval) * list string)) (w : world) :
  denied w !! report_file = None →
  Forall listed_technologies hosts →
  let live_hosts := (λ h, PDict h.1) <$> hosts in
  ∃ w',
    generate_report E args subdomains_file live_hosts_file report_file
                    subdomains live_hosts w = (Ok (), w')
    ∧ files w' !! report_file
      = Some (report_summary E args subdomains_file live_hosts_file
                             (length subdomains) (length hosts)
              +:+ match hosts with
                  | [] => EmptyString
                  | _ => details_heading +:+ detail_blocks E hosts
                  end)
    ∧ output w' = output w ++ [Status success ("Report saved to: " +:+ report_file)].
Proof.
  intros Hd Hall live_hosts.
  destruct (report_summary_written E args subdomains_file live_hosts_file report_file
              (length subdomains) (length live_hosts) w Hd)
    as (w9 & Hchain & Hf9 & Hd9 & Ho9).
  unfold live_hosts in Hf9. rewrite length_fmap in Hf9.
  unfold generate_report. destruct hosts as [|h hosts].
  - eexists. split.
    { apply try_except_Ok. rewrite Hchain. subst live_hosts.
      cbn [fmap list_fmap]. rewrite bind_run, ret_run.
      unfold print_status. reflexivity. }
    cbn [files add_output output]. rewrite str_app_nil_r, Ho9. done.
  - destruct (details_heading_written report_file w9 _
                (for_each live_hosts (report_host E report_file)) Hf9)
      as (w11 & Hhead & Hf11 & Hd11 & Ho11).
    destruct (report_hosts_details E report_file (h :: hosts) w11 _ Hall Hf11)
      as (w' & Hhosts & Hf' & Hd' & Ho').
    eexists. split.
    { apply try_except_Ok. rewrite Hchain, bind_run.
      change (live_hosts) with (PDict h.1 :: ((λ h, PDict h.1) <$> hosts)) at 1.
      cbv iota. rewrite Hhead. fold live_hosts in Hhosts. rewrite Hhosts.
      unfold print_status. reflexivity. }
    cbn [files add_output output]. rewrite Hf', Ho', Ho11, Ho9.
    by rewrite str_app_assoc.
Qed.

(** Witness of X13: a record with two technologies and one built from a bare
    URL. *)
Lemma generate_report_content_witness :
  let E := env found no_vars post_ok in
  let live_hosts := (λ h, PDict h.1) <$> reported in
  ∃ w',
    generate_report E scan list_path live_path "results/report.txt"
                    ["a.example.com"; "b.example.com"] live_hosts empty_world
    = (Ok (), w')
    ∧ files w' !! "results/report.txt"
      = Some (report_summary E scan list_path live_path 2 2
              +:+ details_heading +:+ detail_blocks E reported)
    ∧ output w' = output empty_world
                  ++ [Status success "Report saved to: results/report.txt"].
Proof.
  intros E.
  apply (generate_report_content E scan list_path live_path "results/report.txt"
           ["a.example.com"; "b.example.com"] reported empty_world).
  - vm_compute. reflexivity.
  - repeat constructor.
Defined.

(** X14. A record that [run_httpx] built from a bare URL is reported with
    the URL, status [N/A] and title [N/A], and no line of technologies. *)
Theorem report_of_url_record (E : environment) (report_file line : string)
    (w : world) (c : string) :
  files w !! report_file = Some c →
  ∃ w', report_host E report_file (url_record line) w = (Ok (), w')
        ∧ files w' !! report_file
          = Some (c +:+ "URL: " +:+ line +:+ nl +:+ "Status: N/A" +:+ nl
                  +:+ "Title: N/A" +:+ nl +:+ str_repeat "-" 30 +:+ nl).
Proof.
  intros Hc.
  destruct (report_host_block E report_file
              [("input", PStr line); ("url", PStr line)] [] w c eq_refl Hc)
    as (w' & Hrun & Hf & _).
  exists w'. split; [exact Hrun|]. rewrite Hf. f_equal. f_equal.
  change (dict_get [("input", PStr line); ("url", PStr line)] "url"
            (dict_get [("input", PStr line); ("url", PStr line)] "input" (PStr "N/A")))
    with (PStr line).
  change (dict_get [("input", PStr line); ("url", PStr line)] "status_code" (PStr "N/A"))
    with (PStr "N/A").
  change (dict_get [("input", PStr line); ("url", PStr line)] "title" (PStr "N/A"))
    with (PStr "N/A").
  cbn [fmt]. rewrite !str_app_assoc. reflexivity.
Qed.

(** Witness of X14: one such record appended to a report. *)
Lemma report_of_url_record_witness :
  ∃ w', report_host (env found no_vars post_ok) "results/report.txt"
          (url_record "https://b.example.com")
          (world_with [("results/report.txt", "LIVE HOSTS" +:+ nl)])
        = (Ok (), w')
        ∧ files w' !! "results/report.txt"
          = Some (("LIVE HOSTS" +:+ nl) +:+ "URL: " +:+ "https://b.example.com" +:+ nl
                  +:+ "Status: N/A" +:+ nl +:+ "Title: N/A" +:+ nl
                  +:+ str_repeat "-" 30 +:+ nl).
Proof.
  apply (report_of_url_record (env found no_vars post_ok) "results/report.txt"
           "https://b.example.com"
           (world_with [("results/report.txt", "LIVE HOSTS" +:+ nl)])).
  vm_compute. reflexivity.
Defined.

(** X15. When the technologies of a live host cannot be joined (a number,
    or a list with an entry that is not a string), the report step prints
    [Error generating report] and returns; the file is left with the
    summary, the blocks of the hosts before that one and the first three
    lines of its block, and the hosts after it are not reported. *)
Theorem generate_report_truncated (E : environment) (args : arguments)
    (subdomains_file live_hosts_file report_file : string)
    (subdomains : list string)
    (before : list (list (string * pyval) * list string))
    (d : list (string * pyval)) (rest : list pyval)
    (cls : error_class) (msg : string) (w : world) :
  denied w !! report_file = None →
  Forall listed_technologies before →
  py_truthy (dict_get d "technologies" (PList [])) = true →
  (∀ w0, join_value ", " (dict_get d "technologies" (PList [])) w0
         = (Exc (Error cls msg), w0)) →
  let live_hosts := ((λ h, PDict h.1) <$> before) ++ PDict d :: rest in
  ∃ w',
    generate_report E args subdomains_file live_hosts_file report_file
                    subdomains live_hosts w = (Ok (), w')
    ∧ files w' !! report_file
      = Some (report_summary E args subdomains_file live_hosts_file
                             (length subdomains) (length live_hosts)
              +:+ details_heading +:+ detail_blocks E before
              +:+ ("URL: " +:+ fmt E (dict_get d "url" (dict_get d "input" (PStr "N/A")))
                   +:+ nl)
              +:+ ("Status: " +:+ fmt E (dict_get d "status_code" (PStr "N/A")) +:+ nl)
              +:+ ("Title: " +:+ fmt E (dict_get d "title" (PStr "N/A")) +:+ nl))
    ∧ output w' = output w ++ [Status error ("Error generating report: " +:+ msg)].
Proof.
  intros Hd Hall Htruthy Hjoin live_hosts.
  destruct (report_summary_written E args subdomains_file live_hosts_file report_file
              (length subdomains) (length live_hosts) w Hd)
    as (w9 & Hchain & Hf9 & Hd9 & Ho9).
  destruct (details_heading_written report_file w9 _
              (for_each live_hosts (report_host E report_file)) Hf9)
    as (w11 & Hhead & Hf11 & Hd11 & Ho11).
  destruct (report_hosts_details E report_file before w11 _ Hall Hf11)
    as (w12 & Hhosts & Hf12 & Hd12 & Ho12).
  unfold generate_report. eexists. split.
  { erewrite try_except_Exc.
    2:{ rewrite Hchain, bind_run.
        assert (∀ (k1 k2 : Py unit),
                  match live_hosts with [] => k1 | _ => k2 end = k2) as ->.
        { intros k1 k2. unfold live_hosts. by destruct before. }
        rewrite Hhead. unfold live_hosts. rewrite for_each_app, Hhosts.
        cbn [for_each]. rewrite bind_run. unfold report_host. rewrite Htruthy.
        do 3 (rewrite bind_run, write_eq). rewrite !bind_run, Hjoin. reflexivity. }
    cbn [catch_Exception]. unfold print_status. reflexivity. }
  cbn [files set_files add_output output]. rewrite !lookup_alter_eq, Hf12.
  cbn [fmap option_fmap option_map]. rewrite Ho12, Ho11, Ho9.
  split; [|done]. f_equal. by rewrite !str_app_assoc.
Qed.

(** Witness of X15: the technologies of the only host are the number 5. *)
Lemma generate_report_truncated_witness :
  let E := env found no_vars post_ok in
  let d := [("url", PStr "https://a.example.com"); ("technologies", PInt 5)] in
  ∃ w',
    generate_report E scan list_path live_path "results/report.txt"
                    ["a.example.com"] ([] ++ [PDict d]) empty_world = (Ok (), w')
    ∧ files w' !! "results/report.txt"
      = Some (report_summary E scan list_path live_path 1 1
              +:+ details_heading +:+ detail_blocks E []
              +:+ ("URL: " +:+ "https://a.example.com" +:+ nl)
              +:+ ("Status: " +:+ "N/A" +:+ nl)
              +:+ ("Title: " +:+ "N/A" +:+ nl))
    ∧ output w' = output empty_world
                  ++ [Status error
                        "Error generating report: can only join an iterable"].
Proof.
  intros E d.
  apply (generate_report_truncated E scan list_path live_path "results/report.txt"
           ["a.example.com"] [] d [] TypeError "can only join an iterable"
           empty_world).
  - vm_compute. reflexivity.
  - constructor.
  - reflexivity.
  - intros w0. reflexivity.
Defined.

(** The cases of [send_notification]: nothing is posted, or one request
    goes to the address it was given. *)
Lemma send_notification_cases (E : environment) (domain : string)
    (total_subdomains live_hosts : nat) (webhook_url platform : string)
    (w : world) :
  ∃ b w',
    send_notification E domain total_subdomains live_hosts webhook_url platform w
    = (Ok b, w')
    ∧ files w' = files w ∧ commands w' = commands w
    ∧ ((b = false ∧ posts w' = posts w)
       ∨ (∃ payload,
            (platform = "discord" ∨ platform = "slack")
            ∧ webhook_url ≠ EmptyString
            ∧ posts w' = posts w ++ [(webhook_url, payload)]
            ∧ (b = true ↔ http_post E webhook_url payload = Response 200))).
Proof.
  unfold send_notification. destruct webhook_url as [|c url]; cbn [truthy negb].
  { eexists _, _. split; [reflexivity|]. by eauto. }
  set (webhook_url := String c url). unfold try_except, import_requests.
  destruct (String.eqb platform "telegram") eqn:Ht.
  { destruct (requests_installed E).
    2:{ eexists _, _. split; [reflexivity|]. by eauto. }
    unfold index_from_end, load_global, raise, print_status.
    cbv [mbind mret Py_bind Py_ret].
    destruct (1 <=? length (split "/" webhook_url));
      [|eexists _, _; split; [reflexivity|]; by eauto].
    destruct (split "/" webhook_url !! (length (split "/" webhook_url) - 1));
      [|eexists _, _; split; [reflexivity|]; by eauto].
    destruct (2 <=? length (split "/" webhook_url));
      [|eexists _, _; split; [reflexivity|]; by eauto].
    destruct (split "/" webhook_url !! (length (split "/" webhook_url) - 2));
      eexists _, _; (split; [reflexivity|]); by eauto. }
  assert (∀ payload,
    (platform = "discord" ∨ platform = "slack") →
    ∃ b w',
      match
        ((import_requests E ;; post E webhook_url payload) ≫=
           (λ status_code : Z,
              if (status_code =? 200)%Z
              then print_status "Notification sent successfully" success ;; mret true
              else print_status ("Failed to send notification: " +:+ pretty status_code)
                                warning ;; mret false)) w
      with
      | (Ok a, w') => (Ok a, w')
      | (Exc e, w') =>
          match
            match e with
            | Error ImportError _ =>
                Some (print_status
                        "Requests library required for notifications. Install with: pip install requests"
                        warning ;; mret false)
            | Error _ msg =>
                Some (print_status ("Notification error: " +:+ msg) warning ;;
                      mret false)
            | _ => None
            end
          with
          | Some k => k w'
          | None => (Exc e, w')
          end
      end = (Ok b, w')
      ∧ files w' = files w ∧ commands w' = commands w
      ∧ ((b = false ∧ posts w' = posts w)
         ∨ (∃ payload,
              (platform = "discord" ∨ platform = "slack")
              ∧ webhook_url ≠ EmptyString
              ∧ posts w' = posts w ++ [(webhook_url, payload)]
              ∧ (b = true ↔ http_post E webhook_url payload = Response 200))))
    as Hpost.
  { intros payload Hp. unfold import_requests.
    destruct (requests_installed E).
    2:{ eexists _, _. split; [reflexivity|]. by eauto. }
    rewrite !bind_run, ret_run. unfold post.
    destruct (http_post E webhook_url payload) as [code|cls' msg'] eqn:Hres.
    - destruct (code =? 200)%Z eqn:Hcode.
      + apply Z.eqb_eq in Hcode as ->. eexists _, _. split; [reflexivity|].
        split_and!; [done..|]. right. exists payload. by rewrite Hres.
      + apply Z.eqb_neq in Hcode. eexists _, _. split; [reflexivity|].
        split_and!; [done..|]. right. exists payload. rewrite Hres.
        split_and!; [done..|]. split; [done|]. by intros [= ->].
    - destruct cls'; eexists _, _; (split; [reflexivity|]);
        (split_and!; [done..|]); right; exists payload; rewrite Hres;
        by split_and!. }
  destruct (String.eqb platform "discord") eqn:Hdc.
  { apply String.eqb_eq in Hdc. apply Hpost. by left. }
  destruct (String.eqb platform "slack") eqn:Hsl.
  { apply String.eqb_eq in Hsl. apply Hpost. by right. }
  eexists _, _. split; [reflexivity|]. by eauto.
Qed.

(** X16. [send_notification] never raises, changes no file and starts no
    process. Either it sends nothing and returns [False], or the platform is
    Discord or Slack, the address is not empty, exactly one request is sent,
    to the address as given, and the result is [True] exactly when the
    answer has status 200. *)
Theorem send_notification_outcome (E : environment) (domain : string)
    (total_subdomains live_hosts : nat) (webhook_url platform : string)
    (w : world) :
  ∃ b w',
    send_notification E domain total_subdomains live_hosts webhook_url platform w
    = (Ok b, w')
    ∧ files w' = files w ∧ commands w' = commands w
    ∧ ((b = false ∧ posts w' = posts w)
       ∨ (∃ payload,
            (platform = "discord" ∨ platform = "slack")
            ∧ webhook_url ≠ EmptyString
            ∧ posts w' = posts w ++ [(webhook_url, payload)]
            ∧ (b = true ↔ http_post E webhook_url payload = Response 200))).
Proof. apply send_notification_cases. Qed.

(** Witness of X16: a Discord webhook that answers 200. *)
Lemma send_notification_outcome_witness :
  ∃ w', send_notification (env found no_vars post_ok) "example.com" 2 1
          "https://hooks.example.com/1" "discord" empty_world
        = (Ok true, w').
Proof.
  destruct (send_notification_outcome (env found no_vars post_ok) "example.com" 2 1
              "https://hooks.example.com/1" "discord" empty_world)
    as (b & w' & Hrun & _ & _ & [[Hb Hp]|(payload & _ & _ & _ & Hiff)]).
  - exfalso. subst b. vm_compute in Hrun. discriminate Hrun.
  - exists w'. rewrite Hrun. f_equal. f_equal. apply Hiff. reflexivity.
Defined.

(** X17. When [subfinder] does not end with exit code 0 (another exit
    code, a timeout, a command that cannot be started), [run_subfinder]
    returns an empty list, its last line of output is an error, and it
    writes nothing: the files are as the tool left them, so no list file is
    created or emptied. *)
Theorem run_subfinder_failure_leaves_files (E : environment)
    (domain output_file : string) (w : world) (outcome : proc_outcome)
    (fs : gmap string string) :
  spawn E (subfinder_cmd domain) (Some 300) (files w) = (outcome, fs) →
  (∀ out err, outcome ≠ Completed 0 out err) →
  ∃ w' msg, run_subfinder E domain output_file w = (Ok [], w')
            ∧ files w' = fs
            ∧ last (output w') = Some (Status error msg).
Proof.
  intros Hspawn Hfail. unfold run_subfinder. rewrite bind_run.
  unfold print_status at 1. unfold try_except, run_subfinder_try.
  rewrite bind_run. unfold print_status at 1. rewrite bind_run.
  destruct outcome as [rc out err|cls msg].
  - erewrite subprocess_run_Completed by exact Hspawn. cbn [returncode].
    assert (rc ≠ 0%Z) as Hrc by (intros ->; by eapply Hfail).
    apply Z.eqb_neq in Hrc as ->. cbn [negb]. rewrite bind_run.
    unfold print_status at 1. eexists _, _. split; [reflexivity|].
    split; [done|]. cbn. apply last_snoc.
  - erewrite subprocess_run_Raised by exact Hspawn.
    destruct cls; cbn [run_subfinder_except]; rewrite bind_run;
      unfold print_status at 1; eexists _, _; (split; [reflexivity|]);
      (split; [done|]); cbn; apply last_snoc.
Qed.

(** Witness of X17: the tool times out; the list of an earlier run stays. *)
Lemma run_subfinder_failure_leaves_files_witness :
  ∃ w' msg,
    run_subfinder (env timed_out no_vars post_ok) "example.com" list_path listed
    = (Ok [], w')
    ∧ files w' = files listed
    ∧ last (output w') = Some (Status error msg).
Proof.
  apply (run_subfinder_failure_leaves_files (env timed_out no_vars post_ok)
           "example.com" list_path listed
           (Raised TimeoutExpired "timed out after 300 seconds")).
  - reflexivity.
  - intros out err. discriminate.
Defined.

(** X18. When [subfinder] succeeds and prints only white space,
    [run_subfinder] returns an empty list and writes an empty list
    file. *)
Theorem run_subfinder_no_names (E : environment) (domain output_file : string)
    (w : world) (raw err : string) (fs : gmap string string) :
  spawn E (subfinder_cmd domain) (Some 300) (files w) = (Completed 0 raw err, fs) →
  denied w !! output_file = None →
  strip (universal_newlines raw) = EmptyString →
  ∃ w', run_subfinder E domain output_file w = (Ok [], w')
        ∧ files w' !! output_file = Some EmptyString.
Proof.
  intros Hspawn Hd Hblank.
  destruct (run_subfinder_success E domain output_file w raw err fs Hspawn Hd)
    as (w' & Hrun & Hf & _).
  unfold output_lines in Hrun, Hf. rewrite Hblank in Hrun, Hf.
  by exists w'.
Qed.

(** Witness of X18: the tool prints one empty line. *)
Lemma run_subfinder_no_names_witness :
  ∃ w', run_subfinder (env silent no_vars post_ok) "example.com" list_path
                      empty_world = (Ok [], w')
        ∧ files w' !! list_path = Some EmptyString.
Proof.
  apply (run_subfinder_no_names (env silent no_vars post_ok) "example.com" list_path
           empty_world nl EmptyString ∅).
  - reflexivity.
  - vm_compute. reflexivity.
  - reflexivity.
Defined.

(** X19. With [--skip-subfinder], when the latest list of the domain
    cannot be opened, the error leaves [main]: the process prints
    [Unexpected error] as its last line and exits with status 1, having
    written no file and run no tool since the set-up. *)
Theorem resume_from_unreadable_list (E : environment) (args : arguments)
    (w w1 : world) (f : string) (cls : error_class) (msg : string) :
  skip_subfinder args = true →
  setup E args w = (Ok (), w1) →
  let pattern := domain args +:+ "_*_subdomains.txt" in
  let candidate (p : string) : Prop :=
    is_Some (files w1 !! p) ∧ glob_match E (output_dir args) pattern p = true in
  candidate f → (∀ g, candidate g → String.le g f) →
  denied w1 !! f = Some (cls, msg) →
  ∃ w2, script E args w = (1%Z, w2)
        ∧ files w2 = files w1 ∧ commands w2 = commands w1
        ∧ last (output w2) = Some (Status error ("Unexpected error: " +:+ msg)).
Proof.
  intros Hskip Hsetup pattern candidate Hf Hmax Hd.
  assert (∀ p, p ∈ filter (λ p, glob_match E (output_dir args) pattern p = true)
                     (elements (dom (files w1))) ↔ candidate p) as Hcand.
  { intros p. rewrite list_elem_of_filter, elem_of_elements, elem_of_dom.
    unfold candidate. tauto. }
  unfold script, main. rewrite bind_run, Hsetup. unfold stages. rewrite bind_run.
  unfold resolve_subdomains. rewrite Hskip. cbn [negb].
  rewrite bind_run. unfold print_status at 1. rewrite bind_run.
  unfold glob at 1. cbn [files add_output]. fold pattern.
  rewrite (last_sorted_max _ f).
  2:{ by apply Hcand. }
  2:{ intros g Hg. by apply Hmax, Hcand. }
  rewrite bind_run. unfold print_status at 1. rewrite bind_run.
  unfold read_text. cbn [denied add_output]. rewrite Hd.
  eexists. split; [reflexivity|]. split_and!; [done..|]. cbn. apply last_snoc.
Qed.

(** Witness of X19: the only list of the domain cannot be opened. *)
Lemma resume_from_unreadable_list_witness :
  let E := env found no_vars post_ok in
  ∃ w2, script E scan_resuming locked = (1%Z, w2)
        ∧ files w2 = files (setup E scan_resuming locked).2
        ∧ commands w2 = commands (setup E scan_resuming locked).2
        ∧ last (output w2)
          = Some (Status error ("Unexpected error: " +:+ "[Errno 13] Permission denied")).
Proof.
  intros E.
  apply (resume_from_unreadable_list E scan_resuming locked
           (setup E scan_resuming locked).2 list_path OSError
           "[Errno 13] Permission denied").
  - reflexivity.
  - vm_compute. reflexivity.
  - split; [|reflexivity]. vm_compute. by eexists.
  - intros g [Hg Hm]. apply elem_of_dom in Hg.
    change (dom (files (setup E scan_resuming locked).2))
      with (dom (list_to_map (M := gmap string string)
                   [(list_path, "a.example.com" +:+ nl)])) in Hg.
    rewrite dom_list_to_map_L in Hg. cbn in Hg.
    rewrite !elem_of_union, !elem_of_singleton in Hg.
    destruct Hg as [->|Hg]; [|by apply elem_of_empty in Hg].
    vm_compute. exact I.
  - vm_compute. reflexivity.
Defined.

(** ** The processes and the requests of a whole run *)

Section frame_notification.
Context (E : environment) {B : Type} (proj : world → B).
Hypothesis proj_output : ignores_output proj.
Hypothesis proj_post : ∀ url payload, keeps proj (post E url payload).

Lemma keeps_index_from_end l k : keeps proj (index_from_end l k).
Proof.
  unfold index_from_end. destruct (k <=? length l); [|done].
  by destruct (l !! (length l - k)).
Qed.

Lemma keeps_send_notification domain n m url platform :
  keeps proj (send_notification E domain n m url platform).
Proof.
  assert (keeps proj (import_requests E)) as Himp.
  { unfold import_requests. by destruct (requests_installed E). }
  unfold send_notification. apply keeps_if; [done|]. apply keeps_try.
  - apply keeps_bind.
    + repeat apply keeps_if.
      * apply keeps_bind; [apply Himp|]. intros _.
        apply keeps_bind; [apply keeps_index_from_end|]. intros chat_id.
        apply keeps_bind; [apply keeps_index_from_end|]. intros bot_token.
        apply keeps_bind; [done|]. intros token. apply proj_post.
      * apply keeps_bind; [apply Himp|]. intros _. apply proj_post.
      * apply keeps_bind; [apply Himp|]. intros _. apply proj_post.
      * done.
    + intros code. apply keeps_if;
        (apply keeps_bind; [by apply keeps_print_status|done]).
  - intros [| |cls msg] k; [done..|].
    destruct cls; intros [= <-];
      (apply keeps_bind; [by apply keeps_print_status|done]).
Qed.

Lemma keeps_notify_step args subdomains hosts :
  keeps proj (notify_step E args subdomains hosts).
Proof.
  unfold notify_step. repeat apply keeps_if; try done.
  - apply keeps_bind; [by apply keeps_print_status|]. intros _.
    apply keeps_bind; [apply keeps_send_notification|done].
Qed.
End frame_notification.

Section frame_tools.
Context (E : environment) {B : Type} (proj : world → B).
Hypothesis proj_output : ignores_output proj.
Hypothesis proj_file : ∀ p, ignores_file proj p.
Hypothesis proj_spawn : ignores_spawn proj.

Lemma keeps_subprocess_run cmd t : keeps proj (subprocess_run E cmd t).
Proof.
  intros w. unfold subprocess_run.
  destruct (spawn E cmd t (files w)) as [[rc out err|cls msg] fs]; apply proj_spawn.
Qed.

Lemma keeps_check_tool_installed tool : keeps proj (check_tool_installed E tool).
Proof.
  unfold check_tool_installed. apply keeps_try.
  - apply keeps_bind; [apply keeps_subprocess_run|]. intros r.
    apply keeps_if; [done|]. apply keeps_bind; [apply keeps_subprocess_run|done].
  - by intros [| |cls msg] k [= <-].
Qed.

Lemma keeps_run_subfinder domain o : keeps proj (run_subfinder E domain o).
Proof.
  unfold run_subfinder. apply keeps_bind; [by apply keeps_print_status|].
  intros _. apply keeps_try; [|by apply keeps_run_subfinder_except].
  unfold run_subfinder_try. apply keeps_bind; [by apply keeps_print_status|].
  intros _. apply keeps_bind; [apply keeps_subprocess_run|]. intros r.
  apply keeps_if.
  - apply keeps_bind; [by apply keeps_print_status|done].
  - apply keeps_bind; [by apply keeps_print_status|]. intros _.
    apply keeps_bind; [by apply keeps_open_w|]. intros _.
    apply keeps_bind.
    { apply keeps_for_each. intros sub. by apply keeps_write. }
    intros _. apply keeps_bind; [by apply keeps_print_status|]. intros _.
    apply keeps_bind; [by apply keeps_show_subdomains|done].
Qed.

Lemma keeps_run_httpx f o : keeps proj (run_httpx E f o).
Proof.
  unfold run_httpx. apply keeps_bind; [by apply keeps_print_status|].
  intros _. apply keeps_bind; [done|]. intros present. apply keeps_if.
  { apply keeps_bind; [by apply keeps_print_status|done]. }
  apply keeps_bind; [apply keeps_read_text|]. intros text. apply keeps_if.
  { apply keeps_bind; [by apply keeps_print_status|done]. }
  apply keeps_try; [|by apply keeps_run_httpx_except].
  unfold run_httpx_try. apply keeps_bind; [by apply keeps_print_status|].
  intros _. apply keeps_bind; [by apply keeps_print_status|]. intros _.
  apply keeps_bind; [apply keeps_subprocess_run|]. intros r.
  apply keeps_bind.
  { apply keeps_if; [by apply keeps_print_status|done]. }
  intros _. apply keeps_bind; [by apply keeps_read_live_hosts|]. intros hosts.
  apply keeps_bind; [by apply keeps_print_status|]. intros _.
  apply keeps_bind; [by apply keeps_show_live_hosts|done].
Qed.

Lemma keeps_setup args : keeps proj (setup E args).
Proof.
  unfold setup. apply keeps_bind; [apply keeps_mkdir|]. intros _.
  do 5 (apply keeps_bind; [by apply keeps_print_status|]; intros _).
  apply keeps_bind.
  { apply keeps_if; [done|].
    apply keeps_bind; [apply keeps_check_tool_installed|done]. }
  intros missing. apply keeps_if.
  { do 2 (apply keeps_bind; [by apply keeps_print_status|]; intros _). done. }
  apply keeps_bind.
  { apply keeps_if; [done|].
    apply keeps_bind; [apply keeps_check_tool_installed|done]. }
  intros missing'. apply keeps_if; [|done].
  do 2 (apply keeps_bind; [by apply keeps_print_status|]; intros _). done.
Qed.

Lemma keeps_resolve_subdomains args sf : keeps proj (resolve_subdomains E args sf).
Proof.
  unfold resolve_subdomains. apply keeps_if.
  - apply keeps_bind; [apply keeps_run_subfinder|]. intros subs.
    apply keeps_bind; [|done]. unfold when.
    apply keeps_if; [by apply keeps_print_status|done].
  - apply keeps_bind; [by apply keeps_print_status|]. intros _.
    apply keeps_bind; [done|]. intros existing.
    destruct (last (sorted existing)).
    + apply keeps_bind; [by apply keeps_print_status|]. intros _.
      apply keeps_bind; [apply keeps_read_text|done].
    + apply keeps_bind; [by apply keeps_print_status|done].
Qed.

Lemma keeps_probe args subs sf lf : keeps proj (probe E args subs sf lf).
Proof.
  unfold probe. repeat apply keeps_if.
  - do 2 (apply keeps_bind; [by apply keeps_print|]; intros _).
    apply keeps_run_httpx.
  - apply keeps_bind; [by apply keeps_print_status|done].
  - apply keeps_bind; [by apply keeps_print_status|done].
Qed.
End frame_tools.

Section process_facts.
Context (E : environment).

Lemma script_commands (cl : command_line) w :
  commands (script E cl w).2 = commands (main E cl w).2.
Proof. unfold script. by destruct (main E cl w) as [[[]|[code| |cls msg]] w']. Qed.

Lemma script_posts (cl : command_line) w :
  posts (script E cl w).2 = posts (main E cl w).2.
Proof. unfold script. by destruct (main E cl w) as [[[]|[code| |cls msg]] w']. Qed.

(** What follows a statement and leaves an aspect of the world alone can
    be left out when looking at that aspect. *)
Lemma then_keeps {A C B} (proj : world → B) (m : Py A) (f : A → Py C) w :
  (∀ a, keeps proj (f a)) → proj ((m ≫= f) w).2 = proj (m w).2.
Proof.
  intros Hf. rewrite bind_run. destruct (m w) as [[a|e] w']; [apply Hf|done].
Qed.

Lemma post_keeps_commands url payload : keeps commands (post E url payload).
Proof. intros w. unfold post. by destruct (http_post E url payload). Qed.

(** The report, the notification and the summary start no process. *)
Lemma closing_keeps_commands args sf lf rf subs hosts :
  keeps commands
    (generate_report E args sf lf rf subs hosts ;;
     notify_step E args subs hosts ;;
     summary args subs hosts).
Proof.
  apply keeps_bind; [by apply keeps_generate_report|]. intros _.
  apply keeps_bind; [|intros _; by apply keeps_summary].
  apply keeps_notify_step; [done|apply post_keeps_commands].
Qed.

Lemma universal_newlines_nonempty s :
  s ≠ EmptyString → universal_newlines s ≠ EmptyString.
Proof.
  destruct s as [|c r]; [done|]. intros _. cbn.
  destruct (Ascii.eqb c CR); [|done]. destruct r as [|d r']; [done|].
  by destruct (Ascii.eqb d LF).
Qed.

Lemma iter_lines_nonempty s : s ≠ EmptyString → iter_lines s ≠ [].
Proof.
  destruct s as [|c r]; [done|]. intros _. cbn.
  destruct (Ascii.eqb c LF); [done|]. by destruct (iter_lines r).
Qed.

Lemma list_file_nonempty sub subs : list_file (sub :: subs) ≠ EmptyString.
Proof. cbn [list_file foldr]. by destruct sub. Qed.

Lemma stripped_lines_nonempty text : stripped_lines text ≠ [] → iter_lines text ≠ [].
Proof. unfold stripped_lines. intros H Heq. by rewrite Heq in H. Qed.

(** The cases of the notification step. *)
Lemma notify_step_posts args subs hosts w :
  posts (notify_step E args subs hosts w).2 = posts w
  ∨ ∃ u payload,
      webhook args = Some u ∧ u ≠ EmptyString
      ∧ (notify args = "discord" ∨ notify args = "slack")
      ∧ posts (notify_step E args subs hosts w).2 = posts w ++ [(u, payload)].
Proof.
  enough (∃ r w', notify_step E args subs hosts w = (r, w')
                  ∧ (posts w' = posts w
                     ∨ ∃ u payload,
                         webhook args = Some u ∧ u ≠ EmptyString
                         ∧ (notify args = "discord" ∨ notify args = "slack")
                         ∧ posts w' = posts w ++ [(u, payload)]))
    as (r & w' & -> & H) by exact H.
  unfold notify_step.
  destruct (negb (String.eqb (notify args) "none")); cbn [andb];
    [|eexists _, _; split; [reflexivity|by left]].
  destruct (webhook args) as [u|] eqn:Hu;
    [|eexists _, _; split; [reflexivity|by left]].
  destruct (truthy u) eqn:Ht; [|eexists _, _; split; [reflexivity|by left]].
  rewrite bind_run. unfold print_status at 1. rewrite bind_run.
  change (default EmptyString (Some u)) with u.
  destruct (send_notification_cases E (domain args) (length subs) (length hosts) u
              (notify args)
              (add_output (Status info ("Sending notification via " +:+ notify args
                                        +:+ "...")) w))
    as (b & w' & -> & _ & _ & [[_ Hp]|(payload & Hplat & Hne & Hp & _)]).
  - eexists _, _. split; [reflexivity|]. by left.
  - eexists _, _. split; [reflexivity|]. right. by exists u, payload.
Qed.
End process_facts.

(** X20. A scan that enumerates and has passed the set-up runs, after the
    set-up, [subfinder] once and then, when probing is not skipped and
    [run_subfinder] returned a name, [httpx] once on the list file of the
    session; nothing else, whether the scan ends with status 0 or 1. *)
Theorem fresh_scan_processes (E : environment) (args : arguments) (w w1 : world) :
  skip_subfinder args = false →
  setup E args w = (Ok (), w1) →
  let subdomains_file := session_file E args "_subdomains.txt" in
  let live_hosts_file := session_file E args "_live.json" in
  ∃ subdomains w2,
    run_subfinder E (domain args) subdomains_file w1 = (Ok subdomains, w2)
    ∧ commands (script E args w).2
      = commands w1
        ++ subfinder_cmd (domain args)
           :: (if negb (skip_httpx args) && bool_decide (subdomains ≠ [])
               then [httpx_cmd subdomains_file live_hosts_file] else []).
Proof.
  intros Hskip Hsetup sf lf.
  destruct (run_subfinder_total E (domain args) sf w1) as (subs & w2 & Hrun).
  exists subs, w2. split; [done|].
  pose proof (run_subfinder_commands E (domain args) sf w1) as Hc2.
  rewrite Hrun in Hc2. cbn [snd] in Hc2.
  rewrite script_commands. unfold main. rewrite bind_run, Hsetup. unfold stages.
  rewrite bind_run. unfold resolve_subdomains. rewrite Hskip. cbn [negb].
  rewrite bind_run. fold sf. rewrite Hrun, bind_run.
  destruct subs as [|sub subs].
  - unfold when, print_status at 1. rewrite ret_run.
    rewrite then_keeps by (intros; apply closing_keeps_commands).
    rewrite andb_false_r. unfold probe. rewrite andb_false_r.
    destruct (skip_httpx args); rewrite bind_run; unfold print_status at 1;
      cbn; by rewrite Hc2.
  - unfold when. rewrite !ret_run.
    rewrite then_keeps by (intros; apply closing_keeps_commands).
    rewrite bool_decide_true by done. rewrite andb_true_r. unfold probe.
    rewrite andb_true_r.
    destruct (skip_httpx args); cbn [negb].
    + rewrite bind_run. unfold print_status at 1. cbn. by rewrite Hc2.
    + do 2 (rewrite bind_run; unfold print at 1).
      destruct (run_subfinder_nonempty_file E _ _ _ _ _ Hrun ltac:(done)) as [Hf Hd].
      erewrite run_httpx_commands; [| exact Hf | exact Hd |].
      * cbn [commands add_output]. rewrite Hc2. by rewrite <-app_assoc.
      * apply iter_lines_nonempty, universal_newlines_nonempty, list_file_nonempty.
Qed.

(** Witness of X20: the sample scan runs both tools. *)
Lemma fresh_scan_processes_witness :
  let E := env found no_vars post_ok in
  ∃ subdomains w2,
    run_subfinder E "example.com" list_path (setup E scan empty_world).2
    = (Ok subdomains, w2)
    ∧ commands (script E scan empty_world).2
      = commands (setup E scan empty_world).2
        ++ subfinder_cmd "example.com"
           :: (if negb (skip_httpx scan) && bool_decide (subdomains ≠ [])
               then [httpx_cmd list_path live_path] else []).
Proof.
  intros E.
  apply (fresh_scan_processes E scan empty_world (setup E scan empty_world).2).
  - reflexivity.
  - vm_compute. reflexivity.
Defined.

(** X21. With [--skip-subfinder]: if probing is skipped too, the whole
    run starts no process; otherwise, when the latest list of the domain can
    be read and holds a name, the only process after the set-up is [httpx],
    run on that earlier list, not on the list file of the new session. *)
Theorem resumed_scan_processes (E : environment) (args : arguments) (w : world) :
  skip_subfinder args = true →
  let after := commands (script E args w).2 in
  (skip_httpx args = true → after = commands w)
  ∧ (∀ (w1 : world) (f c : string),
       skip_httpx args = false →
       setup E args w = (Ok (), w1) →
       (is_Some (files w1 !! f)
        ∧ glob_match E (output_dir args) (domain args +:+ "_*_subdomains.txt") f = true) →
       (∀ g, is_Some (files w1 !! g)
             ∧ glob_match E (output_dir args) (domain args +:+ "_*_subdomains.txt") g
               = true →
             String.le g f) →
       files w1 !! f = Some c → denied w1 !! f = None →
       stripped_lines (universal_newlines c) ≠ [] →
       after = commands w1 ++ [httpx_cmd f (session_file E args "_live.json")]).
Proof.
  intros Hskip after. subst after. rewrite script_commands. split.
  - intros Hskip2. unfold main. rewrite bind_run.
    assert (keeps commands (setup E args)) as Hsetup.
    { unfold setup. rewrite Hskip, Hskip2.
      apply keeps_bind; [apply keeps_mkdir|]. intros _.
      do 5 (apply keeps_bind; [done|]; intros _).
      apply keeps_bind; [done|]. intros b1. apply keeps_if; [done|].
      apply keeps_bind; [done|]. intros b2. by apply keeps_if. }
    specialize (Hsetup w). destruct (setup E args w) as [[[]|e] w1]; [|done].
    cbn [snd] in Hsetup. rewrite <-Hsetup. unfold stages.
    assert (keeps commands
              (resolve_subdomains E args (session_file E args "_subdomains.txt")))
      as Hres.
    { unfold resolve_subdomains. rewrite Hskip. cbn [negb].
      apply keeps_bind; [done|]. intros _. apply keeps_bind; [done|].
      intros existing. destruct (last (sorted existing)).
      - apply keeps_bind; [done|]. intros _.
        apply keeps_bind; [by apply keeps_read_text|done].
      - by apply keeps_bind. }
    rewrite bind_run. specialize (Hres w1).
    destruct (resolve_subdomains E args _ w1) as [[[subs sf]|e] w2]; [|done].
    cbn [snd] in Hres. rewrite <-Hres.
    rewrite then_keeps by (intros; apply closing_keeps_commands).
    unfold probe. rewrite Hskip2. cbn [negb andb]. by rewrite bind_run.
  - intros w1 f c Hskip2 Hsetup Hf Hmax Hc Hd Hne.
    set (pattern := domain args +:+ "_*_subdomains.txt") in *.
    assert (∀ p, p ∈ filter (λ p, glob_match E (output_dir args) pattern p = true)
                       (elements (dom (files w1)))
                 ↔ is_Some (files w1 !! p)
                   ∧ glob_match E (output_dir args) pattern p = true) as Hcand.
    { intros p. rewrite list_elem_of_filter, elem_of_elements, elem_of_dom. tauto. }
    unfold main. rewrite bind_run, Hsetup. unfold stages. rewrite bind_run.
    unfold resolve_subdomains. rewrite Hskip. cbn [negb].
    rewrite bind_run. unfold print_status at 1. rewrite bind_run.
    unfold glob at 1. cbn [files add_output]. fold pattern.
    rewrite (last_sorted_max _ f).
    2:{ by apply Hcand. }
    2:{ intros g Hg. by apply Hmax, Hcand. }
    rewrite bind_run. unfold print_status at 1. rewrite bind_run.
    erewrite read_text_Ok; [|exact Hc|exact Hd]. rewrite ret_run.
    rewrite then_keeps by (intros; apply closing_keeps_commands).
    unfold probe. rewrite Hskip2. cbn [negb andb].
    destruct (stripped_lines (universal_newlines c)) as [|sub subs] eqn:Hlines;
      [done|].
    do 2 (rewrite bind_run; unfold print at 1).
    erewrite run_httpx_commands; [done|exact Hc|exact Hd|].
    apply stripped_lines_nonempty. by rewrite Hlines.
Qed.

(** Witness of X21: a report-only run, and a resumed run that probes the later
    of two lists. *)
Lemma resumed_scan_processes_witness :
  let E := env found no_vars post_ok in
  commands (script E scan_reporting earlier_scans).2 = commands earlier_scans
  ∧ commands (script E scan_resuming earlier_scans).2
    = commands (setup E scan_resuming earlier_scans).2
      ++ [httpx_cmd list_path live_path].
Proof.
  intros E. split.
  - apply (proj1 (resumed_scan_processes E scan_reporting earlier_scans eq_refl)).
    reflexivity.
  - apply (proj2 (resumed_scan_processes E scan_resuming earlier_scans eq_refl)
             (setup E scan_resuming earlier_scans).2 list_path
             (" a.example.com " +:+ nl +:+ nl +:+ "b.example.com" +:+ nl)).
    + reflexivity.
    + vm_compute. reflexivity.
    + split; [|reflexivity]. vm_compute. by eexists.
    + intros g [Hg Hm]. apply elem_of_dom in Hg.
      change (dom (files (setup E scan_resuming earlier_scans).2))
        with (dom (list_to_map (M := gmap string string)
                [(older_list_path, "old.example.com" +:+ nl);
                 (list_path, " a.example.com " +:+ nl +:+ nl +:+ "b.example.com" +:+ nl);
                 ("results/other.org_20260101_000000_subdomains.txt",
                  "www.other.org" +:+ nl)])) in Hg.
      rewrite dom_list_to_map_L in Hg. cbn in Hg.
      rewrite !elem_of_union, !elem_of_singleton in Hg.
      destruct Hg as [->|[->|[->|Hg]]].
      * vm_compute. exact I.
      * vm_compute. exact I.
      * vm_compute in Hm. discriminate Hm.
      * by apply elem_of_empty in Hg.
    + vm_compute. reflexivity.
    + vm_compute. reflexivity.
    + vm_compute. discriminate.
Defined.

(** X22. A run sends at most one HTTP request, and only for Discord or
    Slack with a non-empty [--webhook], to that address as given. With
    [--notify none], with Telegram, or without [--webhook] (whatever the
    environment holds) nothing is ever sent. *)
Theorem posts_only_to_webhook (E : environment) (args : arguments) (w : world) :
  posts (script E args w).2 = posts w
  ∨ ∃ u payload,
      webhook args = Some u ∧ u ≠ EmptyString
      ∧ (notify args = "discord" ∨ notify args = "slack")
      ∧ posts (script E args w).2 = posts w ++ [(u, payload)].
Proof.
  rewrite script_posts. unfold main. rewrite bind_run.
  assert (keeps posts (setup E args)) as H1 by (by apply keeps_setup).
  specialize (H1 w).
  destruct (setup E args w) as [[[]|e] w1]; [|by left].
  cbn [snd] in H1. rewrite <-H1. unfold stages. rewrite bind_run.
  assert (keeps posts (resolve_subdomains E args
                         (session_file E args "_subdomains.txt"))) as H2
    by (by apply keeps_resolve_subdomains).
  specialize (H2 w1).
  destruct (resolve_subdomains E args _ w1) as [[[subs sf]|e] w2]; [|by left].
  cbn [snd] in H2. rewrite <-H2. rewrite bind_run.
  assert (keeps posts (probe E args subs sf (session_file E args "_live.json")))
    as H3 by (by apply keeps_probe).
  specialize (H3 w2).
  destruct (probe E args subs sf _ w2) as [[hosts|e] w3]; [|by left].
  cbn [snd] in H3. rewrite <-H3. rewrite bind_run.
  assert (keeps posts (generate_report E args sf (session_file E args "_live.json")
                         (session_file E args "_report.txt") subs hosts)) as H4
    by (by apply keeps_generate_report).
  specialize (H4 w3).
  destruct (generate_report E args sf _ _ subs hosts w3) as [[[]|e] w4]; [|by left].
  cbn [snd] in H4. rewrite <-H4.
  rewrite then_keeps by (intros; by apply keeps_summary).
  apply notify_step_posts.
Qed.

(** X23. The report step always returns, whatever the live hosts are and
    whether or not the report file can be opened; it changes no file other
    than the report file, starts no process and sends no request. *)
Theorem generate_report_touches_only_report (E : environment) (args : arguments)
    (subdomains_file live_hosts_file report_file : string)
    (subdomains : list string) (live_hosts : list pyval) (w : world) :
  ∃ w',
    generate_report E args subdomains_file live_hosts_file report_file
                    subdomains live_hosts w = (Ok (), w')
    ∧ (∀ q, q ≠ report_file → files w' !! q = files w !! q)
    ∧ commands w' = commands w ∧ posts w' = posts w.
Proof.
  destruct (generate_report_returns E args subdomains_file live_hosts_file report_file
              subdomains live_hosts w) as [w' Hrun].
  exists w'. split; [exact Hrun|]. split_and!.
  - intros q Hq.
    assert (keeps (λ w, files w !! q)
              (generate_report E args subdomains_file live_hosts_file report_file
                               subdomains live_hosts)) as Hkeeps.
    { apply keeps_generate_report; [apply file_ignores_output|].
      by apply file_ignores_file. }
    specialize (Hkeeps w). by rewrite Hrun in Hkeeps.
  - assert (keeps commands
              (generate_report E args subdomains_file live_hosts_file report_file
                               subdomains live_hosts)) as Hkeeps
      by (by apply keeps_generate_report).
    specialize (Hkeeps w). by rewrite Hrun in Hkeeps.
  - assert (keeps posts
              (generate_report E args subdomains_file live_hosts_file report_file
                               subdomains live_hosts)) as Hkeeps
      by (by apply keeps_generate_report).
    specialize (Hkeeps w). by rewrite Hrun in Hkeeps.
Qed.

(** Witness of X23: hosts that are not records or cannot be reported leave the
    list file as it was. *)
Lemma generate_report_touches_only_report_witness :
  let E := env found no_vars post_ok in
  ∃ w', generate_report E scan list_path live_path "results/report.txt"
          ["a.example.com"] [PInt 5; PDict [("technologies", PInt 5)]] listed
        = (Ok (), w')
        ∧ files w' !! list_path = files listed !! list_path.
Proof.
  intros E.
  destruct (generate_report_touches_only_report E scan list_path live_path
              "results/report.txt" ["a.example.com"]
              [PInt 5; PDict [("technologies", PInt 5)]] listed)
    as (w' & Hrun & Hfiles & _).
  exists w'. split; [exact Hrun|]. apply Hfiles. vm_compute. discriminate.
Defined.

(** X6. [main] returns normally, for parsed arguments that ask for
    the enumeration (no [--skip-subfinder]) and for no notification or give
    a non-empty [--webhook], once the set-up has passed and provided the
    list file of the session can be opened: no failure of the tools, of the
    report or of the notification service stops it. (A keyboard interrupt
    is no such failure.) *)
Theorem fresh_scan_completes (E : environment) (args : arguments) (w w1 : world) :
  skip_subfinder args = false →
  notify args = "none" ∨ (∃ u, webhook args = Some u ∧ u ≠ EmptyString) →
  setup E args w = (Ok (), w1) →
  denied w1 !! session_file E args "_subdomains.txt" = None →
  ∃ w', main E args w = (Ok (), w').
Proof.
  intros Hskip Hnotify Hsetup Hopen.
  unfold main. rewrite bind_run, Hsetup. unfold stages. rewrite bind_run.
  unfold resolve_subdomains. rewrite Hskip. cbn [negb]. rewrite bind_run.
  destruct (run_subfinder_total E (domain args)
              (session_file E args "_subdomains.txt") w1) as (subs & w2 & Hrun).
  assert (denied w2 = denied w1) as Hd2.
  { assert (keeps denied (run_subfinder E (domain args)
                            (session_file E args "_subdomains.txt"))) as Hkeeps
      by (by apply keeps_run_subfinder).
    specialize (Hkeeps w1). by rewrite Hrun in Hkeeps. }
  rewrite Hrun.
  assert (∃ w3, when (match subs with [] => true | _ => false end)
                  (print_status "No subdomains found. Continuing anyway..." warning)
                  w2 = (Ok (), w3)
                ∧ denied w3 = denied w2) as (w3 & Hw3 & Hd3).
  { unfold when. destruct subs; by eexists. }
  rewrite bind_run, Hw3, ret_run, bind_run.
  assert (∃ hosts w4, probe E args subs (session_file E args "_subdomains.txt")
                        (session_file E args "_live.json") w3 = (Ok hosts, w4))
    as (hosts & w4 & ->).
  { unfold probe. destruct (skip_httpx args); cbn [negb andb]; [by eauto|].
    destruct subs as [|s subs]; [by eauto|].
    do 2 (rewrite bind_run; unfold print at 1).
    apply run_httpx_total. right. cbn. by rewrite Hd3, Hd2. }
  rewrite bind_run.
  destruct (generate_report_returns E args (session_file E args "_subdomains.txt")
              (session_file E args "_live.json") (session_file E args "_report.txt")
              subs hosts w4) as [w5 ->].
  rewrite bind_run.
  assert (∃ w6, notify_step E args subs hosts w5 = (Ok (), w6)) as [w6 ->].
  { unfold notify_step. destruct Hnotify as [->|(u & -> & Hu)].
    - by eexists.
    - apply truthy_true in Hu as ->. destruct (negb _); [|by eexists].
      cbn [andb]. rewrite bind_run. unfold print_status at 1. rewrite bind_run.
      destruct (send_notification_returns E (domain args) (length subs) (length hosts)
                  (default EmptyString (Some u)) (notify args)
                  (add_output (Status info ("Sending notification via "
                                            +:+ notify args +:+ "...")) w5))
        as (b & w6 & ->).
      by eexists. }
  by eexists.
Qed.

(** Witness of X6: the sample scan. *)
Lemma fresh_scan_completes_witness :
  ∃ w', main (env found no_vars post_ok) scan empty_world = (Ok (), w').
Proof.
  apply (fresh_scan_completes (env found no_vars post_ok) scan empty_world
           (setup (env found no_vars post_ok) scan empty_world).2).
  - reflexivity.
  - by left.
  - vm_compute. reflexivity.
  - vm_compute. reflexivity.
Defined.

(** ** The summary of the live hosts, and the probe after the enumeration *)

Section display_facts.
Context (E : environment).

(** A record whose title cannot be cut stops the summary. *)
Lemma show_host_raises i d w :
  ¬ displayable (PDict d) →
  ∃ msg, show_host E i (PDict d) w = (Exc (Error TypeError msg), w).
Proof.
  unfold displayable, show_host. intros Hd. rewrite bind_run.
  destruct (dict_get d "title" (PStr "N/A"));
    first [by exfalso; apply Hd | by eexists].
Qed.

Lemma show_live_hosts_raises before d rest w :
  length before < 5 → Forall displayable before → ¬ displayable (PDict d) →
  ∃ msg w', show_live_hosts E (before ++ PDict d :: rest) w
            = (Exc (Error TypeError msg), w').
Proof.
  intros Hlen Hall Hd. unfold show_live_hosts.
  assert (∀ (k1 k2 : Py unit),
            match before ++ PDict d :: rest with [] => k1 | _ => k2 end = k2) as ->.
  { intros k1 k2. by destruct before. }
  rewrite bind_run. unfold print_status at 1. rewrite bind_run.
  rewrite take_app_ge by lia.
  destruct (5 - length before) as [|n] eqn:Hn; [lia|]. cbn [take].
  unfold enumerate1. rewrite imap_app. rewrite for_each_app.
  destruct (prints_for_each_elem (imap (λ i x, (S i, x)) before)
              (λ '(i, host), show_host E i host)) with
    (w := add_output (Status info "Live hosts found:") w) as ([] & o & ->).
  { intros [i host] Hin%elem_of_enumerate1. apply prints_show_host.
    revert host Hin. by apply Forall_forall. }
  cbn [imap for_each]. rewrite bind_run.
  destruct (show_host_raises (S (length before + 0)) d (add_outputs o
              (add_output (Status info "Live hosts found:") w)) Hd) as [msg ->].
  by eexists _, _.
Qed.
End display_facts.

(** X24. When one of the first five records read from the output file of
    [httpx] has a title that is neither a string nor a list (a number,
    [null]), printing the summary raises inside the [try]: [run_httpx]
    prints [Error running httpx] and returns an empty list, although the
    records were read. *)
Theorem unprintable_title_loses_hosts (E : environment)
    (subdomains_file output_file : string) (w : world) (c : string)
    (rc : Z) (out err : string) (fs : gmap string string)
    (before : list pyval) (d : list (string * pyval)) (rest : list pyval) :
  files w !! subdomains_file = Some c → denied w !! subdomains_file = None →
  iter_lines (universal_newlines c) ≠ [] →
  spawn E (httpx_cmd subdomains_file output_file) (Some 600) (files w)
  = (Completed rc out err, fs) →
  (∀ w3, files w3 = fs → denied w3 = denied w →
         read_live_hosts E output_file w3 = (Ok (before ++ PDict d :: rest), w3)) →
  length before < 5 → Forall displayable before → ¬ displayable (PDict d) →
  ∃ w' msg,
    run_httpx E subdomains_file output_file w = (Ok [], w')
    ∧ last (output w') = Some (Status error ("Error running httpx: " +:+ msg)).
Proof.
  intros Hc Hden Hl Hspawn Hread Hlen Hall Hd.
  rewrite (run_httpx_enters_try E _ _ _ c) by done.
  unfold try_except, run_httpx_try.
  rewrite bind_run. unfold print_status at 1.
  rewrite bind_run. unfold print_status at 1.
  rewrite bind_run. erewrite subprocess_run_Completed by exact Hspawn.
  cbn [returncode stderr]. rewrite bind_run.
  set (w2 := add_command _ _).
  assert (∃ w3, (if negb (rc =? 0)%Z && negb (rc =? 1)%Z
                 then print_status ("Httpx failed (code " +:+ pretty rc +:+ "): "
                                    +:+ str_take 200 (universal_newlines err)) error
                 else mret ()) w2 = (Ok (), w3)
                ∧ files w3 = fs ∧ denied w3 = denied w) as (w3 & -> & Hf3 & Hd3).
  { destruct (negb (rc =? 0)%Z && negb (rc =? 1)%Z); by eexists. }
  rewrite bind_run, (Hread w3 Hf3 Hd3). rewrite bind_run. unfold print_status at 1.
  rewrite bind_run.
  destruct (show_live_hosts_raises E before d rest
              (add_output (Status success
                 ("Found " +:+ pretty (length (before ++ PDict d :: rest))
                  +:+ " live hosts in " +:+ elapsed_2f E +:+ " seconds")) w3)
              Hlen Hall Hd) as (msg & w4 & ->).
  cbn [run_httpx_except]. rewrite bind_run. unfold print_status at 1.
  eexists _, msg. split; [reflexivity|]. cbn. apply last_snoc.
Qed.

(** Witness of X24: the only record has the title [null]. *)
Lemma unprintable_title_loses_hosts_witness :
  ∃ w' msg,
    run_httpx (env untitled no_vars post_ok) list_path live_path listed = (Ok [], w')
    ∧ last (output w') = Some (Status error ("Error running httpx: " +:+ msg)).
Proof.
  apply (unprintable_title_loses_hosts (env untitled no_vars post_ok) list_path
           live_path listed ("a.example.com" +:+ nl) 0%Z EmptyString EmptyString
           (<[live_path := untitled_line +:+ nl]> (files listed))
           [] [("url", PStr "https://a.example.com"); ("title", PNone)] []).
  - vm_compute. reflexivity.
  - vm_compute. reflexivity.
  - vm_compute. discriminate.
  - reflexivity.
  - intros w3 Hf3 Hd3. unfold read_live_hosts.
    rewrite bind_run, path_exists_run, Hf3.
    rewrite bool_decide_true by (vm_compute; by eexists).
    rewrite bind_run. erewrite read_text_Ok; [|by rewrite Hf3|by rewrite Hd3].
    reflexivity.
  - cbn. lia.
  - constructor.
  - intros H. exact H.
Defined.

(** X25. After a successful enumeration that found a name, [run_httpx]
    on the list file that [run_subfinder] wrote passes its two checks and
    announces as many subdomains as [run_subfinder] returned. *)
Theorem probe_count_matches (E : environment) (domain subdomains_file output_file : string)
    (w : world) (raw err : string) (fs : gmap string string) :
  spawn E (subfinder_cmd domain) (Some 300) (files w) = (Completed 0 raw err, fs) →
  denied w !! subdomains_file = None →
  let unique := dedupe (output_lines (universal_newlines raw)) in
  unique ≠ [] →
  ∃ w1,
    run_subfinder E domain subdomains_file w = (Ok unique, w1)
    ∧ run_httpx E subdomains_file output_file w1
      = try_except (run_httpx_try E subdomains_file output_file (length unique))
                   run_httpx_except
          (add_output (Status info ("Probing for live hosts from: "
                                    +:+ subdomains_file)) w1).
Proof.
  intros Hspawn Hden unique Hne.
  destruct (run_subfinder_success E domain subdomains_file w raw err fs Hspawn Hden)
    as (w1 & Hrun & Hf & Hd1).
  fold unique in Hrun, Hf. exists w1. split; [exact Hrun|].
  assert (universal_newlines (list_file unique) = list_file unique) as Hnl.
  { apply universal_newlines_id, list_file_no_CR, output_lines_clean. right.
    apply contains_strip, universal_newlines_no_CR. }
  assert (iter_lines (universal_newlines (list_file unique))
          = (λ sub, sub +:+ nl) <$> unique) as Hlines.
  { rewrite Hnl. apply list_file_lines, output_lines_clean. by left. }
  rewrite (run_httpx_enters_try E _ _ _ (list_file unique)).
  - by rewrite Hlines, length_fmap.
  - exact Hf.
  - by rewrite Hd1.
  - rewrite Hlines. by destruct unique.
Qed.

(** Witness of X25: two names found, two announced. *)
Lemma probe_count_matches_witness :
  let E := env found no_vars post_ok in
  ∃ w1,
    run_subfinder E "example.com" list_path empty_world
    = (Ok ["a.example.com"; "b.example.com"], w1)
    ∧ run_httpx E list_path live_path w1
      = try_except (run_httpx_try E list_path live_path 2) run_httpx_except
          (add_output (Status info ("Probing for live hosts from: " +:+ list_path))
                      w1).
Proof.
  intros E.
  apply (probe_count_matches E "example.com" list_path live_path empty_world
           ("a.example.com" +:+ nl +:+ "b.example.com" +:+ nl
            +:+ "a.example.com" +:+ nl) EmptyString ∅).
  - reflexivity.
  - vm_compute. reflexivity.
  - vm_compute. discriminate.
Defined.
